(** * The books API of lib-demo: route handlers over a property graph

    A shallow embedding of [src/app/api/books/route.ts].  The four route
    handlers (GET, POST, PUT, DELETE) validate their input in TypeScript and
    then hand one Cypher statement to the graph store.  Both halves are
    embedded: the TypeScript part as functions over JSON values and query
    parameters, the Cypher statements clause by clause as table
    transformers threaded through the state of the graph.  The page that
    calls the handlers ([BooksPage]) is embedded with its state and its
    event handlers, and run against the same store.

    Modelling choices:
    - the store is the list of its nodes and the list of its relationships,
      in insertion order, with a counter for the next identity of each
      kind; a Book has the properties [bookId] and [title], an Author or a
      Genre has [name];
    - a statement runs to its end and its writes are kept (the driver's
      auto-commit), failures of the store itself are not modelled;
    - strings are byte strings, read as UTF-8; [toLower] replaces every
      letter that has a lowercase form by it, one character at a time (the
      simple mapping of Unicode 14.0), rules that depend on the context of
      a letter or on a locale are not modelled; [trim] removes the white
      space of ECMAScript;
    - JSON numbers are integers; a request body is the parsed JSON value;
    - [neo4j.int] and [uuidv4] belong to libraries: the first is a section
      variable, the value of the second an argument of POST. *)

From Stdlib Require Import List String Ascii ZArith Bool Lia Permutation.
From Stdlib Require Import DecimalString.
Import ListNotations.

Open Scope string_scope.
Open Scope Z_scope.
Open Scope list_scope.

Set Implicit Arguments.

(* ------------------------------------------------------------------ *)
(** ** Strings: UTF-8, [toLower] and [CONTAINS] *)

Module Str.

(** [starts_with t s]: [t] is a prefix of [s]. *)
Fixpoint starts_with (t s : string) : bool :=
  match t, s with
  | EmptyString, _ => true
  | String _ _, EmptyString => false
  | String c t', String d s' => Ascii.eqb c d && starts_with t' s'
  end.

(** Cypher's [s CONTAINS t]. *)
Fixpoint contains (s t : string) : bool :=
  starts_with t s ||
  match s with
  | EmptyString => false
  | String _ s' => contains s' t
  end.

(** The UTF-8 encoding of a code point. *)
Definition utf8 (cp : N) : string :=
  let byte n := ascii_of_N n in
  (if cp <? 128 then String (byte cp) ""
   else if cp <? 2048 then
     String (byte (192 + cp / 64)) (String (byte (128 + cp mod 64)) "")
   else if cp <? 65536 then
     String (byte (224 + cp / 4096))
       (String (byte (128 + (cp / 64) mod 64)) (String (byte (128 + cp mod 64)) ""))
   else
     String (byte (240 + cp / 262144))
       (String (byte (128 + (cp / 4096) mod 64))
          (String (byte (128 + (cp / 64) mod 64))
             (String (byte (128 + cp mod 64)) ""))))%N.

(** The string of a list of code points. *)
Definition text (cps : list N) : string :=
  fold_right (fun cp s => (utf8 cp ++ s)%string) "" cps.

(** The characters of a list, one after the other. *)
Definition flat (l : list string) : string := fold_right append "" l.

(** The letters that have a lowercase form, in runs: [(first, last, step,
    low)] stands for the code points [first], [first + step], ... up to
    [last], the lowercase form of [first + i * step] being
    [low + i * step] (the simple lowercase mapping of Unicode 14.0). *)
Definition lower_runs : list (N * N * N * N) :=
  [
    (65, 90, 1, 97); (192, 214, 1, 224); (216, 222, 1, 248);
    (256, 302, 2, 257); (304, 304, 1, 105); (306, 310, 2, 307);
    (313, 327, 2, 314); (330, 374, 2, 331); (376, 376, 1, 255);
    (377, 381, 2, 378); (385, 385, 1, 595); (386, 388, 2, 387);
    (390, 390, 1, 596); (391, 391, 1, 392); (393, 394, 1, 598);
    (395, 395, 1, 396); (398, 398, 1, 477); (399, 399, 1, 601);
    (400, 400, 1, 603); (401, 401, 1, 402); (403, 403, 1, 608);
    (404, 404, 1, 611); (406, 406, 1, 617); (407, 407, 1, 616);
    (408, 408, 1, 409); (412, 412, 1, 623); (413, 413, 1, 626);
    (415, 415, 1, 629); (416, 420, 2, 417); (422, 422, 1, 640);
    (423, 423, 1, 424); (425, 425, 1, 643); (428, 428, 1, 429);
    (430, 430, 1, 648); (431, 431, 1, 432); (433, 434, 1, 650);
    (435, 437, 2, 436); (439, 439, 1, 658); (440, 440, 1, 441);
    (444, 444, 1, 445); (452, 452, 1, 454); (453, 453, 1, 454);
    (455, 455, 1, 457); (456, 456, 1, 457); (458, 458, 1, 460);
    (459, 475, 2, 460); (478, 494, 2, 479); (497, 497, 1, 499);
    (498, 500, 2, 499); (502, 502, 1, 405); (503, 503, 1, 447);
    (504, 542, 2, 505); (544, 544, 1, 414); (546, 562, 2, 547);
    (570, 570, 1, 11365); (571, 571, 1, 572); (573, 573, 1, 410);
    (574, 574, 1, 11366); (577, 577, 1, 578); (579, 579, 1, 384);
    (580, 580, 1, 649); (581, 581, 1, 652); (582, 590, 2, 583);
    (880, 882, 2, 881); (886, 886, 1, 887); (895, 895, 1, 1011);
    (902, 902, 1, 940); (904, 906, 1, 941); (908, 908, 1, 972);
    (910, 911, 1, 973); (913, 929, 1, 945); (931, 939, 1, 963);
    (975, 975, 1, 983); (984, 1006, 2, 985); (1012, 1012, 1, 952);
    (1015, 1015, 1, 1016); (1017, 1017, 1, 1010); (1018, 1018, 1, 1019);
    (1021, 1023, 1, 891); (1024, 1039, 1, 1104); (1040, 1071, 1, 1072);
    (1120, 1152, 2, 1121); (1162, 1214, 2, 1163); (1216, 1216, 1, 1231);
    (1217, 1229, 2, 1218); (1232, 1326, 2, 1233); (1329, 1366, 1, 1377);
    (4256, 4293, 1, 11520); (4295, 4295, 1, 11559); (4301, 4301, 1, 11565);
    (5024, 5103, 1, 43888); (5104, 5109, 1, 5112); (7312, 7354, 1, 4304);
    (7357, 7359, 1, 4349); (7680, 7828, 2, 7681); (7838, 7838, 1, 223);
    (7840, 7934, 2, 7841); (7944, 7951, 1, 7936); (7960, 7965, 1, 7952);
    (7976, 7983, 1, 7968); (7992, 7999, 1, 7984); (8008, 8013, 1, 8000);
    (8025, 8031, 2, 8017); (8040, 8047, 1, 8032); (8072, 8079, 1, 8064);
    (8088, 8095, 1, 8080); (8104, 8111, 1, 8096); (8120, 8121, 1, 8112);
    (8122, 8123, 1, 8048); (8124, 8124, 1, 8115); (8136, 8139, 1, 8050);
    (8140, 8140, 1, 8131); (8152, 8153, 1, 8144); (8154, 8155, 1, 8054);
    (8168, 8169, 1, 8160); (8170, 8171, 1, 8058); (8172, 8172, 1, 8165);
    (8184, 8185, 1, 8056); (8186, 8187, 1, 8060); (8188, 8188, 1, 8179);
    (8486, 8486, 1, 969); (8490, 8490, 1, 107); (8491, 8491, 1, 229);
    (8498, 8498, 1, 8526); (8544, 8559, 1, 8560); (8579, 8579, 1, 8580);
    (9398, 9423, 1, 9424); (11264, 11311, 1, 11312);
    (11360, 11360, 1, 11361); (11362, 11362, 1, 619);
    (11363, 11363, 1, 7549); (11364, 11364, 1, 637);
    (11367, 11371, 2, 11368); (11373, 11373, 1, 593); (11374, 11374, 1, 625);
    (11375, 11375, 1, 592); (11376, 11376, 1, 594); (11378, 11378, 1, 11379);
    (11381, 11381, 1, 11382); (11390, 11391, 1, 575);
    (11392, 11490, 2, 11393); (11499, 11501, 2, 11500);
    (11506, 11506, 1, 11507); (42560, 42604, 2, 42561);
    (42624, 42650, 2, 42625); (42786, 42798, 2, 42787);
    (42802, 42862, 2, 42803); (42873, 42875, 2, 42874);
    (42877, 42877, 1, 7545); (42878, 42886, 2, 42879);
    (42891, 42891, 1, 42892); (42893, 42893, 1, 613);
    (42896, 42898, 2, 42897); (42902, 42920, 2, 42903);
    (42922, 42922, 1, 614); (42923, 42923, 1, 604); (42924, 42924, 1, 609);
    (42925, 42925, 1, 620); (42926, 42926, 1, 618); (42928, 42928, 1, 670);
    (42929, 42929, 1, 647); (42930, 42930, 1, 669); (42931, 42931, 1, 43859);
    (42932, 42946, 2, 42933); (42948, 42948, 1, 42900);
    (42949, 42949, 1, 642); (42950, 42950, 1, 7566);
    (42951, 42953, 2, 42952); (42960, 42960, 1, 42961);
    (42966, 42968, 2, 42967); (42997, 42997, 1, 42998);
    (65313, 65338, 1, 65345); (66560, 66599, 1, 66600);
    (66736, 66771, 1, 66776); (66928, 66938, 1, 66967);
    (66940, 66954, 1, 66979); (66956, 66962, 1, 66995);
    (66964, 66965, 1, 67003); (68736, 68786, 1, 68800);
    (71840, 71871, 1, 71872); (93760, 93791, 1, 93792);
    (125184, 125217, 1, 125218)
  ]%N.

Definition run_pairs (run : N * N * N * N) : list (N * N) :=
  let '(first, last, step, low) := run in
  map (fun i => (first + N.of_nat i * step, low + N.of_nat i * step)%N)
      (seq 0 (S (N.to_nat ((last - first) / step)))).

(** Every such letter with its lowercase form, both in UTF-8. *)
Definition lower_table : list (string * string) :=
  Eval vm_compute in
    map (fun p => (utf8 (fst p), utf8 (snd p))) (flat_map run_pairs lower_runs).

(** Cypher's [toLower]: every letter that has a lowercase form is replaced
    by it, character by character.  The string is read from left to
    right; where a letter of the table starts, its lowercase form is
    written and the letter skipped, every other byte is copied. *)
Fixpoint lower_from (skip : nat) (s : string) : string :=
  match s with
  | EmptyString => EmptyString
  | String c s' =>
      match skip with
      | S k => lower_from k s'
      | O =>
          match find (fun kv => starts_with (fst kv) (String c s')) lower_table with
          | Some (u, l) => (l ++ lower_from (String.length u - 1) s')%string
          | None => String c (lower_from 0 s')
          end
      end
  end.

Definition toLower (s : string) : string := lower_from 0 s.

(** The lowercase form of one character. *)
Definition lower_letter (c : string) : string :=
  match find (fun kv => String.eqb (fst kv) c) lower_table with
  | Some (_, l) => l
  | None => c
  end.

Arguments lower_from : simpl never.
Arguments toLower : simpl never.
Arguments lower_letter : simpl never.

(** Well-formed UTF-8: a first byte announces its number of continuation
    bytes (10xxxxxx). *)
Definition continuation (c : ascii) : bool :=
  let n := N_of_ascii c in ((128 <=? n) && (n <? 192))%N.

Definition tail_length (c : ascii) : option nat :=
  let n := N_of_ascii c in
  (if n <? 128 then Some 0%nat
   else if n <? 192 then None
   else if n <? 224 then Some 1%nat
   else if n <? 240 then Some 2%nat
   else if n <? 248 then Some 3%nat
   else None)%N.

Fixpoint all_continuation (s : string) : bool :=
  match s with
  | EmptyString => true
  | String c s' => continuation c && all_continuation s'
  end.

(** One character: a first byte and its continuation bytes. *)
Definition is_letter (c : string) : bool :=
  match c with
  | EmptyString => false
  | String lead rest =>
      match tail_length lead with
      | Some n => (String.length rest =? n)%nat && all_continuation rest
      | None => false
      end
  end.

Fixpoint well_formed_from (pending : nat) (s : string) : bool :=
  match s with
  | EmptyString => (pending =? 0)%nat
  | String c s' =>
      match pending with
      | S k => continuation c && well_formed_from k s'
      | O =>
          match tail_length c with
          | Some n => well_formed_from n s'
          | None => false
          end
      end
  end.

Definition well_formed (s : string) : bool := well_formed_from 0 s.

(** [Array.prototype.join]. *)
Fixpoint join (sep : string) (l : list string) : string :=
  match l with
  | [] => ""
  | [x] => x
  | x :: l' => x ++ sep ++ join sep l'
  end.

End Str.

(* ------------------------------------------------------------------ *)
(** ** JSON bodies and JavaScript values *)

#[local] Unset Elimination Schemes.
Inductive json : Type :=
| JNull
| JBool (b : bool)
| JNum (n : Z)
| JStr (s : string)
| JArr (items : list json)
| JObj (fields : list (string * json)).
#[local] Set Elimination Schemes.

(** A JavaScript value read out of a body: [None] is [undefined]. *)
Definition jsval := option json.

(** Property access [body.key] on a parsed body.  An object answers with
    its last binding of the key (as [JSON.parse] keeps it), every other
    non-null value with [undefined]. *)
Fixpoint lookup_field (key : string) (fields : list (string * json)) : jsval :=
  match fields with
  | [] => None
  | (k, v) :: rest =>
      match lookup_field key rest with
      | Some w => Some w
      | None => if String.eqb k key then Some v else None
      end
  end.

Definition get_field (key : string) (body : json) : jsval :=
  match body with
  | JObj fields => lookup_field key fields
  | _ => None
  end.

(** JavaScript truthiness, as tested by [!x]. *)
Definition truthy (v : jsval) : bool :=
  match v with
  | None => false
  | Some JNull => false
  | Some (JBool b) => b
  | Some (JNum n) => negb (n =? 0)
  | Some (JStr s) => negb (String.eqb s "")
  | Some (JArr _) => true
  | Some (JObj _) => true
  end.

Definition isArray (v : jsval) : bool :=
  match v with
  | Some (JArr _) => true
  | _ => false
  end.

(** [v.length] of an array value. *)
Definition items_of (v : jsval) : list json :=
  match v with
  | Some (JArr l) => l
  | _ => []
  end.

(** Thrown values. *)
Inductive js_error : Type :=
| Error (message : string)
| TypeError (message : string).

(** [String(err)]. *)
Definition String_of_error (e : js_error) : string :=
  match e with
  | Error m => "Error: " ++ m
  | TypeError m => "TypeError: " ++ m
  end.

Inductive result (A : Type) : Type :=
| Ok (a : A)
| Throw (e : js_error).
Arguments Ok {A} a.
Arguments Throw {A} e.

(** The store of this development keeps string properties.  A body whose
    title is truthy but not a string, or whose arrays hold something else
    than strings, lies outside the embedded fragment. *)
Definition as_string (v : jsval) : option string :=
  match v with
  | Some (JStr s) => Some s
  | _ => None
  end.

Fixpoint as_strings (l : list json) : option (list string) :=
  match l with
  | [] => Some []
  | JStr s :: l' =>
      match as_strings l' with
      | Some ss => Some (s :: ss)
      | None => None
      end
  | _ :: _ => None
  end.

(* ------------------------------------------------------------------ *)
(** ** The property graph *)

Inductive label : Type := Book | Author | Genre.

Inductive properties : Type :=
| BookP (bookId title : string)
| AuthorP (name : string)
| GenreP (name : string).

Record node : Type := Node { identity : Z; props : properties }.

Inductive rel_type : Type := WROTE | IN_GENRE.

Record rel : Type := Rel { rel_id : Z; rtype : rel_type; rstart : Z; rend : Z }.

(** The store: its nodes and relationships in insertion order, and the
    next identifiers it will hand out. *)
Record graph : Type := Graph {
  nodes : list node;
  rels : list rel;
  next_node : Z;
  next_rel : Z
}.

Definition empty_graph : graph := Graph [] [] 0 0.

Definition label_of (n : node) : label :=
  match props n with
  | BookP _ _ => Book
  | AuthorP _ => Author
  | GenreP _ => Genre
  end.

Definition label_eqb (l1 l2 : label) : bool :=
  match l1, l2 with
  | Book, Book | Author, Author | Genre, Genre => true
  | _, _ => false
  end.

Definition rel_type_eqb (t1 t2 : rel_type) : bool :=
  match t1, t2 with
  | WROTE, WROTE | IN_GENRE, IN_GENRE => true
  | _, _ => false
  end.

Definition has_label (l : label) (n : node) : bool := label_eqb (label_of n) l.

(** [n.properties.name] of an Author or Genre node. *)
Definition name (n : node) : string :=
  match props n with
  | AuthorP s => s
  | GenreP s => s
  | BookP _ _ => ""
  end.

Definition title (n : node) : string :=
  match props n with
  | BookP _ t => t
  | _ => ""
  end.

Definition bookId (n : node) : string :=
  match props n with
  | BookP i _ => i
  | _ => ""
  end.

(** Two node values denote the same node when their identities agree. *)
Definition same_node (a b : node) : bool := identity a =? identity b.

(** The properties [{name: s}] of an Author ([WROTE]) or Genre
    ([IN_GENRE]) node: the node at the far end of a relationship of type
    [t]. *)
Definition named (t : rel_type) (s : string) : properties :=
  match t with
  | WROTE => AuthorP s
  | IN_GENRE => GenreP s
  end.

Definition props_eqb (p q : properties) : bool :=
  match p, q with
  | BookP i t, BookP i' t' => String.eqb i i' && String.eqb t t'
  | AuthorP s, AuthorP s' => String.eqb s s'
  | GenreP s, GenreP s' => String.eqb s s'
  | _, _ => false
  end.

(* ------------------------------------------------------------------ *)
(** ** Cypher clauses

    A statement runs clause by clause: every clause consumes the whole
    table of rows its predecessor produced and may update the graph. *)

Definition Q (A : Type) : Type := graph -> graph * A.

Definition ret {A} (a : A) : Q A := fun g => (g, a).

Definition bind {A B} (m : Q A) (k : A -> Q B) : Q B :=
  fun g => let (g', a) := m g in k a g'.

Notation "x <- m ;; k" := (bind m (fun x => k))
  (at level 61, m at next level, right associativity).
Notation "' pat <- m ;; k" := (bind m (fun x => match x with pat => k end))
  (at level 61, pat pattern, m at next level, right associativity).

Definition read {A} (f : graph -> A) : Q A := fun g => (g, f g).
Definition write (f : graph -> graph) : Q unit := fun g => (f g, tt).

(** A clause evaluated row by row; later rows see the writes of earlier
    ones, and the output rows are concatenated in order. *)
Fixpoint per_row {A B} (f : A -> Q (list B)) (rows : list A) : Q (list B) :=
  match rows with
  | [] => ret []
  | r :: rows' =>
      out <- f r ;;
      out' <- per_row f rows' ;;
      ret (out ++ out')
  end.

(** [DISTINCT]: the first occurrence of every value is kept. *)
Fixpoint distinct {A} (same : A -> A -> bool) (l : list A) : list A :=
  match l with
  | [] => []
  | x :: l' => x :: filter (fun y => negb (same x y)) (distinct same l')
  end.

(** Aggregation with grouping keys: one output row per distinct key, in
    the order the keys first appear, holding the values of its rows. *)
Definition group_by {K V} (same : K -> K -> bool) (rows : list (K * V))
  : list (K * list V) :=
  map (fun k => (k, map snd (filter (fun r => same k (fst r)) rows)))
      (distinct same (map fst rows)).

(** [collect] skips nulls. *)
Fixpoint non_null {A} (l : list (option A)) : list A :=
  match l with
  | [] => []
  | Some a :: l' => a :: non_null l'
  | None :: l' => non_null l'
  end.

(** The two relationship shapes of the statements:
    [(b)<-[:WROTE]-(a:Author)] and [(b)-[:IN_GENRE]->(g:Genre)].  For a
    relationship of type [t], [book_end] is the end at the book and
    [far_end] the end at the author or genre. *)
Definition far_label (t : rel_type) : label :=
  match t with
  | WROTE => Author
  | IN_GENRE => Genre
  end.

Definition book_end (t : rel_type) (r : rel) : Z :=
  match t with
  | WROTE => rend r
  | IN_GENRE => rstart r
  end.

Definition far_end (t : rel_type) (r : rel) : Z :=
  match t with
  | WROTE => rstart r
  | IN_GENRE => rend r
  end.

(** The matches of the pattern of type [t] at the book [b]: one per
    relationship and node at its far end carrying the pattern's label. *)
Definition links (t : rel_type) (b : node) (g : graph) : list (rel * node) :=
  flat_map (fun r =>
    if rel_type_eqb (rtype r) t && (book_end t r =? identity b)
    then map (pair r)
             (filter (fun x => (identity x =? far_end t r)
                               && has_label (far_label t) x) (nodes g))
    else []) (rels g).

(** [OPTIONAL MATCH]: a row without a match is kept once, with nulls. *)
Definition optional {A} (matches : list A) : list (option A) :=
  match matches with
  | [] => [None]
  | _ => map Some matches
  end.

Definition OPTIONAL_MATCH (t : rel_type) (b : node) : Q (list (option (rel * node))) :=
  read (fun g => optional (links t b g)).

(** [SET b.title = t]. *)
Definition with_title (t : string) (n : node) : node :=
  match props n with
  | BookP i _ => Node (identity n) (BookP i t)
  | _ => n
  end.

Definition retitle (t : string) (b n : node) : node :=
  if same_node n b then with_title t n else n.

Definition SET_title (b : node) (t : string) : Q node :=
  fun g =>
    (Graph (map (retitle t b) (nodes g)) (rels g) (next_node g) (next_rel g),
     with_title t b).

(** [DELETE r], a no-op on null. *)
Definition DELETE_rel (r : option rel) : Q unit :=
  match r with
  | None => ret tt
  | Some r =>
      write (fun g =>
        Graph (nodes g)
              (filter (fun r' => negb (rel_id r' =? rel_id r)) (rels g))
              (next_node g) (next_rel g))
  end.

(** [DETACH DELETE b]. *)
Definition DETACH_DELETE (b : node) : Q unit :=
  write (fun g =>
    Graph (filter (fun n => negb (same_node n b)) (nodes g))
          (filter (fun r => negb ((rstart r =? identity b) || (rend r =? identity b)))
                  (rels g))
          (next_node g) (next_rel g)).

(** [CREATE (n {p})]. *)
Definition CREATE_node (p : properties) : Q node :=
  fun g =>
    let n := Node (next_node g) p in
    (Graph (nodes g ++ [n]) (rels g) (next_node g + 1) (next_rel g), n).

(** [MERGE (a:Author {name: s})] for [WROTE], [MERGE (g:Genre {name: s})]
    for [IN_GENRE]: every node that matches, or a new one. *)
Definition MERGE_node (t : rel_type) (s : string) : Q (list node) :=
  fun g =>
    match filter (fun n => props_eqb (props n) (named t s)) (nodes g) with
    | [] => let (g', n) := CREATE_node (named t s) g in (g', [n])
    | found => (g, found)
    end.

(** The relationship of type [t] between the book [b] and [x]. *)
Definition link_rel (i : Z) (t : rel_type) (b x : node) : rel :=
  match t with
  | WROTE => Rel i WROTE (identity x) (identity b)
  | IN_GENRE => Rel i IN_GENRE (identity b) (identity x)
  end.

(** [MERGE (a)-[:WROTE]->(b)] and [MERGE (b)-[:IN_GENRE]->(g)]: every
    such relationship, or a new one. *)
Definition MERGE_rel (t : rel_type) (b x : node) : Q (list rel) :=
  fun g =>
    match filter (fun r => rel_type_eqb (rtype r) t
                           && (book_end t r =? identity b)
                           && (far_end t r =? identity x)) (rels g) with
    | [] =>
        let r := link_rel (next_rel g) t b x in
        (Graph (nodes g) (rels g ++ [r]) (next_node g) (next_rel g + 1), [r])
    | found => (g, found)
    end.

(** [UNWIND $list AS x] *)
Definition UNWIND {A B} (l : list B) (rows : list A) : list (A * B) :=
  flat_map (fun r => map (pair r) l) rows.

(** The fragment every write statement repeats per category:
    [UNWIND $names AS n  MERGE (x:l {name: n})  MERGE] the relationship
    between [x] and the book of the row. *)
Definition UNWIND_MERGE {K} (t : rel_type) (book : K -> node)
    (names : list string) (rows : list K) : Q (list (K * node)) :=
  let rows := UNWIND names rows in
  rows <- per_row (fun '(k, s) =>
            found <- MERGE_node t s ;;
            ret (map (pair k) found)) rows ;;
  per_row (fun '(k, x) =>
            found <- MERGE_rel t (book k) x ;;
            ret (map (fun _ => (k, x)) found)) rows.

(** [OPTIONAL MATCH] of the old relationships of type [t], [DELETE] of
    each, [WITH b]. *)
Definition DETACH (t : rel_type) (rows : list node) : Q (list node) :=
  rows <- per_row (fun b =>
            ms <- OPTIONAL_MATCH t b ;;
            ret (map (fun m => (b, option_map fst m)) ms)) rows ;;
  per_row (fun '(b, oldRel) => _ <- DELETE_rel oldRel ;; ret [b]) rows.

(** The tail shared by the GET and PUT statements:
    [OPTIONAL MATCH (b)<-[:WROTE]-(a:Author)
     OPTIONAL MATCH (b)-[:IN_GENRE]->(g:Genre)], leaving rows [(b, (a, g))]. *)
Definition OPTIONAL_MATCH_links (rows : list node)
  : Q (list (node * (option node * option node))) :=
  rows <- per_row (fun b =>
            ms <- OPTIONAL_MATCH WROTE b ;;
            ret (map (fun m => (b, option_map snd m)) ms)) rows ;;
  per_row (fun '(b, a) =>
            ms <- OPTIONAL_MATCH IN_GENRE b ;;
            ret (map (fun m => (b, (a, option_map snd m))) ms)) rows.

Definition collect_fst {A B} (vs : list (option A * option B)) : list A :=
  non_null (map fst vs).

Definition collect_snd {A B} (vs : list (option A * option B)) : list B :=
  non_null (map snd vs).

(* ------------------------------------------------------------------ *)
(** ** Requests and responses *)

(** [searchParams.get] answers [null] for an absent parameter; [if (x)]
    also rejects the empty string. *)
Definition present (p : option string) : bool :=
  match p with
  | Some s => negb (String.eqb s "")
  | None => false
  end.

Definition param (p : option string) : string :=
  match p with
  | Some s => s
  | None => ""
  end.

(** The query string of a GET: [get] for the single-valued parameters,
    [getAll] for the repeatable ones. *)
Record search_params : Type := SearchParams {
  q_id : option string;
  q_title : option string;
  q_bookId : option string;
  q_author : list string;
  q_genre : list string
}.

(** [{ id, ...book, authors, genres }]; [data_id] stands for the decimal
    string [bookNode.identity.toString()]. *)
Record book_data : Type := BookData {
  data_id : Z;
  data_bookId : string;
  data_title : string;
  data_authors : list string;
  data_genres : list string
}.

(** The data of a POST answer: [a.name] is read off the node object
    itself, which has no such field, so every entry is [undefined]. *)
Record created_data : Type := CreatedData {
  created_id : Z;
  created_bookId : string;
  created_title : string;
  created_authors : list (option string);
  created_genres : list (option string)
}.

Inductive payload : Type :=
| Data_list (data : list book_data)
| Data_book (data : book_data)
| Data_created (data : created_data)
| DeletedCount (deletedCount : Z)
| Error_text (error : string)
| Err_object (err : js_error).

(** What is handed to [NextResponse.json]; the status defaults to 200. *)
Record response : Type := Response {
  status : Z;
  success : bool;
  payload_of : payload
}.

(** One pushed condition together with the parameter it registers. *)
Inductive condition : Type :=
| CondId (id : Z)
| CondTitle (title : string)
| CondBookId (bookId : string)
| CondAuthors (authors : list string)
| CondGenres (genres : list string).

Definition condition_text (c : condition) : string :=
  match c with
  | CondId _ => "id(b) = $id"
  | CondTitle _ => "toLower(b.title) CONTAINS toLower($title)"
  | CondBookId _ => "b.bookId = $bookId"
  | CondAuthors _ => "
        EXISTS {
        MATCH (b)<-[:WROTE]-(a:Author)
        WHERE any(searchName IN $authors WHERE toLower(a.name) CONTAINS toLower(searchName))
        }
    "
  | CondGenres _ => "
        EXISTS {
        MATCH (b)-[:IN_GENRE]->(g:Genre)
        WHERE any(searchName IN $genres WHERE toLower(g.name) CONTAINS toLower(searchName))
        }
    "
  end.

Definition whereClause (conditions : list condition) : string :=
  if (0 <? List.length conditions)%nat
  then "WHERE " ++ Str.join " AND " (map condition_text conditions)
  else "".

(** [any(searchName IN terms WHERE toLower(s) CONTAINS toLower(searchName))] *)
Definition any_contains (terms : list string) (s : string) : bool :=
  existsb (fun searchName => Str.contains (Str.toLower s) (Str.toLower searchName))
          terms.

(** The meaning of one condition for the book [b]. *)
Definition holds (g : graph) (b : node) (c : condition) : bool :=
  match c with
  | CondId i => identity b =? i
  | CondTitle t => Str.contains (Str.toLower (title b)) (Str.toLower t)
  | CondBookId i => String.eqb (bookId b) i
  | CondAuthors terms =>
      existsb (fun m => any_contains terms (name (snd m))) (links WROTE b g)
  | CondGenres terms =>
      existsb (fun m => any_contains terms (name (snd m))) (links IN_GENRE b g)
  end.

(** [WHERE c1 AND ... AND cn]; no clause at all when the list is empty. *)
Definition where_holds (g : graph) (conditions : list condition) (b : node) : bool :=
  forallb (holds g b) conditions.

(** [MATCH (b:Book) WHERE ...] *)
Definition MATCH_books (conditions : list condition) : Q (list node) :=
  read (fun g => filter (fun b => has_label Book b && where_holds g conditions b)
                        (nodes g)).

(** The GET statement:
    [RETURN b, collect(DISTINCT a) AS authors, collect(DISTINCT g) AS genres]. *)
Definition GET_query (conditions : list condition)
  : Q (list (node * list node * list node)) :=
  rows <- MATCH_books conditions ;;
  rows <- OPTIONAL_MATCH_links rows ;;
  ret (map (fun '(b, vs) =>
              (b, distinct same_node (collect_fst vs),
                  distinct same_node (collect_snd vs)))
           (group_by same_node rows)).

(** Equality of the grouping key [(b, authors)] of the last clause of the
    POST statement. *)
Definition same_key (k k' : node * list node) : bool :=
  same_node (fst k) (fst k')
  && (List.length (snd k) =? List.length (snd k'))%nat
  && forallb (fun p => same_node (fst p) (snd p)) (combine (snd k) (snd k')).

(** The POST statement. *)
Definition POST_query (bookId title : string) (authors genres : list string)
  : Q (list (node * list node * list node)) :=
  b <- CREATE_node (BookP bookId title) ;;
  rows <- UNWIND_MERGE WROTE (fun b => b) authors [b] ;;
  let rows := map (fun '(b, found) => (b, distinct same_node found))
                  (group_by same_node rows) in
  rows <- UNWIND_MERGE IN_GENRE fst genres rows ;;
  ret (map (fun '(k, found) => (fst k, snd k, distinct same_node found))
           (group_by same_key rows)).

(** The PUT statement. *)
Definition PUT_query (id : Z) (title : string) (authors genres : list string)
  : Q (list (node * list string * list string)) :=
  rows <- MATCH_books [CondId id] ;;
  rows <- per_row (fun b => b' <- SET_title b title ;; ret [b']) rows ;;
  rows <- DETACH WROTE rows ;;
  rows <- DETACH IN_GENRE rows ;;
  rows <- UNWIND_MERGE WROTE (fun b => b) authors rows ;;
  let rows := map fst rows in
  rows <- UNWIND_MERGE IN_GENRE (fun b => b) genres rows ;;
  let rows := map fst rows in
  rows <- OPTIONAL_MATCH_links rows ;;
  ret (map (fun '(b, vs) =>
              (b, distinct String.eqb (map name (collect_fst vs)),
                  distinct String.eqb (map name (collect_snd vs))))
           (group_by same_node rows)).

(** The DELETE statement; [RETURN count(b)] has no grouping key and
    answers with exactly one row. *)
Definition DELETE_query (id : Z) : Q (list Z) :=
  rows <- MATCH_books [CondId id] ;;
  rows <- per_row (fun b => _ <- DETACH_DELETE b ;; ret [b]) rows ;;
  ret [Z.of_nat (List.length rows)].

(* ------------------------------------------------------------------ *)
(** ** The route handlers *)

(** [const { title, authors, genres } = body]; destructuring [null]
    throws. *)
Definition destructure (body : json) : result (jsval * jsval * jsval) :=
  match body with
  | JNull =>
      Throw (TypeError "Cannot destructure property 'title' of 'body' as it is null.")
  | _ => Ok (get_field "title" body, get_field "authors" body, get_field "genres" body)
  end.

(** The checks of POST (route.ts, lines 119-125). *)
Definition POST_validate (body : json) : result (jsval * jsval * jsval) :=
  match destructure body with
  | Throw e => Throw e
  | Ok (title, authors, genres) =>
      if negb (truthy title) then Throw (Error "Book title missing")
      else if negb (truthy authors) || negb (isArray authors)
              || (List.length (items_of authors) =? 0)%nat
      then Throw (Error "At least one author required")
      else if negb (truthy genres) || negb (isArray genres)
              || (List.length (items_of genres) =? 0)%nat
      then Throw (Error "At least one genre required")
      else Ok (title, authors, genres)
  end.

(** The checks of PUT (route.ts, lines 184-188). *)
Definition PUT_validate (body : json) : result (jsval * jsval * jsval) :=
  match destructure body with
  | Throw e => Throw e
  | Ok (title, authors, genres) =>
      if negb (truthy title) then Throw (Error "Book title missing")
      else if negb (truthy authors) || negb (isArray authors)
      then Throw (Error "Authors must be an array")
      else if negb (truthy genres) || negb (isArray genres)
      then Throw (Error "Genres must be an array")
      else Ok (title, authors, genres)
  end.

(** [result.records[0].get(...)] on an empty result. *)
Definition no_record : js_error :=
  TypeError "Cannot read properties of undefined (reading 'get')".

(** POST; [uuid] is the value [uuidv4()] returns for this request.  The
    answer is [None] exactly for the bodies outside the embedded fragment
    (see [as_string]). *)
Definition POST (uuid : string) (body : json) (g : graph)
  : option (response * graph) :=
  match POST_validate body with
  | Throw e => Some (Response 200 false (Err_object e), g)
  | Ok (title_, authors_, genres_) =>
      match as_string title_, as_strings (items_of authors_),
            as_strings (items_of genres_) with
      | Some title', Some authors, Some genres =>
          let (g', records) := POST_query uuid title' authors genres g in
          match records with
          | [] => Some (Response 200 false (Err_object no_record), g')
          | (b, authors, genres) :: _ =>
              Some (Response 200 true
                      (Data_created
                         (CreatedData (identity b) (bookId b) (title b)
                            (map (fun _ => None) authors)
                            (map (fun _ => None) genres))), g')
          end
      | _, _, _ => None
      end
  end.

Section Handlers.

(** [neo4j.int], the driver's conversion of the [id] parameter. *)
Variable neo4j_int : string -> Z.

(** The list [conditions] of GET after its five guarded pushes. *)
Definition conditions (q : search_params) : list condition :=
  (if present (q_id q) then [CondId (neo4j_int (param (q_id q)))] else [])
  ++ (if present (q_title q) then [CondTitle (param (q_title q))] else [])
  ++ (if present (q_bookId q) then [CondBookId (param (q_bookId q))] else [])
  ++ (if (0 <? List.length (q_author q))%nat then [CondAuthors (q_author q)] else [])
  ++ (if (0 <? List.length (q_genre q))%nat then [CondGenres (q_genre q)] else []).

Definition book_of_record (r : node * list node * list node) : book_data :=
  let '(b, authors, genres) := r in
  BookData (identity b) (bookId b) (title b) (map name authors) (map name genres).

Definition GET (q : search_params) (g : graph) : response :=
  let (_, records) := GET_query (conditions q) g in
  Response 200 true (Data_list (map book_of_record records)).

Definition PUT (idParam : option string) (body : json) (g : graph)
  : option (response * graph) :=
  if negb (present idParam)
  then Some (Response 400 false (Error_text "Missing required id"), g)
  else
    match PUT_validate body with
    | Throw e => Some (Response 500 false (Error_text (String_of_error e)), g)
    | Ok (title_, authors_, genres_) =>
        match as_string title_, as_strings (items_of authors_),
              as_strings (items_of genres_) with
        | Some title', Some authors, Some genres =>
            let (g', records) :=
              PUT_query (neo4j_int (param idParam)) title' authors genres g in
            match records with
            | [] => Some (Response 404 false (Error_text "Book not found"), g')
            | (b, authors, genres) :: _ =>
                Some (Response 200 true
                        (Data_book
                           (BookData (identity b) (bookId b) (title b)
                              authors genres)), g')
            end
        | _, _, _ => None
        end
    end.

Definition DELETE (id : option string) (g : graph) : response * graph :=
  if negb (present id)
  then (Response 400 false (Error_text "Missing required id"), g)
  else
    let (g', records) := DELETE_query (neo4j_int (param id)) g in
    match records with
    | [] => (Response 500 false (Error_text (String_of_error no_record)), g')
    | deletedCount :: _ => (Response 200 true (DeletedCount deletedCount), g')
    end.

End Handlers.

(* ------------------------------------------------------------------ *)
(** ** Invariants of the store *)

(** The body of a write request carries the title [t] and the name lists
    [authors] and [genres], the title a non-empty string and the lists
    arrays of strings. *)
Definition carries (body : json) (t : string) (authors genres : list string) : Prop :=
  get_field "title" body = Some (JStr t) /\ t <> ""
  /\ (exists items, get_field "authors" body = Some (JArr items)
                     /\ as_strings items = Some authors)
  /\ (exists items, get_field "genres" body = Some (JArr items)
                     /\ as_strings items = Some genres).

(** [{ "title": t, "authors": [...], "genres": [...] }] *)
Definition body_of (t : string) (authors genres : list string) : json :=
  JObj [("title", JStr t); ("authors", JArr (map JStr authors));
        ("genres", JArr (map JStr genres))].

(** Reading of a decimal string, the instance of [neo4j.int] used to run
    the handlers on concrete requests. *)
Definition digit (c : ascii) : Z := Z.of_nat (nat_of_ascii c) - 48.

Fixpoint decimal_from (acc : Z) (s : string) : Z :=
  match s with
  | EmptyString => acc
  | String c s' => decimal_from (10 * acc + digit c) s'
  end.

Definition decimal (s : string) : Z := decimal_from 0 s.

(** The failing cases of a list check of POST. *)
Definition no_items (v : jsval) : Prop :=
  truthy v = false \/ isArray v = false \/ items_of v = [].

(** The names a write request supplies for the category of [t]. *)
Definition names_of (t : rel_type) (authors genres : list string) : list string :=
  match t with
  | WROTE => authors
  | IN_GENRE => genres
  end.

(** The relationships that survive the [DELETE] of [olds]. *)
Definition kept (olds : list (option rel)) (r' : rel) : bool :=
  forallb (fun o => match o with
                    | Some r => negb (rel_id r' =? rel_id r)
                    | None => true
                    end) olds.

(** [r] is a relationship of type [t] between the book [b] and [x]. *)
Definition links_book (t : rel_type) (r : rel) (b x : node) : Prop :=
  rtype r = t /\ book_end t r = identity b /\ far_end t r = identity x.

(** Both ends of [r] exist and carry the labels of its pattern. *)
Definition well_typed (g : graph) (r : rel) : Prop :=
  exists b x, In b (nodes g) /\ In x (nodes g)
              /\ label_of b = Book /\ label_of x = far_label (rtype r)
              /\ links_book (rtype r) r b x.

(** What every store built by the handlers satisfies: identities are
    unique and below the counters, an Author or Genre is determined by
    its name, relationships join existing nodes of the right labels, and
    no two relationships of one type join the same pair. *)
Record wf (g : graph) : Prop := WF {
  wf_ids : NoDup (map identity (nodes g));
  wf_next_node : forall n, In n (nodes g) -> identity n < next_node g;
  wf_rel_ids : NoDup (map rel_id (rels g));
  wf_next_rel : forall r, In r (rels g) -> rel_id r < next_rel g;
  wf_names : forall a b, In a (nodes g) -> In b (nodes g) ->
                         label_of a <> Book -> props a = props b -> a = b;
  wf_typed : forall r, In r (rels g) -> well_typed g r;
  wf_simple : forall r r', In r (rels g) -> In r' (rels g) ->
                           rtype r = rtype r' -> rstart r = rstart r' ->
                           rend r = rend r' -> r = r'
}.

(** [g'] extends [g] by nodes of category [t] named in [names] and by
    relationships of type [t] between them and the books of [books]. *)
Record extends (t : rel_type) (books : list node) (names : list string)
    (g g' : graph) : Prop := Extends {
  ext_nodes : incl (nodes g) (nodes g');
  ext_rels : incl (rels g) (rels g');
  ext_next_rel : next_rel g <= next_rel g';
  ext_new_nodes : forall n, In n (nodes g') ->
      In n (nodes g) \/ exists s, In s names /\ props n = named t s;
  ext_new_rels : forall r, In r (rels g') ->
      In r (rels g) \/
      (next_rel g <= rel_id r /\
       exists b x s, In b books /\ In x (nodes g') /\ In s names
                     /\ props x = named t s /\ links_book t r b x)
}.

(** The values grouped under the book [b] by the last clauses: one pair
    per author and genre combination. *)
Definition combinations (g : graph) (b : node)
  : list (option node * option node) :=
  flat_map (fun a =>
      map (fun m => (a, option_map snd m)) (optional (links IN_GENRE b g)))
    (map (option_map snd) (optional (links WROTE b g))).

(** The entry of the GET answer for the book [b] of the store [g]. *)
Definition book_view (g : graph) (b : node) : book_data :=
  BookData (identity b) (bookId b) (title b)
    (map name (distinct same_node (collect_fst (combinations g b))))
    (map name (distinct same_node (collect_snd (combinations g b)))).

(** The five search filters, the filter a condition belongs to, and
    whether a request supplies it. *)
Inductive filter_name : Type := F_id | F_title | F_bookId | F_author | F_genre.

Definition filter_of (c : condition) : filter_name :=
  match c with
  | CondId _ => F_id
  | CondTitle _ => F_title
  | CondBookId _ => F_bookId
  | CondAuthors _ => F_author
  | CondGenres _ => F_genre
  end.

Definition filter_name_eqb (f f' : filter_name) : bool :=
  match f, f' with
  | F_id, F_id | F_title, F_title | F_bookId, F_bookId
  | F_author, F_author | F_genre, F_genre => true
  | _, _ => false
  end.

Definition supplied (q : search_params) (f : filter_name) : bool :=
  match f with
  | F_id => present (q_id q)
  | F_title => present (q_title q)
  | F_bookId => present (q_bookId q)
  | F_author => (0 <? List.length (q_author q))%nat
  | F_genre => (0 <? List.length (q_genre q))%nat
  end.

(** [a] is an author ([c = WROTE]) or a genre ([c = IN_GENRE]) of the
    book with identity [i] in [g]. *)
Definition linked (g : graph) (c : rel_type) (i : Z) (a : node) : Prop :=
  In a (nodes g) /\ label_of a = far_label c
  /\ exists r, In r (rels g) /\ rtype r = c
               /\ book_end c r = i /\ far_end c r = identity a.

(** Containment with letter case aside, stated on the characters of the
    two strings and on the pairs of a capital and its small letter,
    without [toLower]. *)

(** The capital letters, each with its small letter (Unicode 14.0). *)
Definition case_pairs : list (N * N) :=
  [
    (65, 97); (66, 98); (67, 99); (68, 100); (69, 101); (70, 102); (71, 103);
    (72, 104); (73, 105); (74, 106); (75, 107); (76, 108); (77, 109);
    (78, 110); (79, 111); (80, 112); (81, 113); (82, 114); (83, 115);
    (84, 116); (85, 117); (86, 118); (87, 119); (88, 120); (89, 121);
    (90, 122); (192, 224); (193, 225); (194, 226); (195, 227); (196, 228);
    (197, 229); (198, 230); (199, 231); (200, 232); (201, 233); (202, 234);
    (203, 235); (204, 236); (205, 237); (206, 238); (207, 239); (208, 240);
    (209, 241); (210, 242); (211, 243); (212, 244); (213, 245); (214, 246);
    (216, 248); (217, 249); (218, 250); (219, 251); (220, 252); (221, 253);
    (222, 254); (256, 257); (258, 259); (260, 261); (262, 263); (264, 265);
    (266, 267); (268, 269); (270, 271); (272, 273); (274, 275); (276, 277);
    (278, 279); (280, 281); (282, 283); (284, 285); (286, 287); (288, 289);
    (290, 291); (292, 293); (294, 295); (296, 297); (298, 299); (300, 301);
    (302, 303); (304, 105); (306, 307); (308, 309); (310, 311); (313, 314);
    (315, 316); (317, 318); (319, 320); (321, 322); (323, 324); (325, 326);
    (327, 328); (330, 331); (332, 333); (334, 335); (336, 337); (338, 339);
    (340, 341); (342, 343); (344, 345); (346, 347); (348, 349); (350, 351);
    (352, 353); (354, 355); (356, 357); (358, 359); (360, 361); (362, 363);
    (364, 365); (366, 367); (368, 369); (370, 371); (372, 373); (374, 375);
    (376, 255); (377, 378); (379, 380); (381, 382); (385, 595); (386, 387);
    (388, 389); (390, 596); (391, 392); (393, 598); (394, 599); (395, 396);
    (398, 477); (399, 601); (400, 603); (401, 402); (403, 608); (404, 611);
    (406, 617); (407, 616); (408, 409); (412, 623); (413, 626); (415, 629);
    (416, 417); (418, 419); (420, 421); (422, 640); (423, 424); (425, 643);
    (428, 429); (430, 648); (431, 432); (433, 650); (434, 651); (435, 436);
    (437, 438); (439, 658); (440, 441); (444, 445); (452, 454); (453, 454);
    (455, 457); (456, 457); (458, 460); (459, 460); (461, 462); (463, 464);
    (465, 466); (467, 468); (469, 470); (471, 472); (473, 474); (475, 476);
    (478, 479); (480, 481); (482, 483); (484, 485); (486, 487); (488, 489);
    (490, 491); (492, 493); (494, 495); (497, 499); (498, 499); (500, 501);
    (502, 405); (503, 447); (504, 505); (506, 507); (508, 509); (510, 511);
    (512, 513); (514, 515); (516, 517); (518, 519); (520, 521); (522, 523);
    (524, 525); (526, 527); (528, 529); (530, 531); (532, 533); (534, 535);
    (536, 537); (538, 539); (540, 541); (542, 543); (544, 414); (546, 547);
    (548, 549); (550, 551); (552, 553); (554, 555); (556, 557); (558, 559);
    (560, 561); (562, 563); (570, 11365); (571, 572); (573, 410);
    (574, 11366); (577, 578); (579, 384); (580, 649); (581, 652); (582, 583);
    (584, 585); (586, 587); (588, 589); (590, 591); (880, 881); (882, 883);
    (886, 887); (895, 1011); (902, 940); (904, 941); (905, 942); (906, 943);
    (908, 972); (910, 973); (911, 974); (913, 945); (914, 946); (915, 947);
    (916, 948); (917, 949); (918, 950); (919, 951); (920, 952); (921, 953);
    (922, 954); (923, 955); (924, 956); (925, 957); (926, 958); (927, 959);
    (928, 960); (929, 961); (931, 963); (932, 964); (933, 965); (934, 966);
    (935, 967); (936, 968); (937, 969); (938, 970); (939, 971); (975, 983);
    (984, 985); (986, 987); (988, 989); (990, 991); (992, 993); (994, 995);
    (996, 997); (998, 999); (1000, 1001); (1002, 1003); (1004, 1005);
    (1006, 1007); (1012, 952); (1015, 1016); (1017, 1010); (1018, 1019);
    (1021, 891); (1022, 892); (1023, 893); (1024, 1104); (1025, 1105);
    (1026, 1106); (1027, 1107); (1028, 1108); (1029, 1109); (1030, 1110);
    (1031, 1111); (1032, 1112); (1033, 1113); (1034, 1114); (1035, 1115);
    (1036, 1116); (1037, 1117); (1038, 1118); (1039, 1119); (1040, 1072);
    (1041, 1073); (1042, 1074); (1043, 1075); (1044, 1076); (1045, 1077);
    (1046, 1078); (1047, 1079); (1048, 1080); (1049, 1081); (1050, 1082);
    (1051, 1083); (1052, 1084); (1053, 1085); (1054, 1086); (1055, 1087);
    (1056, 1088); (1057, 1089); (1058, 1090); (1059, 1091); (1060, 1092);
    (1061, 1093); (1062, 1094); (1063, 1095); (1064, 1096); (1065, 1097);
    (1066, 1098); (1067, 1099); (1068, 1100); (1069, 1101); (1070, 1102);
    (1071, 1103); (1120, 1121); (1122, 1123); (1124, 1125); (1126, 1127);
    (1128, 1129); (1130, 1131); (1132, 1133); (1134, 1135); (1136, 1137);
    (1138, 1139); (1140, 1141); (1142, 1143); (1144, 1145); (1146, 1147);
    (1148, 1149); (1150, 1151); (1152, 1153); (1162, 1163); (1164, 1165);
    (1166, 1167); (1168, 1169); (1170, 1171); (1172, 1173); (1174, 1175);
    (1176, 1177); (1178, 1179); (1180, 1181); (1182, 1183); (1184, 1185);
    (1186, 1187); (1188, 1189); (1190, 1191); (1192, 1193); (1194, 1195);
    (1196, 1197); (1198, 1199); (1200, 1201); (1202, 1203); (1204, 1205);
    (1206, 1207); (1208, 1209); (1210, 1211); (1212, 1213); (1214, 1215);
    (1216, 1231); (1217, 1218); (1219, 1220); (1221, 1222); (1223, 1224);
    (1225, 1226); (1227, 1228); (1229, 1230); (1232, 1233); (1234, 1235);
    (1236, 1237); (1238, 1239); (1240, 1241); (1242, 1243); (1244, 1245);
    (1246, 1247); (1248, 1249); (1250, 1251); (1252, 1253); (1254, 1255);
    (1256, 1257); (1258, 1259); (1260, 1261); (1262, 1263); (1264, 1265);
    (1266, 1267); (1268, 1269); (1270, 1271); (1272, 1273); (1274, 1275);
    (1276, 1277); (1278, 1279); (1280, 1281); (1282, 1283); (1284, 1285);
    (1286, 1287); (1288, 1289); (1290, 1291); (1292, 1293); (1294, 1295);
    (1296, 1297); (1298, 1299); (1300, 1301); (1302, 1303); (1304, 1305);
    (1306, 1307); (1308, 1309); (1310, 1311); (1312, 1313); (1314, 1315);
    (1316, 1317); (1318, 1319); (1320, 1321); (1322, 1323); (1324, 1325);
    (1326, 1327); (1329, 1377); (1330, 1378); (1331, 1379); (1332, 1380);
    (1333, 1381); (1334, 1382); (1335, 1383); (1336, 1384); (1337, 1385);
    (1338, 1386); (1339, 1387); (1340, 1388); (1341, 1389); (1342, 1390);
    (1343, 1391); (1344, 1392); (1345, 1393); (1346, 1394); (1347, 1395);
    (1348, 1396); (1349, 1397); (1350, 1398); (1351, 1399); (1352, 1400);
    (1353, 1401); (1354, 1402); (1355, 1403); (1356, 1404); (1357, 1405);
    (1358, 1406); (1359, 1407); (1360, 1408); (1361, 1409); (1362, 1410);
    (1363, 1411); (1364, 1412); (1365, 1413); (1366, 1414); (4256, 11520);
    (4257, 11521); (4258, 11522); (4259, 11523); (4260, 11524);
    (4261, 11525); (4262, 11526); (4263, 11527); (4264, 11528);
    (4265, 11529); (4266, 11530); (4267, 11531); (4268, 11532);
    (4269, 11533); (4270, 11534); (4271, 11535); (4272, 11536);
    (4273, 11537); (4274, 11538); (4275, 11539); (4276, 11540);
    (4277, 11541); (4278, 11542); (4279, 11543); (4280, 11544);
    (4281, 11545); (4282, 11546); (4283, 11547); (4284, 11548);
    (4285, 11549); (4286, 11550); (4287, 11551); (4288, 11552);
    (4289, 11553); (4290, 11554); (4291, 11555); (4292, 11556);
    (4293, 11557); (4295, 11559); (4301, 11565); (5024, 43888);
    (5025, 43889); (5026, 43890); (5027, 43891); (5028, 43892);
    (5029, 43893); (5030, 43894); (5031, 43895); (5032, 43896);
    (5033, 43897); (5034, 43898); (5035, 43899); (5036, 43900);
    (5037, 43901); (5038, 43902); (5039, 43903); (5040, 43904);
    (5041, 43905); (5042, 43906); (5043, 43907); (5044, 43908);
    (5045, 43909); (5046, 43910); (5047, 43911); (5048, 43912);
    (5049, 43913); (5050, 43914); (5051, 43915); (5052, 43916);
    (5053, 43917); (5054, 43918); (5055, 43919); (5056, 43920);
    (5057, 43921); (5058, 43922); (5059, 43923); (5060, 43924);
    (5061, 43925); (5062, 43926); (5063, 43927); (5064, 43928);
    (5065, 43929); (5066, 43930); (5067, 43931); (5068, 43932);
    (5069, 43933); (5070, 43934); (5071, 43935); (5072, 43936);
    (5073, 43937); (5074, 43938); (5075, 43939); (5076, 43940);
    (5077, 43941); (5078, 43942); (5079, 43943); (5080, 43944);
    (5081, 43945); (5082, 43946); (5083, 43947); (5084, 43948);
    (5085, 43949); (5086, 43950); (5087, 43951); (5088, 43952);
    (5089, 43953); (5090, 43954); (5091, 43955); (5092, 43956);
    (5093, 43957); (5094, 43958); (5095, 43959); (5096, 43960);
    (5097, 43961); (5098, 43962); (5099, 43963); (5100, 43964);
    (5101, 43965); (5102, 43966); (5103, 43967); (5104, 5112); (5105, 5113);
    (5106, 5114); (5107, 5115); (5108, 5116); (5109, 5117); (7312, 4304);
    (7313, 4305); (7314, 4306); (7315, 4307); (7316, 4308); (7317, 4309);
    (7318, 4310); (7319, 4311); (7320, 4312); (7321, 4313); (7322, 4314);
    (7323, 4315); (7324, 4316); (7325, 4317); (7326, 4318); (7327, 4319);
    (7328, 4320); (7329, 4321); (7330, 4322); (7331, 4323); (7332, 4324);
    (7333, 4325); (7334, 4326); (7335, 4327); (7336, 4328); (7337, 4329);
    (7338, 4330); (7339, 4331); (7340, 4332); (7341, 4333); (7342, 4334);
    (7343, 4335); (7344, 4336); (7345, 4337); (7346, 4338); (7347, 4339);
    (7348, 4340); (7349, 4341); (7350, 4342); (7351, 4343); (7352, 4344);
    (7353, 4345); (7354, 4346); (7357, 4349); (7358, 4350); (7359, 4351);
    (7680, 7681); (7682, 7683); (7684, 7685); (7686, 7687); (7688, 7689);
    (7690, 7691); (7692, 7693); (7694, 7695); (7696, 7697); (7698, 7699);
    (7700, 7701); (7702, 7703); (7704, 7705); (7706, 7707); (7708, 7709);
    (7710, 7711); (7712, 7713); (7714, 7715); (7716, 7717); (7718, 7719);
    (7720, 7721); (7722, 7723); (7724, 7725); (7726, 7727); (7728, 7729);
    (7730, 7731); (7732, 7733); (7734, 7735); (7736, 7737); (7738, 7739);
    (7740, 7741); (7742, 7743); (7744, 7745); (7746, 7747); (7748, 7749);
    (7750, 7751); (7752, 7753); (7754, 7755); (7756, 7757); (7758, 7759);
    (7760, 7761); (7762, 7763); (7764, 7765); (7766, 7767); (7768, 7769);
    (7770, 7771); (7772, 7773); (7774, 7775); (7776, 7777); (7778, 7779);
    (7780, 7781); (7782, 7783); (7784, 7785); (7786, 7787); (7788, 7789);
    (7790, 7791); (7792, 7793); (7794, 7795); (7796, 7797); (7798, 7799);
    (7800, 7801); (7802, 7803); (7804, 7805); (7806, 7807); (7808, 7809);
    (7810, 7811); (7812, 7813); (7814, 7815); (7816, 7817); (7818, 7819);
    (7820, 7821); (7822, 7823); (7824, 7825); (7826, 7827); (7828, 7829);
    (7838, 223); (7840, 7841); (7842, 7843); (7844, 7845); (7846, 7847);
    (7848, 7849); (7850, 7851); (7852, 7853); (7854, 7855); (7856, 7857);
    (7858, 7859); (7860, 7861); (7862, 7863); (7864, 7865); (7866, 7867);
    (7868, 7869); (7870, 7871); (7872, 7873); (7874, 7875); (7876, 7877);
    (7878, 7879); (7880, 7881); (7882, 7883); (7884, 7885); (7886, 7887);
    (7888, 7889); (7890, 7891); (7892, 7893); (7894, 7895); (7896, 7897);
    (7898, 7899); (7900, 7901); (7902, 7903); (7904, 7905); (7906, 7907);
    (7908, 7909); (7910, 7911); (7912, 7913); (7914, 7915); (7916, 7917);
    (7918, 7919); (7920, 7921); (7922, 7923); (7924, 7925); (7926, 7927);
    (7928, 7929); (7930, 7931); (7932, 7933); (7934, 7935); (7944, 7936);
    (7945, 7937); (7946, 7938); (7947, 7939); (7948, 7940); (7949, 7941);
    (7950, 7942); (7951, 7943); (7960, 7952); (7961, 7953); (7962, 7954);
    (7963, 7955); (7964, 7956); (7965, 7957); (7976, 7968); (7977, 7969);
    (7978, 7970); (7979, 7971); (7980, 7972); (7981, 7973); (7982, 7974);
    (7983, 7975); (7992, 7984); (7993, 7985); (7994, 7986); (7995, 7987);
    (7996, 7988); (7997, 7989); (7998, 7990); (7999, 7991); (8008, 8000);
    (8009, 8001); (8010, 8002); (8011, 8003); (8012, 8004); (8013, 8005);
    (8025, 8017); (8027, 8019); (8029, 8021); (8031, 8023); (8040, 8032);
    (8041, 8033); (8042, 8034); (8043, 8035); (8044, 8036); (8045, 8037);
    (8046, 8038); (8047, 8039); (8072, 8064); (8073, 8065); (8074, 8066);
    (8075, 8067); (8076, 8068); (8077, 8069); (8078, 8070); (8079, 8071);
    (8088, 8080); (8089, 8081); (8090, 8082); (8091, 8083); (8092, 8084);
    (8093, 8085); (8094, 8086); (8095, 8087); (8104, 8096); (8105, 8097);
    (8106, 8098); (8107, 8099); (8108, 8100); (8109, 8101); (8110, 8102);
    (8111, 8103); (8120, 8112); (8121, 8113); (8122, 8048); (8123, 8049);
    (8124, 8115); (8136, 8050); (8137, 8051); (8138, 8052); (8139, 8053);
    (8140, 8131); (8152, 8144); (8153, 8145); (8154, 8054); (8155, 8055);
    (8168, 8160); (8169, 8161); (8170, 8058); (8171, 8059); (8172, 8165);
    (8184, 8056); (8185, 8057); (8186, 8060); (8187, 8061); (8188, 8179);
    (8486, 969); (8490, 107); (8491, 229); (8498, 8526); (8544, 8560);
    (8545, 8561); (8546, 8562); (8547, 8563); (8548, 8564); (8549, 8565);
    (8550, 8566); (8551, 8567); (8552, 8568); (8553, 8569); (8554, 8570);
    (8555, 8571); (8556, 8572); (8557, 8573); (8558, 8574); (8559, 8575);
    (8579, 8580); (9398, 9424); (9399, 9425); (9400, 9426); (9401, 9427);
    (9402, 9428); (9403, 9429); (9404, 9430); (9405, 9431); (9406, 9432);
    (9407, 9433); (9408, 9434); (9409, 9435); (9410, 9436); (9411, 9437);
    (9412, 9438); (9413, 9439); (9414, 9440); (9415, 9441); (9416, 9442);
    (9417, 9443); (9418, 9444); (9419, 9445); (9420, 9446); (9421, 9447);
    (9422, 9448); (9423, 9449); (11264, 11312); (11265, 11313);
    (11266, 11314); (11267, 11315); (11268, 11316); (11269, 11317);
    (11270, 11318); (11271, 11319); (11272, 11320); (11273, 11321);
    (11274, 11322); (11275, 11323); (11276, 11324); (11277, 11325);
    (11278, 11326); (11279, 11327); (11280, 11328); (11281, 11329);
    (11282, 11330); (11283, 11331); (11284, 11332); (11285, 11333);
    (11286, 11334); (11287, 11335); (11288, 11336); (11289, 11337);
    (11290, 11338); (11291, 11339); (11292, 11340); (11293, 11341);
    (11294, 11342); (11295, 11343); (11296, 11344); (11297, 11345);
    (11298, 11346); (11299, 11347); (11300, 11348); (11301, 11349);
    (11302, 11350); (11303, 11351); (11304, 11352); (11305, 11353);
    (11306, 11354); (11307, 11355); (11308, 11356); (11309, 11357);
    (11310, 11358); (11311, 11359); (11360, 11361); (11362, 619);
    (11363, 7549); (11364, 637); (11367, 11368); (11369, 11370);
    (11371, 11372); (11373, 593); (11374, 625); (11375, 592); (11376, 594);
    (11378, 11379); (11381, 11382); (11390, 575); (11391, 576);
    (11392, 11393); (11394, 11395); (11396, 11397); (11398, 11399);
    (11400, 11401); (11402, 11403); (11404, 11405); (11406, 11407);
    (11408, 11409); (11410, 11411); (11412, 11413); (11414, 11415);
    (11416, 11417); (11418, 11419); (11420, 11421); (11422, 11423);
    (11424, 11425); (11426, 11427); (11428, 11429); (11430, 11431);
    (11432, 11433); (11434, 11435); (11436, 11437); (11438, 11439);
    (11440, 11441); (11442, 11443); (11444, 11445); (11446, 11447);
    (11448, 11449); (11450, 11451); (11452, 11453); (11454, 11455);
    (11456, 11457); (11458, 11459); (11460, 11461); (11462, 11463);
    (11464, 11465); (11466, 11467); (11468, 11469); (11470, 11471);
    (11472, 11473); (11474, 11475); (11476, 11477); (11478, 11479);
    (11480, 11481); (11482, 11483); (11484, 11485); (11486, 11487);
    (11488, 11489); (11490, 11491); (11499, 11500); (11501, 11502);
    (11506, 11507); (42560, 42561); (42562, 42563); (42564, 42565);
    (42566, 42567); (42568, 42569); (42570, 42571); (42572, 42573);
    (42574, 42575); (42576, 42577); (42578, 42579); (42580, 42581);
    (42582, 42583); (42584, 42585); (42586, 42587); (42588, 42589);
    (42590, 42591); (42592, 42593); (42594, 42595); (42596, 42597);
    (42598, 42599); (42600, 42601); (42602, 42603); (42604, 42605);
    (42624, 42625); (42626, 42627); (42628, 42629); (42630, 42631);
    (42632, 42633); (42634, 42635); (42636, 42637); (42638, 42639);
    (42640, 42641); (42642, 42643); (42644, 42645); (42646, 42647);
    (42648, 42649); (42650, 42651); (42786, 42787); (42788, 42789);
    (42790, 42791); (42792, 42793); (42794, 42795); (42796, 42797);
    (42798, 42799); (42802, 42803); (42804, 42805); (42806, 42807);
    (42808, 42809); (42810, 42811); (42812, 42813); (42814, 42815);
    (42816, 42817); (42818, 42819); (42820, 42821); (42822, 42823);
    (42824, 42825); (42826, 42827); (42828, 42829); (42830, 42831);
    (42832, 42833); (42834, 42835); (42836, 42837); (42838, 42839);
    (42840, 42841); (42842, 42843); (42844, 42845); (42846, 42847);
    (42848, 42849); (42850, 42851); (42852, 42853); (42854, 42855);
    (42856, 42857); (42858, 42859); (42860, 42861); (42862, 42863);
    (42873, 42874); (42875, 42876); (42877, 7545); (42878, 42879);
    (42880, 42881); (42882, 42883); (42884, 42885); (42886, 42887);
    (42891, 42892); (42893, 613); (42896, 42897); (42898, 42899);
    (42902, 42903); (42904, 42905); (42906, 42907); (42908, 42909);
    (42910, 42911); (42912, 42913); (42914, 42915); (42916, 42917);
    (42918, 42919); (42920, 42921); (42922, 614); (42923, 604); (42924, 609);
    (42925, 620); (42926, 618); (42928, 670); (42929, 647); (42930, 669);
    (42931, 43859); (42932, 42933); (42934, 42935); (42936, 42937);
    (42938, 42939); (42940, 42941); (42942, 42943); (42944, 42945);
    (42946, 42947); (42948, 42900); (42949, 642); (42950, 7566);
    (42951, 42952); (42953, 42954); (42960, 42961); (42966, 42967);
    (42968, 42969); (42997, 42998); (65313, 65345); (65314, 65346);
    (65315, 65347); (65316, 65348); (65317, 65349); (65318, 65350);
    (65319, 65351); (65320, 65352); (65321, 65353); (65322, 65354);
    (65323, 65355); (65324, 65356); (65325, 65357); (65326, 65358);
    (65327, 65359); (65328, 65360); (65329, 65361); (65330, 65362);
    (65331, 65363); (65332, 65364); (65333, 65365); (65334, 65366);
    (65335, 65367); (65336, 65368); (65337, 65369); (65338, 65370);
    (66560, 66600); (66561, 66601); (66562, 66602); (66563, 66603);
    (66564, 66604); (66565, 66605); (66566, 66606); (66567, 66607);
    (66568, 66608); (66569, 66609); (66570, 66610); (66571, 66611);
    (66572, 66612); (66573, 66613); (66574, 66614); (66575, 66615);
    (66576, 66616); (66577, 66617); (66578, 66618); (66579, 66619);
    (66580, 66620); (66581, 66621); (66582, 66622); (66583, 66623);
    (66584, 66624); (66585, 66625); (66586, 66626); (66587, 66627);
    (66588, 66628); (66589, 66629); (66590, 66630); (66591, 66631);
    (66592, 66632); (66593, 66633); (66594, 66634); (66595, 66635);
    (66596, 66636); (66597, 66637); (66598, 66638); (66599, 66639);
    (66736, 66776); (66737, 66777); (66738, 66778); (66739, 66779);
    (66740, 66780); (66741, 66781); (66742, 66782); (66743, 66783);
    (66744, 66784); (66745, 66785); (66746, 66786); (66747, 66787);
    (66748, 66788); (66749, 66789); (66750, 66790); (66751, 66791);
    (66752, 66792); (66753, 66793); (66754, 66794); (66755, 66795);
    (66756, 66796); (66757, 66797); (66758, 66798); (66759, 66799);
    (66760, 66800); (66761, 66801); (66762, 66802); (66763, 66803);
    (66764, 66804); (66765, 66805); (66766, 66806); (66767, 66807);
    (66768, 66808); (66769, 66809); (66770, 66810); (66771, 66811);
    (66928, 66967); (66929, 66968); (66930, 66969); (66931, 66970);
    (66932, 66971); (66933, 66972); (66934, 66973); (66935, 66974);
    (66936, 66975); (66937, 66976); (66938, 66977); (66940, 66979);
    (66941, 66980); (66942, 66981); (66943, 66982); (66944, 66983);
    (66945, 66984); (66946, 66985); (66947, 66986); (66948, 66987);
    (66949, 66988); (66950, 66989); (66951, 66990); (66952, 66991);
    (66953, 66992); (66954, 66993); (66956, 66995); (66957, 66996);
    (66958, 66997); (66959, 66998); (66960, 66999); (66961, 67000);
    (66962, 67001); (66964, 67003); (66965, 67004); (68736, 68800);
    (68737, 68801); (68738, 68802); (68739, 68803); (68740, 68804);
    (68741, 68805); (68742, 68806); (68743, 68807); (68744, 68808);
    (68745, 68809); (68746, 68810); (68747, 68811); (68748, 68812);
    (68749, 68813); (68750, 68814); (68751, 68815); (68752, 68816);
    (68753, 68817); (68754, 68818); (68755, 68819); (68756, 68820);
    (68757, 68821); (68758, 68822); (68759, 68823); (68760, 68824);
    (68761, 68825); (68762, 68826); (68763, 68827); (68764, 68828);
    (68765, 68829); (68766, 68830); (68767, 68831); (68768, 68832);
    (68769, 68833); (68770, 68834); (68771, 68835); (68772, 68836);
    (68773, 68837); (68774, 68838); (68775, 68839); (68776, 68840);
    (68777, 68841); (68778, 68842); (68779, 68843); (68780, 68844);
    (68781, 68845); (68782, 68846); (68783, 68847); (68784, 68848);
    (68785, 68849); (68786, 68850); (71840, 71872); (71841, 71873);
    (71842, 71874); (71843, 71875); (71844, 71876); (71845, 71877);
    (71846, 71878); (71847, 71879); (71848, 71880); (71849, 71881);
    (71850, 71882); (71851, 71883); (71852, 71884); (71853, 71885);
    (71854, 71886); (71855, 71887); (71856, 71888); (71857, 71889);
    (71858, 71890); (71859, 71891); (71860, 71892); (71861, 71893);
    (71862, 71894); (71863, 71895); (71864, 71896); (71865, 71897);
    (71866, 71898); (71867, 71899); (71868, 71900); (71869, 71901);
    (71870, 71902); (71871, 71903); (93760, 93792); (93761, 93793);
    (93762, 93794); (93763, 93795); (93764, 93796); (93765, 93797);
    (93766, 93798); (93767, 93799); (93768, 93800); (93769, 93801);
    (93770, 93802); (93771, 93803); (93772, 93804); (93773, 93805);
    (93774, 93806); (93775, 93807); (93776, 93808); (93777, 93809);
    (93778, 93810); (93779, 93811); (93780, 93812); (93781, 93813);
    (93782, 93814); (93783, 93815); (93784, 93816); (93785, 93817);
    (93786, 93818); (93787, 93819); (93788, 93820); (93789, 93821);
    (93790, 93822); (93791, 93823); (125184, 125218); (125185, 125219);
    (125186, 125220); (125187, 125221); (125188, 125222); (125189, 125223);
    (125190, 125224); (125191, 125225); (125192, 125226); (125193, 125227);
    (125194, 125228); (125195, 125229); (125196, 125230); (125197, 125231);
    (125198, 125232); (125199, 125233); (125200, 125234); (125201, 125235);
    (125202, 125236); (125203, 125237); (125204, 125238); (125205, 125239);
    (125206, 125240); (125207, 125241); (125208, 125242); (125209, 125243);
    (125210, 125244); (125211, 125245); (125212, 125246); (125213, 125247);
    (125214, 125248); (125215, 125249); (125216, 125250); (125217, 125251)
  ]%N.

(** [l] is the small form of the character [a]: [a] is a capital letter
    with the small letter [l], or is the small letter [l] itself. *)
Definition small_of (a l : string) : Prop :=
  exists u s, In (u, s) case_pairs /\ l = Str.utf8 s
              /\ (a = Str.utf8 u \/ a = Str.utf8 s).

(** The same character, letter case aside. *)
Definition same_letter (a b : string) : Prop :=
  (Str.is_letter a = true /\ a = b) \/ exists l, small_of a l /\ small_of b l.

(** The same text, letter case aside: character by character. *)
Definition equal_ci (u t : string) : Prop :=
  exists us ts, u = Str.flat us /\ t = Str.flat ts /\ Forall2 same_letter us ts.

(** [t] occurs in [s], letter case aside. *)
Definition contains_ci (s t : string) : Prop :=
  exists p u q, s = (p ++ u ++ q)%string /\ equal_ci u t.

(** [x] is the one Author ([c = WROTE]) or Genre ([c = IN_GENRE]) node of
    [g] named [s]. *)
Definition the_node (g : graph) (c : rel_type) (s : string) (x : node) : Prop :=
  In x (nodes g) /\ props x = named c s
  /\ forall x', In x' (nodes g) -> props x' = named c s -> x' = x.

(** [r] is the one relationship of type [t] of [g] between [b] and [x]. *)
Definition the_rel (g : graph) (t : rel_type) (b x : node) (r : rel) : Prop :=
  In r (rels g) /\ links_book t r b x
  /\ forall r', In r' (rels g) -> links_book t r' b x -> r' = r.

(** One request to a writing handler takes the store [g] to [g']. *)
Inductive handled (neo4j_int : string -> Z) (g g' : graph) : Prop :=
| by_POST uuid body resp :
    POST uuid body g = Some (resp, g') -> handled neo4j_int g g'
| by_PUT idParam body resp :
    PUT neo4j_int idParam body g = Some (resp, g') -> handled neo4j_int g g'
| by_DELETE id resp :
    DELETE neo4j_int id g = (resp, g') -> handled neo4j_int g g'.

(** The stores the handlers can build from the empty one. *)
Inductive reachable (neo4j_int : string -> Z) : graph -> Prop :=
| reach_empty : reachable neo4j_int empty_graph
| reach_step g g' :
    reachable neo4j_int g -> handled neo4j_int g g' -> reachable neo4j_int g'.

(* ------------------------------------------------------------------ *)
(** ** A small store

    The store after [POST { title: "Dune", authors: ["A"], genres: ["X"] }]
    on the empty store, and two updates of its book. *)

Definition sample : graph :=
  Graph [Node 0 (BookP "u1" "Dune"); Node 1 (AuthorP "A"); Node 2 (GenreP "X")]
        [Rel 0 WROTE 1 0; Rel 1 IN_GENRE 0 2] 3 2.

Definition dune : node := Node 0 (BookP "u1" "Dune").

(** [PUT ?id=0 { title: "Dune II", authors: ["C"], genres: ["Y"] }] *)
Definition sample_updated : graph :=
  Graph [Node 0 (BookP "u1" "Dune II"); Node 1 (AuthorP "A"); Node 2 (GenreP "X");
         Node 3 (AuthorP "C"); Node 4 (GenreP "Y")]
        [Rel 2 WROTE 3 0; Rel 3 IN_GENRE 0 4] 5 4.

Definition sample_updated_data : book_data :=
  BookData 0 "u1" "Dune II" ["C"] ["Y"].

(** [PUT ?id=0 { title: "Dune II", authors: [], genres: ["X"] }] *)
Definition sample_emptied : graph :=
  Graph [Node 0 (BookP "u1" "Dune II"); Node 1 (AuthorP "A"); Node 2 (GenreP "X")]
        [] 3 2.

(* ------------------------------------------------------------------ *)
(** ** The books page

    The client of the API, the component [BooksPage] of the second source
    file: its state, the parsing of its comma separated fields and its
    handlers, run against the store of the server.  A request reaches
    the route handler as it was built: the query string as the list of
    its pairs, the body as the JSON value that was serialized. *)

(** The query string of a request and the two readers GET uses. *)
Module URLSearchParams.

Definition append (key value : string) (query : list (string * string))
  : list (string * string) :=
  query ++ [(key, value)].

(** [get(key)]: the first value of the key, [null] without one. *)
Fixpoint get (key : string) (query : list (string * string)) : option string :=
  match query with
  | [] => None
  | (k, v) :: rest => if String.eqb k key then Some v else get key rest
  end.

(** [getAll(key)]: every value of the key, in order. *)
Definition getAll (key : string) (query : list (string * string)) : list string :=
  map snd (filter (fun kv => String.eqb (fst kv) key) query).

End URLSearchParams.

(** The five parameters GET reads off the URL. *)
Definition search_params_of (query : list (string * string)) : search_params :=
  SearchParams (URLSearchParams.get "id" query)
               (URLSearchParams.get "title" query)
               (URLSearchParams.get "bookId" query)
               (URLSearchParams.getAll "author" query)
               (URLSearchParams.getAll "genre" query).

(** The decimal string an answer carries for an identity
    ([identity.toString()]), which the page puts back into the URL. *)
Definition id_string (i : Z) : string := NilZero.string_of_int (Z.to_int i).

Module BooksPage.

(** The white space and line terminators of ECMAScript in UTF-8:
    U+0009 to U+000D, U+0020, U+00A0, U+1680, U+2000 to U+200A, U+2028,
    U+2029, U+202F, U+205F, U+3000 and U+FEFF. *)
Definition white_space : list (list ascii) :=
  map (map ascii_of_nat)
    [[9]; [10]; [11]; [12]; [13]; [32]; [194; 160]; [225; 154; 128];
     [226; 128; 128]; [226; 128; 129]; [226; 128; 130]; [226; 128; 131];
     [226; 128; 132]; [226; 128; 133]; [226; 128; 134]; [226; 128; 135];
     [226; 128; 136]; [226; 128; 137]; [226; 128; 138]; [226; 128; 168];
     [226; 128; 169]; [226; 128; 175]; [226; 129; 159]; [227; 128; 128];
     [239; 187; 191]]%nat.

(** [after w l]: what follows the prefix [w] of [l]. *)
Fixpoint after (w l : list ascii) : option (list ascii) :=
  match w, l with
  | [], _ => Some l
  | _ :: _, [] => None
  | c :: w', d :: l' => if Ascii.eqb c d then after w' l' else None
  end.

Fixpoint strip_one (tokens : list (list ascii)) (l : list ascii)
  : option (list ascii) :=
  match tokens with
  | [] => None
  | w :: tokens' =>
      match after w l with
      | Some r => Some r
      | None => strip_one tokens' l
      end
  end.

(** Leading tokens removed, at most [fuel] of them. *)
Fixpoint strip (fuel : nat) (tokens : list (list ascii)) (l : list ascii)
  : list ascii :=
  match fuel with
  | O => l
  | S fuel' =>
      match strip_one tokens l with
      | Some r => strip fuel' tokens r
      | None => l
      end
  end.

Definition trimStart (l : list ascii) : list ascii :=
  strip (List.length l) white_space l.

Definition trimEnd (l : list ascii) : list ascii :=
  rev (strip (List.length l) (map (@rev ascii) white_space) (rev l)).

(** [s.trim()] *)
Definition trim (s : string) : string :=
  string_of_list_ascii (trimEnd (trimStart (list_ascii_of_string s))).

(** [s.split(c)] for a separator of one character: the pieces between
    the occurrences of [c], at least one piece. *)
Fixpoint split (c : ascii) (s : string) : list string :=
  match s with
  | EmptyString => [EmptyString]
  | String d s' =>
      if Ascii.eqb d c then EmptyString :: split c s'
      else match split c s' with
           | p :: ps => String d p :: ps
           | [] => [String d EmptyString]
           end
  end.

(** [Boolean(s)] for a string. *)
Definition nonempty (s : string) : bool := negb (String.eqb s "").

(** [field.split(",").map((s) => s.trim()).filter(Boolean)] *)
Definition names (field : string) : list string :=
  filter nonempty (map trim (split "," field)).

(** The state of the component. *)
Record form_fields : Type := Form {
  form_title : string;
  form_authors : string;
  form_genres : string
}.

Record search_fields : Type := Search {
  search_title : string;
  search_author : string;
  search_genre : string
}.

Record state : Type := State {
  books : list book_data;
  editingBook : option book_data;
  form : form_fields;
  search : search_fields
}.

Definition setBooks (data : list book_data) (p : state) : state :=
  State data (editingBook p) (form p) (search p).

Definition setEditingBook (book : option book_data) (p : state) : state :=
  State (books p) book (form p) (search p).

Definition setForm (f : form_fields) (p : state) : state :=
  State (books p) (editingBook p) f (search p).

(** A value of the record handed to [fetchBooks]. *)
Inductive param_value : Type :=
| Single (value : string)
| Multiple (values : list string).

(** The query string [fetchBooks] builds: the truthy values, key by key. *)
Definition query_of (searchParams : list (string * param_value))
  : list (string * string) :=
  fold_left
    (fun query kv =>
       match snd kv with
       | Multiple values =>
           fold_left (fun query v =>
                        if nonempty v then URLSearchParams.append (fst kv) v query
                        else query)
                     values query
       | Single value =>
           if nonempty value then URLSearchParams.append (fst kv) value query
           else query
       end)
    searchParams [].

(** The JSON body of [handleSubmit]. *)
Definition payload (f : form_fields) : json :=
  body_of (trim (form_title f)) (names (form_authors f)) (names (form_genres f)).

(** The record of [handleSearch]. *)
Definition search_record (s : search_fields) : list (string * param_value) :=
  (if nonempty (trim (search_title s))
   then [("title", Single (trim (search_title s)))] else [])
  ++ (if nonempty (trim (search_author s))
      then [("author", Multiple (names (search_author s)))] else [])
  ++ (if nonempty (trim (search_genre s))
      then [("genre", Multiple (names (search_genre s)))] else []).

Section Handlers.

Variable neo4j_int : string -> Z.

(** The page and the store of the server. *)
Definition world : Type := state * graph.

(** [fetchBooks(searchParams)]: the answer replaces the list when it
    reports success. *)
Definition fetchBooks (searchParams : list (string * param_value)) (w : world)
  : world :=
  let (p, g) := w in
  let res := GET neo4j_int (search_params_of (query_of searchParams)) g in
  if success res
  then match payload_of res with
       | Data_list data => (setBooks data p, g)
       | _ => (p, g)
       end
  else (p, g).

(** [handleSubmit]: PUT for the book being edited, POST otherwise; the
    answer is not read, the form is cleared and the list fetched again.
    [uuid] is the value of [uuidv4()] on the server, should POST run. *)
Definition handleSubmit (uuid : string) (w : world) : option world :=
  let (p, g) := w in
  match
    match editingBook p with
    | Some book =>
        PUT neo4j_int (Some (id_string (data_id book))) (payload (form p)) g
    | None => POST uuid (payload (form p)) g
    end
  with
  | Some (_, g') =>
      Some (fetchBooks [] (setEditingBook None (setForm (Form "" "" "") p), g'))
  | None => None
  end.

(** [handleEdit(book)] *)
Definition handleEdit (book : book_data) (w : world) : world :=
  let (p, g) := w in
  (setForm (Form (data_title book)
                 (Str.join ", " (data_authors book))
                 (Str.join ", " (data_genres book)))
           (setEditingBook (Some book) p), g).

(** [handleDelete(id)]; [confirmed] is the answer of [confirm]. *)
Definition handleDelete (confirmed : bool) (id : string) (w : world) : world :=
  if negb confirmed then w
  else
    let (p, g) := w in
    let (_, g') := DELETE neo4j_int (Some id) g in
    fetchBooks [] (p, g').

(** [handleSearch] *)
Definition handleSearch (w : world) : world :=
  fetchBooks (search_record (search (fst w))) w.

End Handlers.

End BooksPage.

(** A name the fields of the page carry unchanged: not empty, without
    white space around it and without a comma. *)
Definition comma_free (s : string) : Prop :=
  ~ In ","%char (list_ascii_of_string s).

Definition clean (s : string) : Prop :=
  s <> "" /\ BooksPage.trim s = s /\ comma_free s.

(** A store with two books, built by three requests: the POST of
    "École" (with its capital E acute) by A and B in the genres X and Y,
    the POST of "Dune" by A in X, and a PUT of "Dune" with an empty genres
    list, which leaves that book without a genre. *)
Definition ecole : node :=
  Node 0 (BookP "u1" (Str.text [201; 99; 111; 108; 101]%N)).

Definition dune_2 : node := Node 5 (BookP "u2" "Dune").

Definition library_1 : graph :=
  Graph [ecole; Node 1 (AuthorP "A"); Node 2 (AuthorP "B");
         Node 3 (GenreP "X"); Node 4 (GenreP "Y")]
        [Rel 0 WROTE 1 0; Rel 1 WROTE 2 0; Rel 2 IN_GENRE 0 3; Rel 3 IN_GENRE 0 4]
        5 4.

Definition library_2 : graph :=
  Graph [ecole; Node 1 (AuthorP "A"); Node 2 (AuthorP "B");
         Node 3 (GenreP "X"); Node 4 (GenreP "Y"); dune_2]
        [Rel 0 WROTE 1 0; Rel 1 WROTE 2 0; Rel 2 IN_GENRE 0 3; Rel 3 IN_GENRE 0 4;
         Rel 4 WROTE 1 5; Rel 5 IN_GENRE 5 3]
        6 6.

Definition library : graph :=
  Graph [ecole; Node 1 (AuthorP "A"); Node 2 (AuthorP "B");
         Node 3 (GenreP "X"); Node 4 (GenreP "Y"); dune_2]
        [Rel 0 WROTE 1 0; Rel 1 WROTE 2 0; Rel 2 IN_GENRE 0 3; Rel 3 IN_GENRE 0 4;
         Rel 6 WROTE 1 5]
        6 7.

(** A page with a filled form and nothing listed yet. *)
Definition sample_page : BooksPage.state :=
  BooksPage.State [] None (BooksPage.Form " Emma " "Jane Austen , A" "Novel,")
                  (BooksPage.Search "" "" "").

(* ------------------------------------------------------------------ *)
(** ** Strings *)

Module StrFacts.
Import Str.

Lemma starts_with_iff (t s : string) :
  starts_with t s = true <-> exists q, s = (t ++ q)%string.
Proof.
  revert s; induction t as [|c t IH]; intros s; simpl.
  - split; [intros _; exists s; reflexivity | reflexivity].
  - destruct s as [|d s].
    + split; [discriminate | intros [q Hq]; discriminate].
    + rewrite andb_true_iff, Ascii.eqb_eq, IH. split.
      * intros [-> [q ->]]. exists q. reflexivity.
      * intros [q Hq]. injection Hq as -> ->. split; [reflexivity | eauto].
Qed.

Lemma contains_iff (s t : string) :
  contains s t = true <-> exists p q, s = (p ++ t ++ q)%string.
Proof.
  induction s as [|c s IH]; simpl; rewrite orb_true_iff, starts_with_iff.
  - split.
    + intros [[q Hq] | H]; [exists "", q; exact Hq | discriminate].
    + intros [p [q H]]. left. destruct p; simpl in H; [eauto | discriminate].
  - rewrite IH. split.
    + intros [[q Hq] | [p [q Hq]]].
      * exists "", q. exact Hq.
      * exists (String c p), q. simpl. now rewrite Hq.
    + intros [p [q H]]. destruct p as [|d p]; simpl in H.
      * left. eauto.
      * right. injection H as _ H. eauto.
Qed.

End StrFacts.

(* ------------------------------------------------------------------ *)
(** ** Characters and letter case *)

Module CaseFacts.
Import Str.

Lemma append_assoc (a b c : string) : ((a ++ b) ++ c = a ++ b ++ c)%string.
Proof. induction a as [|x a IH]; simpl; [reflexivity|now rewrite IH]. Qed.

Lemma append_nil_r (a : string) : (a ++ "")%string = a.
Proof. induction a as [|x a IH]; simpl; [reflexivity|now rewrite IH]. Qed.

Lemma flat_app (l1 l2 : list string) : flat (l1 ++ l2) = (flat l1 ++ flat l2)%string.
Proof.
  induction l1 as [|x l1 IH]; simpl; [reflexivity|].
  now rewrite IH, append_assoc.
Qed.

(** Two ways to cut one string: one of the first parts begins the other. *)
Lemma append_eq_append (a x p y : string) :
  (a ++ x = p ++ y)%string ->
  (exists r, p = (a ++ r)%string /\ x = (r ++ y)%string)
  \/ (exists c r, a = (p ++ String c r)%string /\ y = (String c r ++ x)%string).
Proof.
  revert p. induction a as [|c a IH]; intros p H; simpl in H.
  - left. exists p. auto.
  - destruct p as [|d p]; simpl in H.
    + right. exists c, a. auto.
    + injection H as -> H. destruct (IH p H) as [[r [-> ->]]|[e [r [-> ->]]]].
      * left. exists r. auto.
      * right. exists e, r. auto.
Qed.

Lemma append_same_length (a b x y : string) :
  String.length a = String.length b -> (a ++ x = b ++ y)%string -> a = b /\ x = y.
Proof.
  revert b. induction a as [|c a IH]; intros [|d b] L H; simpl in *; try discriminate.
  - auto.
  - injection L as L. injection H as -> H. destruct (IH b L H) as [-> ->]. auto.
Qed.

(** *** The shape of a character *)

Lemma is_letter_inv c :
  is_letter c = true ->
  exists lead rest n,
    c = String lead rest /\ tail_length lead = Some n
    /\ String.length rest = n /\ all_continuation rest = true.
Proof.
  destruct c as [|lead rest]; simpl; [discriminate|].
  destruct (tail_length lead) as [n|] eqn:E; [|discriminate].
  rewrite andb_true_iff, Nat.eqb_eq. intros [L C]. exists lead, rest, n. auto.
Qed.

Lemma lead_not_continuation c n : tail_length c = Some n -> continuation c = false.
Proof.
  unfold tail_length, continuation.
  destruct (N_of_ascii c <? 128)%N eqn:E1.
  - intros _. apply N.ltb_lt in E1. apply andb_false_iff. left.
    apply N.leb_gt. exact E1.
  - destruct (N_of_ascii c <? 192)%N eqn:E2; [discriminate|].
    intros _. apply andb_false_iff. right. reflexivity.
Qed.

(** No character begins another one. *)
Lemma letter_prefix_free a b x y :
  is_letter a = true -> is_letter b = true ->
  (a ++ x = b ++ y)%string -> a = b /\ x = y.
Proof.
  intros Ha Hb H.
  destruct (is_letter_inv _ Ha) as (la & ra & n & -> & Ta & La & _).
  destruct (is_letter_inv _ Hb) as (lb & rb & m & -> & Tb & Lb & _).
  simpl in H. injection H as -> H.
  assert (n = m) by congruence. subst m.
  destruct (append_same_length ra rb x y) as [-> ->]; [congruence|exact H|auto].
Qed.

Lemma letter_not_empty a : is_letter a = true -> a <> "".
Proof. destruct a; [discriminate|discriminate]. Qed.

(** *** Strings as lists of characters *)

Lemma all_continuation_app r s :
  all_continuation (r ++ s) = all_continuation r && all_continuation s.
Proof.
  induction r as [|c r IH]; simpl; [reflexivity|]. now rewrite IH, andb_assoc.
Qed.

Lemma well_formed_from_letters k s :
  well_formed_from k s = true ->
  exists r l, s = (r ++ flat l)%string /\ String.length r = k
              /\ all_continuation r = true /\ Forall (fun c => is_letter c = true) l.
Proof.
  revert k. induction s as [|c s IH]; intros k H; simpl in H.
  - apply Nat.eqb_eq in H. subst k. exists "", []. auto.
  - destruct k as [|k].
    + destruct (tail_length c) as [n|] eqn:E; [|discriminate].
      destruct (IH n H) as (r & l & -> & Lr & Cr & Hl).
      exists "", (String c r :: l). simpl.
      repeat split; auto. constructor; [|exact Hl].
      simpl. rewrite E, Lr, Nat.eqb_refl. exact Cr.
    + apply andb_true_iff in H. destruct H as [Hc H].
      destruct (IH k H) as (r & l & -> & Lr & Cr & Hl).
      exists (String c r), l. simpl. rewrite Hc, Cr, Lr. auto.
Qed.

Lemma well_formed_letters s :
  well_formed s = true ->
  exists l, s = flat l /\ Forall (fun c => is_letter c = true) l.
Proof.
  intros H. destruct (well_formed_from_letters 0 s H) as (r & l & -> & Lr & _ & Hl).
  destruct r; [|discriminate]. exists l. auto.
Qed.

(** The characters of a string are found in one way only. *)
Lemma flat_prefix l u q :
  Forall (fun c => is_letter c = true) l -> Forall (fun c => is_letter c = true) u ->
  flat l = (flat u ++ q)%string ->
  exists l', l = u ++ l' /\ q = flat l'.
Proof.
  intros Hl Hu. revert l Hl. induction Hu as [|b u Hb Hu IH]; intros l Hl H.
  - exists l. auto.
  - simpl in H. rewrite append_assoc in H. destruct Hl as [|a l Ha Hl].
    + simpl in H. destruct b; [discriminate|discriminate].
    + simpl in H. destruct (letter_prefix_free _ _ _ _ Ha Hb H) as [-> H'].
      destruct (IH l Hl H') as [l' [-> ->]]. exists l'. auto.
Qed.

Lemma flat_infix l u p q :
  Forall (fun c => is_letter c = true) l -> Forall (fun c => is_letter c = true) u ->
  u <> [] -> flat l = (p ++ flat u ++ q)%string ->
  exists l1 l2, l = l1 ++ u ++ l2 /\ p = flat l1 /\ q = flat l2.
Proof.
  intros Hl Hu Hne. revert p. induction Hl as [|a l Ha Hl IH]; intros p H.
  - simpl in H. destruct u as [|b u]; [contradiction|].
    inversion Hu as [|? ? Hb _]; subst.
    destruct p; simpl in H; [|discriminate].
    destruct b; [discriminate|discriminate].
  - simpl in H. destruct (append_eq_append _ _ _ _ H) as [[r [-> H']]|[c [r [Ea H']]]].
    + destruct (IH r H') as (l1 & l2 & -> & -> & ->).
      exists (a :: l1), l2. auto.
    + destruct p as [|d p].
      * simpl in Ea. subst a. simpl in H.
        destruct (@flat_prefix (String c r :: l) u q) as [l' [E ->]].
        { constructor; assumption. } { exact Hu. } { exact H. }
        exists [], l'. auto.
      * exfalso. destruct u as [|b u]; [contradiction|].
        inversion Hu as [|? ? Hb _]; subst.
        destruct (is_letter_inv _ Hb) as (lb & rb & m & -> & Tb & _).
        simpl in H'. injection H' as <- _.
        destruct (is_letter_inv _ Ha) as (la & ra & n & E & _ & _ & Ca).
        simpl in E. injection E as _ E.
        rewrite <- E, all_continuation_app in Ca. simpl in Ca.
        rewrite (lead_not_continuation _ Tb) in Ca.
        rewrite andb_false_r in Ca. discriminate.
Qed.


(** *** The table of letters *)

Lemma table_letters :
  forallb (fun kv => is_letter (fst kv) && is_letter (snd kv)) lower_table = true.
Proof. vm_compute. reflexivity. Qed.

Lemma table_functional :
  forallb (fun kv => String.eqb (lower_letter (fst kv)) (snd kv)) lower_table = true.
Proof. vm_compute. reflexivity. Qed.

Lemma table_idempotent :
  forallb (fun kv => String.eqb (lower_letter (snd kv)) (snd kv)) lower_table = true.
Proof. vm_compute. reflexivity. Qed.

Lemma table_case_pairs :
  lower_table = map (fun p => (utf8 (fst p), utf8 (snd p))) case_pairs.
Proof. vm_compute. reflexivity. Qed.

Lemma in_table u l :
  In (u, l) lower_table ->
  is_letter u = true /\ is_letter l = true
  /\ lower_letter u = l /\ lower_letter l = l.
Proof.
  intros H.
  pose proof (proj1 (forallb_forall _ _) table_letters _ H) as H1.
  pose proof (proj1 (forallb_forall _ _) table_functional _ H) as H2.
  pose proof (proj1 (forallb_forall _ _) table_idempotent _ H) as H3.
  simpl in H1, H2, H3. apply andb_true_iff in H1.
  apply String.eqb_eq in H2, H3. tauto.
Qed.

Lemma lower_letter_cases c :
  (lower_letter c = c /\ forall l, ~ In (c, l) lower_table)
  \/ In (c, lower_letter c) lower_table.
Proof.
  unfold lower_letter.
  destruct (find (fun kv => String.eqb (fst kv) c) lower_table) as [[u l]|] eqn:E.
  - right. apply find_some in E. destruct E as [H E]. simpl in E.
    apply String.eqb_eq in E. now subst.
  - left. split; [reflexivity|]. intros l H.
    pose proof (find_none _ _ E _ H) as F. simpl in F.
    now rewrite String.eqb_refl in F.
Qed.

Lemma lower_letter_letter c : is_letter c = true -> is_letter (lower_letter c) = true.
Proof.
  intros H. destruct (lower_letter_cases c) as [[-> _]|Hin]; [exact H|].
  now apply in_table in Hin.
Qed.

(** *** [toLower], character by character *)

Lemma find_ext_in {A} (f g : A -> bool) (l : list A) :
  (forall x, In x l -> f x = g x) -> find f l = find g l.
Proof.
  induction l as [|x l IH]; intros H; simpl; [reflexivity|].
  rewrite (H x (or_introl eq_refl)). destruct (g x); [reflexivity|].
  apply IH. intros y Hy. apply H. now right.
Qed.

Lemma find_all_false {A} (f : A -> bool) (l : list A) :
  (forall x, In x l -> f x = false) -> find f l = None.
Proof.
  induction l as [|x l IH]; intros H; simpl; [reflexivity|].
  rewrite (H x (or_introl eq_refl)). apply IH. intros y Hy. apply H. now right.
Qed.

Lemma key_at c s kv :
  In kv lower_table -> is_letter c = true ->
  starts_with (fst kv) (c ++ s) = String.eqb (fst kv) c.
Proof.
  intros Hin Hc. destruct kv as [u l]. simpl.
  apply in_table in Hin. destruct Hin as (Hu & _).
  destruct (String.eqb_spec u c) as [->|Hne].
  - apply StrFacts.starts_with_iff. now exists s.
  - destruct (starts_with u (c ++ s)) eqn:E; [|reflexivity].
    apply StrFacts.starts_with_iff in E. destruct E as [q E].
    destruct (letter_prefix_free _ _ _ _ Hc Hu E) as [-> _]. contradiction.
Qed.

Lemma lower_from_cons c s :
  lower_from 0 (String c s)
  = match find (fun kv => starts_with (fst kv) (String c s)) lower_table with
    | Some (u, l) => (l ++ lower_from (String.length u - 1) s)%string
    | None => String c (lower_from 0 s)
    end.
Proof. reflexivity. Qed.

Lemma lower_from_skip r s : lower_from (String.length r) (r ++ s) = lower_from 0 s.
Proof. induction r as [|c r IH]; [reflexivity|exact IH]. Qed.

Lemma lower_from_continuation r s :
  all_continuation r = true ->
  lower_from 0 (r ++ s) = (r ++ lower_from 0 s)%string.
Proof.
  induction r as [|c r IH]; intros H; [reflexivity|].
  simpl in H. apply andb_true_iff in H. destruct H as [Hc Hr].
  change (String c r ++ s)%string with (String c (r ++ s)).
  rewrite lower_from_cons, find_all_false.
  - now rewrite (IH Hr).
  - intros [u l] Hin. simpl. apply in_table in Hin. destruct Hin as (Hu & _).
    destruct (is_letter_inv _ Hu) as (lead & rest & n & -> & T & _).
    simpl. destruct (Ascii.eqb_spec lead c) as [->|Hne]; [|reflexivity].
    rewrite (lead_not_continuation _ T) in Hc. discriminate.
Qed.

Lemma toLower_letter c s :
  is_letter c = true -> toLower (c ++ s) = (lower_letter c ++ toLower s)%string.
Proof.
  intros Hc. unfold toLower, lower_letter.
  destruct (is_letter_inv _ Hc) as (lead & rest & n & E & T & L & C).
  rewrite E at 1. change (String lead rest ++ s)%string with (String lead (rest ++ s)).
  rewrite lower_from_cons.
  change (String lead (rest ++ s)) with (String lead rest ++ s)%string.
  rewrite <- E.
  rewrite (find_ext_in (fun kv => starts_with (fst kv) (c ++ s))
                       (fun kv => String.eqb (fst kv) c)).
  2:{ intros kv Hin. now apply key_at. }
  destruct (find (fun kv => String.eqb (fst kv) c) lower_table) as [[u l]|] eqn:F.
  - apply find_some in F. destruct F as [_ F]. simpl in F.
    apply String.eqb_eq in F. subst u. rewrite E.
    replace (String.length (String lead rest) - 1)%nat with (String.length rest)
      by (simpl; lia).
    now rewrite lower_from_skip.
  - rewrite (lower_from_continuation _ _ C). now rewrite E.
Qed.

Lemma toLower_flat l :
  Forall (fun c => is_letter c = true) l ->
  toLower (flat l) = flat (map lower_letter l).
Proof.
  induction 1 as [|c l Hc Hl IH]; [reflexivity|].
  simpl. now rewrite (toLower_letter _ _ Hc), IH.
Qed.

(** *** Letter case: the table and the pairs of letters *)

Lemma small_of_table a l :
  small_of a l <->
  (exists u, In (u, l) lower_table /\ (a = u \/ a = l)).
Proof.
  unfold small_of. rewrite table_case_pairs. split.
  - intros (u & s & Hin & -> & Ha). exists (utf8 u). split; [|exact Ha].
    apply in_map_iff. exists (u, s). auto.
  - intros (u & Hin & Ha). apply in_map_iff in Hin.
    destruct Hin as [[u' s'] [E Hin]]. simpl in E. injection E as <- <-.
    exists u', s'. auto.
Qed.

Lemma small_of_lower a l : small_of a l -> is_letter a = true /\ lower_letter a = l.
Proof.
  intros H. apply small_of_table in H. destruct H as (u & Hin & Ha).
  apply in_table in Hin. destruct Hin as (Hu & Hl & E1 & E2).
  destruct Ha as [->| ->]; auto.
Qed.

(** Two characters are the same, letter case aside, exactly when
    [toLower] writes the same for both. *)
Lemma same_letter_iff a b :
  is_letter a = true -> is_letter b = true ->
  (same_letter a b <-> lower_letter a = lower_letter b).
Proof.
  intros Ha Hb. split.
  - intros [[_ ->]|[l [H1 H2]]]; [reflexivity|].
    apply small_of_lower in H1, H2. destruct H1 as [_ ->]. now destruct H2.
  - intros E. destruct (lower_letter_cases a) as [[Ea Na]|Ia];
      destruct (lower_letter_cases b) as [[Eb Nb]|Ib].
    + left. split; [exact Ha|congruence].
    + right. exists (lower_letter b). split; apply small_of_table.
      * exists b. split; [exact Ib|]. right. congruence.
      * exists b. auto.
    + right. exists (lower_letter a). split; apply small_of_table.
      * exists a. auto.
      * exists a. split; [exact Ia|]. right. congruence.
    + right. exists (lower_letter a). split; apply small_of_table.
      * exists a. auto.
      * exists b. rewrite E. auto.
Qed.

Lemma same_letter_letters a b :
  same_letter a b -> is_letter a = true /\ is_letter b = true.
Proof.
  intros [[H ->]|[l [H1 H2]]]; [auto|].
  apply small_of_lower in H1, H2. tauto.
Qed.

Lemma Forall2_same_letter us ts :
  Forall2 same_letter us ts ->
  Forall (fun c => is_letter c = true) us /\ Forall (fun c => is_letter c = true) ts
  /\ map lower_letter us = map lower_letter ts.
Proof.
  induction 1 as [|a b us ts Hab H IH]; [auto|].
  destruct IH as (Hu & Ht & E). destruct (same_letter_letters Hab) as [Ha Hb].
  split; [constructor; assumption|]. split; [constructor; assumption|].
  simpl. rewrite E. f_equal. now apply same_letter_iff.
Qed.

Lemma map_lower_same us ts :
  Forall (fun c => is_letter c = true) us -> Forall (fun c => is_letter c = true) ts ->
  map lower_letter us = map lower_letter ts -> Forall2 same_letter us ts.
Proof.
  intros Hu. revert ts. induction Hu as [|a us Ha Hu IH]; intros ts Ht E.
  - destruct ts; [constructor|discriminate].
  - destruct Ht as [|b ts Hb Ht]; [discriminate|]. simpl in E. injection E as E1 E2.
    constructor; [now apply same_letter_iff|now apply IH].
Qed.

Lemma Forall_letters_app l1 l2 :
  Forall (fun c => is_letter c = true) (l1 ++ l2) ->
  Forall (fun c => is_letter c = true) l1 /\ Forall (fun c => is_letter c = true) l2.
Proof. rewrite Forall_app. tauto. Qed.

Lemma Forall_lower l :
  Forall (fun c => is_letter c = true) l ->
  Forall (fun c => is_letter c = true) (map lower_letter l).
Proof.
  induction 1; simpl; constructor; auto. now apply lower_letter_letter.
Qed.

(** [toLower(s) CONTAINS toLower(t)] says that [t] occurs in [s], letter
    case aside. *)
Lemma toLower_contains s t :
  well_formed s = true -> well_formed t = true ->
  (contains (toLower s) (toLower t) = true <-> contains_ci s t).
Proof.
  intros Hs Ht.
  destruct (well_formed_letters _ Hs) as (ls & -> & Ls).
  destruct (well_formed_letters _ Ht) as (lt & -> & Lt).
  rewrite StrFacts.contains_iff, !toLower_flat by assumption. split.
  - intros (p & q & E). destruct lt as [|b lt].
    + exists "", "", (flat ls). split; [reflexivity|]. exists [], []. auto.
    + destruct (@flat_infix (map lower_letter ls) (map lower_letter (b :: lt)) p q)
        as (l1 & l2 & E' & -> & ->).
      { now apply Forall_lower. } { now apply Forall_lower. }
      { discriminate. } { exact E. }
      apply map_eq_app in E'. destruct E' as (s1 & s23 & -> & E1 & E23).
      apply map_eq_app in E23. destruct E23 as (s2 & s3 & -> & E2 & E3).
      exists (flat s1), (flat s2), (flat s3). split; [now rewrite !flat_app|].
      exists s2, (b :: lt). split; [reflexivity|]. split; [reflexivity|].
      apply Forall_letters_app in Ls. destruct Ls as [_ Ls].
      apply Forall_letters_app in Ls. destruct Ls as [Ls _].
      now apply map_lower_same.
  - intros (p & u & q & E & us & ts & -> & Et & H).
    destruct (Forall2_same_letter H) as (Hu & Hts & Em).
    assert (ts = lt).
    { destruct (@flat_prefix lt ts "") as [l' [-> El]]; auto.
      - now rewrite append_nil_r.
      - destruct l' as [|x l']; [now rewrite app_nil_r|].
        exfalso. apply Forall_letters_app in Lt. destruct Lt as [_ Lt].
        inversion Lt as [|? ? Hx _]; subst.
        destruct x; [discriminate|discriminate]. }
    subst ts. destruct us as [|a us].
    + inversion H; subst. exists "", (flat (map lower_letter ls)). reflexivity.
    + destruct (@flat_infix ls (a :: us) p q) as (l1 & l2 & -> & -> & ->);
        auto; [discriminate|].
      exists (flat (map lower_letter l1)), (flat (map lower_letter l2)).
      now rewrite !map_app, !flat_app, Em.
Qed.

End CaseFacts.

(* ------------------------------------------------------------------ *)
(** ** Lists, [DISTINCT] and grouping *)

Section Distinct.
Context {A K : Type} (same : A -> A -> bool) (key : A -> K).
Hypothesis same_key_iff : forall x y, same x y = true <-> key x = key y.

Lemma same_refl x : same x x = true.
Proof. now apply same_key_iff. Qed.

Lemma distinct_incl (l : list A) x : In x (distinct same l) -> In x l.
Proof using Type.
  revert x; induction l as [|a l IH]; simpl; intros x; [tauto|].
  intros [->|H]; [now left|]. apply filter_In in H. right. now apply IH.
Qed.

Lemma distinct_cover (l : list A) x :
  In x l -> exists y, In y (distinct same l) /\ same y x = true.
Proof.
  induction l as [|a l IH]; simpl; [tauto|].
  intros [->|H].
  - exists x. split; [now left | apply same_refl].
  - destruct (IH H) as [y [Hy Hs]].
    destruct (same a y) eqn:E.
    + exists a. split; [now left|]. apply same_key_iff.
      apply same_key_iff in E, Hs. congruence.
    + exists y. split; [|exact Hs]. right. apply filter_In. now rewrite E.
Qed.

Lemma distinct_NoDup (l : list A) : NoDup (map key (distinct same l)).
Proof.
  induction l as [|a l IH]; simpl; constructor.
  - intros H. apply in_map_iff in H. destruct H as [y [Hk Hy]].
    apply filter_In in Hy. destruct Hy as [_ Hy].
    symmetry in Hk. apply same_key_iff in Hk. now rewrite Hk in Hy.
  - clear -IH. induction (distinct same l) as [|y d IHd]; simpl; [constructor|].
    inversion IH; subst. destruct (negb (same a y)); simpl; auto.
    constructor; auto. intros H. apply in_map_iff in H.
    destruct H as [z [Hz Hin]]. apply filter_In in Hin.
    apply H1. apply in_map_iff. exists z. tauto.
Qed.

(** A run of rows with the key of [b] contributes [b] once. *)
Lemma distinct_run (b : A) (run l : list A) :
  run <> [] -> Forall (fun x => x = b) run ->
  distinct same (run ++ l)
  = b :: filter (fun y => negb (same b y)) (distinct same l).
Proof.
  induction run as [|x run IH]; [congruence|].
  intros _ Hall. inversion Hall; subst. simpl.
  destruct run as [|x' run]; [reflexivity|].
  rewrite IH; [|discriminate|assumption]. simpl.
  rewrite same_refl. simpl. f_equal. clear.
  induction (distinct same l) as [|y d IHd]; simpl; [reflexivity|].
  destruct (same b y) eqn:E; simpl; [exact IHd|].
  rewrite E. simpl. now rewrite IHd.
Qed.

End Distinct.

Lemma same_node_iff (x y : node) : same_node x y = true <-> identity x = identity y.
Proof. apply Z.eqb_eq. Qed.

Lemma non_null_In {A} (l : list (option A)) (a : A) :
  In a (non_null l) <-> In (Some a) l.
Proof.
  induction l as [|[x|] l IH]; simpl; [tauto| |].
  - rewrite IH. split; intros [H|H]; auto; left; congruence.
  - rewrite IH. split; [auto|]. intros [H|H]; [discriminate|auto].
Qed.

Lemma optional_In {A} (l : list A) (a : A) : In (Some a) (optional l) <-> In a l.
Proof.
  destruct l as [|x l]; simpl.
  - split; [intros [H|[]]; discriminate | tauto].
  - change (In (Some a) (map Some (x :: l)) <-> In a (x :: l)).
    rewrite in_map_iff. split.
    + intros [y [E H]]. now injection E as <-.
    + intros H. now exists a.
Qed.

Lemma optional_not_nil {A} (l : list A) : optional l <> [].
Proof. destruct l; simpl; discriminate. Qed.

(** Filtering a list without repeated keys by one key. *)
Lemma filter_key {A} (key : A -> Z) (P : A -> bool) (l : list A) (x : A) :
  NoDup (map key l) -> In x l ->
  filter (fun y => P y && (key y =? key x)) l = if P x then [x] else [].
Proof.
  induction l as [|a l IH]; simpl; [tauto|].
  intros Hnd Hin. inversion Hnd as [|? ? Hna Hnd']; subst.
  assert (Hrest : forall y, In y l -> key y = key a -> False).
  { intros y Hy E. apply Hna. rewrite <- E. now apply in_map. }
  destruct Hin as [->|Hin].
  - rewrite Z.eqb_refl, andb_true_r.
    assert (E : filter (fun y => P y && (key y =? key x)) l = []).
    { clear -Hrest. induction l as [|y l IH]; simpl; [reflexivity|].
      destruct (Z.eqb_spec (key y) (key x)) as [E|E].
      - exfalso. apply (Hrest y); [now left | exact E].
      - rewrite andb_false_r. apply IH. intros z Hz. apply Hrest. now right. }
    rewrite E. now destruct (P x).
  - destruct (Z.eqb_spec (key a) (key x)) as [E|E].
    + exfalso. apply (Hrest x Hin). now symmetry.
    + rewrite andb_false_r. now apply IH.
Qed.

Lemma filter_none {A} (P : A -> bool) (l : list A) :
  (forall x, In x l -> P x = false) -> filter P l = [].
Proof.
  induction l as [|a l IH]; simpl; intros H; [reflexivity|].
  rewrite (H a (or_introl eq_refl)). apply IH. intros x Hx. apply H. now right.
Qed.

Lemma filter_all {A} (P : A -> bool) (l : list A) :
  (forall x, In x l -> P x = true) -> filter P l = l.
Proof.
  induction l as [|a l IH]; simpl; intros H; [reflexivity|].
  rewrite (H a (or_introl eq_refl)). f_equal. apply IH. intros x Hx. apply H. now right.
Qed.

(* ------------------------------------------------------------------ *)
(** ** Running clauses *)

Lemma bind_inv {A B} (m : Q A) (k : A -> Q B) g g' b :
  bind m k g = (g', b) -> exists g1 a, m g = (g1, a) /\ k a g1 = (g', b).
Proof. unfold bind. destruct (m g) as [g1 a]. eauto. Qed.

Lemma ret_inv {A} (a : A) g g' b : ret a g = (g', b) -> g' = g /\ b = a.
Proof. unfold ret. intros H. now injection H as <- <-. Qed.

Tactic Notation "step" hyp(H) "as" ident(g) ident(rows) ident(E) :=
  apply bind_inv in H; destruct H as (g & rows & E & H); cbv beta zeta in H.

Ltac run H :=
  repeat match type of H with
    | bind _ _ _ = _ =>
        let g := fresh "g" in let rows := fresh "rows" in
        let E := fresh "E" in
        apply bind_inv in H; destruct H as [g [rows [E H]]]
    end.

(** A clause that only reads leaves the graph alone and maps every row
    on its own. *)
Lemma per_row_read {A B} (f : A -> Q (list B)) (h : A -> graph -> list B)
    (rows : list A) (g : graph) :
  (forall r, f r g = (g, h r g)) ->
  per_row f rows g = (g, flat_map (fun r => h r g) rows).
Proof.
  intros Hf. induction rows as [|r rows IH]; simpl; [reflexivity|].
  unfold bind. rewrite Hf. fold (@per_row A B f). now rewrite IH.
Qed.

Section PerRow.
Context {A B : Type} (f : A -> Q (list B)).
Variables (I : graph -> Prop) (ext : graph -> graph -> Prop).
Variables (RA : A -> graph -> Prop) (RB : A -> B -> graph -> Prop).
Hypothesis ext_refl : forall g, ext g g.
Hypothesis ext_trans : forall g1 g2 g3, ext g1 g2 -> ext g2 g3 -> ext g1 g3.
Hypothesis RA_mono : forall r g g', I g -> ext g g' -> RA r g -> RA r g'.
Hypothesis RB_mono : forall r y g g', I g -> ext g g' -> RB r y g -> RB r y g'.
Hypothesis step : forall r g g' out,
  I g -> RA r g -> f r g = (g', out) ->
  I g' /\ ext g g' /\ out <> [] /\ Forall (fun y => RB r y g') out.

(** The rule for a writing clause: an invariant [I], a preorder [ext]
    along which the facts about rows persist, and every row answering
    with at least one row. *)
Lemma per_row_rule rows g g' out :
  I g -> Forall (fun r => RA r g) rows -> per_row f rows g = (g', out) ->
  I g' /\ ext g g'
  /\ (forall y, In y out -> exists r, In r rows /\ RB r y g')
  /\ (forall r, In r rows -> exists y, In y out /\ RB r y g').
Proof.
  revert g g' out. induction rows as [|r rows IH]; intros g g' out HI HA H.
  - apply ret_inv in H. destruct H as [-> ->].
    repeat split; auto; intros ? [].
  - simpl in H. run H. apply ret_inv in H. destruct H as [-> ->].
    inversion HA as [|? ? Hr Hrows]; subst.
    destruct (step HI Hr E) as (HI1 & Hx1 & Hne & Hout).
    assert (HA1 : Forall (fun r => RA r g0) rows).
    { eapply Forall_impl; [|exact Hrows]. intros; eapply RA_mono; eauto. }
    destruct (IH _ _ _ HI1 HA1 E0) as (HI2 & Hx2 & Hin & Hcov).
    repeat split; eauto.
    + intros y Hy. apply in_app_iff in Hy. destruct Hy as [Hy|Hy].
      * exists r. split; [now left|]. rewrite Forall_forall in Hout.
        eapply RB_mono; eauto.
      * destruct (Hin y Hy) as [r' [? ?]]. exists r'. split; [now right|auto].
    + intros r' [<-|Hr'].
      * destruct rows0 as [|y ys]; [congruence|]. exists y.
        split; [now left|]. inversion Hout; subst. eapply RB_mono; eauto.
      * destruct (Hcov r' Hr') as [y [? ?]]. exists y. split; auto.
        apply in_app_iff. now right.
Qed.

End PerRow.

(* ------------------------------------------------------------------ *)
(** ** The invariant is kept by every write *)

Lemma props_eqb_iff (p q : properties) : props_eqb p q = true <-> p = q.
Proof.
  destruct p, q; simpl; try (split; [discriminate|congruence]);
    rewrite ?andb_true_iff, ?String.eqb_eq; split;
    try (intros [-> ->]; reflexivity); try (intros ->; reflexivity);
    intros H; injection H; auto.
Qed.

Lemma label_eqb_iff (l l' : label) : label_eqb l l' = true <-> l = l'.
Proof. destruct l, l'; simpl; split; congruence. Qed.

Lemma rel_type_eqb_iff (t t' : rel_type) : rel_type_eqb t t' = true <-> t = t'.
Proof. destruct t, t'; simpl; split; congruence. Qed.

Lemma has_label_iff (l : label) (n : node) : has_label l n = true <-> label_of n = l.
Proof. apply label_eqb_iff. Qed.

Lemma far_label_not_Book (t : rel_type) : far_label t <> Book.
Proof. destruct t; discriminate. Qed.

Lemma label_of_named (t : rel_type) (s : string) (n : node) :
  props n = named t s -> label_of n = far_label t.
Proof. unfold label_of. intros ->. now destruct t. Qed.

Lemma name_of_named (t : rel_type) (s : string) (n : node) :
  props n = named t s -> name n = s.
Proof. unfold name. intros ->. now destruct t. Qed.

Lemma named_name (t : rel_type) (n : node) :
  label_of n = far_label t -> props n = named t (name n).
Proof. unfold label_of, name. destruct t, (props n); simpl; congruence. Qed.

Lemma links_book_link_rel i t b x : links_book t (link_rel i t b x) b x.
Proof. destruct t; repeat split. Qed.

Lemma rel_id_link_rel i t b x : rel_id (link_rel i t b x) = i.
Proof. now destruct t. Qed.

Lemma links_book_ends t r r' b x :
  links_book t r b x -> rtype r' = t -> rstart r' = rstart r -> rend r' = rend r ->
  links_book t r' b x.
Proof.
  intros (Ht & Hb & Hx) Ht' Hs He. repeat split; auto;
    destruct t; simpl in *; congruence.
Qed.

Lemma links_book_same t r r' b x :
  links_book t r b x -> links_book t r' b x ->
  rtype r = rtype r' /\ rstart r = rstart r' /\ rend r = rend r'.
Proof.
  intros (Ht & Hb & Hx) (Ht' & Hb' & Hx').
  destruct t; simpl in *; repeat split; congruence.
Qed.

Lemma well_typed_mono g g' r :
  incl (nodes g) (nodes g') -> well_typed g r -> well_typed g' r.
Proof.
  intros Hi (b & x & Hb & Hx & H). exists b, x. split; [|split]; auto.
Qed.

Lemma NoDup_map_filter {A B} (f : A -> B) (P : A -> bool) (l : list A) :
  NoDup (map f l) -> NoDup (map f (filter P l)).
Proof.
  induction l as [|a l IH]; simpl; intros H; [constructor|].
  inversion H as [|? ? Hn Hd]; subst. destruct (P a); simpl; auto.
  constructor; auto. intros Hin. apply Hn.
  apply in_map_iff in Hin. destruct Hin as [z [Hz Hin]].
  apply filter_In in Hin. apply in_map_iff. exists z. tauto.
Qed.

Lemma NoDup_snoc (l : list Z) (i : Z) :
  NoDup l -> (forall j, In j l -> j < i) -> NoDup (l ++ [i]).
Proof.
  intros Hl Hlt. apply NoDup_app; auto.
  - constructor; [intros []|constructor].
  - intros a Ha [<-|[]]. specialize (Hlt _ Ha). lia.
Qed.

Lemma in_snoc {A} (l : list A) (x y : A) : In y (l ++ [x]) <-> In y l \/ y = x.
Proof. rewrite in_app_iff. simpl. intuition. Qed.

Lemma wf_same_id g (a b : node) :
  wf g -> In a (nodes g) -> In b (nodes g) -> identity a = identity b -> a = b.
Proof.
  intros W. pose proof (wf_ids W) as Hnd.
  induction (nodes g) as [|n l IH]; [contradiction|].
  simpl in Hnd. inversion Hnd as [|? ? Hn Hnd']; subst.
  intros [<-|Ha] [<-|Hb] E; auto.
  - exfalso. apply Hn. rewrite E. now apply in_map.
  - exfalso. apply Hn. rewrite <- E. now apply in_map.
Qed.

Lemma wf_same_rel_id g (r r' : rel) :
  wf g -> In r (rels g) -> In r' (rels g) -> rel_id r = rel_id r' -> r = r'.
Proof.
  intros W. pose proof (wf_rel_ids W) as Hnd.
  induction (rels g) as [|n l IH]; [contradiction|].
  simpl in Hnd. inversion Hnd as [|? ? Hn Hnd']; subst.
  intros [<-|Ha] [<-|Hb] E; auto.
  - exfalso. apply Hn. rewrite E. now apply in_map.
  - exfalso. apply Hn. rewrite <- E. now apply in_map.
Qed.

Lemma wf_empty : wf empty_graph.
Proof. constructor; simpl; try constructor; intros; contradiction. Qed.

Lemma wf_add_node (g : graph) (p : properties) :
  wf g ->
  (forall n, In n (nodes g) -> props n = p -> label_of n = Book) ->
  wf (Graph (nodes g ++ [Node (next_node g) p]) (rels g)
            (next_node g + 1) (next_rel g)).
Proof.
  intros W Hp. constructor; simpl.
  - rewrite map_app. simpl. apply NoDup_snoc; [apply W|].
    intros j Hj. apply in_map_iff in Hj. destruct Hj as [n [<- Hn]].
    now apply W.
  - intros n Hn. apply in_snoc in Hn. destruct Hn as [Hn| ->]; simpl; [|lia].
    apply (wf_next_node W) in Hn. lia.
  - apply W.
  - apply W.
  - intros a b Ha Hb Hl E. apply in_snoc in Ha, Hb.
    destruct Ha as [Ha| ->], Hb as [Hb| ->]; auto.
    + now apply (wf_names W).
    + exfalso. apply Hl. now apply Hp.
    + exfalso. apply Hl. unfold label_of. rewrite E. now apply Hp.
  - intros r Hr. apply (well_typed_mono (g := g)); [|now apply W].
    simpl. apply incl_appl, incl_refl.
  - apply W.
Qed.

Lemma wf_add_rel (g : graph) (t : rel_type) (b x : node) :
  wf g -> In b (nodes g) -> In x (nodes g) ->
  label_of b = Book -> label_of x = far_label t ->
  (forall r, In r (rels g) -> ~ links_book t r b x) ->
  wf (Graph (nodes g) (rels g ++ [link_rel (next_rel g) t b x])
            (next_node g) (next_rel g + 1)).
Proof.
  intros W Hb Hx Lb Lx Hnew.
  pose proof (links_book_link_rel (next_rel g) t b x) as Hlink.
  constructor; simpl.
  - apply W.
  - apply W.
  - rewrite map_app. simpl. rewrite rel_id_link_rel. apply NoDup_snoc; [apply W|].
    intros j Hj. apply in_map_iff in Hj. destruct Hj as [r [<- Hr]]. now apply W.
  - intros r Hr. apply in_snoc in Hr. destruct Hr as [Hr| ->].
    + apply (wf_next_rel W) in Hr. lia.
    + rewrite rel_id_link_rel. lia.
  - apply W.
  - intros r Hr. apply in_snoc in Hr. destruct Hr as [Hr| ->].
    + apply (well_typed_mono (g := g)); [apply incl_refl|now apply W].
    + exists b, x. destruct Hlink as (Ht & ? & ?). rewrite Ht.
      repeat split; auto.
  - intros r r' Hr Hr' Et Es Ee. apply in_snoc in Hr, Hr'.
    destruct Hr as [Hr| ->], Hr' as [Hr'| ->]; auto.
    + now apply (wf_simple W).
    + exfalso. apply (Hnew r Hr).
      eapply links_book_ends; [exact Hlink|..]; auto.
      rewrite Et. apply Hlink.
    + exfalso. apply (Hnew r' Hr').
      eapply links_book_ends; [exact Hlink|..]; auto.
      rewrite <- Et. apply Hlink.
Qed.

Lemma wf_filter_rels (g : graph) (P : rel -> bool) :
  wf g -> wf (Graph (nodes g) (filter P (rels g)) (next_node g) (next_rel g)).
Proof.
  intros W. constructor; simpl.
  - apply W.
  - apply W.
  - apply NoDup_map_filter, W.
  - intros r Hr. apply filter_In in Hr. now apply W.
  - apply W.
  - intros r Hr. apply filter_In in Hr.
    apply (well_typed_mono (g := g)); [apply incl_refl|now apply W].
  - intros r r' Hr Hr'. apply filter_In in Hr, Hr'. now apply (wf_simple W).
Qed.

Lemma retitle_identity t b n : identity (retitle t b n) = identity n.
Proof.
  unfold retitle, with_title. destruct (same_node n b); [|reflexivity].
  now destruct (props n).
Qed.

Lemma retitle_label t b n : label_of (retitle t b n) = label_of n.
Proof.
  unfold retitle, with_title, label_of. destruct (same_node n b); [|reflexivity].
  destruct (props n) eqn:E; simpl; rewrite ?E; reflexivity.
Qed.

Lemma retitle_other t b n : label_of n <> Book -> retitle t b n = n.
Proof.
  unfold retitle, with_title, label_of. destruct (same_node n b); [|reflexivity].
  destruct (props n) eqn:E; congruence.
Qed.

Lemma wf_set_title (g : graph) (b : node) (t : string) :
  wf g ->
  wf (Graph (map (retitle t b) (nodes g)) (rels g) (next_node g) (next_rel g)).
Proof.
  intros W. constructor; simpl.
  - rewrite map_map. erewrite map_ext; [apply W|]. apply retitle_identity.
  - intros n Hn. apply in_map_iff in Hn. destruct Hn as [m [<- Hm]].
    rewrite retitle_identity. now apply W.
  - apply W.
  - apply W.
  - intros a c Ha Hc Hl E. apply in_map_iff in Ha, Hc.
    destruct Ha as [a0 [<- Ha]], Hc as [c0 [<- Hc]].
    assert (Hc0 : label_of c0 <> Book).
    { rewrite <- (retitle_label t b c0). unfold label_of in *.
      rewrite <- E. exact Hl. }
    rewrite retitle_label in Hl.
    rewrite !retitle_other in E by assumption.
    rewrite !retitle_other by assumption.
    now apply (wf_names W).
  - intros r Hr. destruct (wf_typed W r Hr) as (b0 & x & Hb & Hx & Lb & Lx & H).
    exists (retitle t b b0), (retitle t b x).
    rewrite !retitle_label. destruct H as (? & ? & ?).
    repeat split; rewrite ?retitle_identity; auto; simpl; now apply in_map.
  - apply W.
Qed.

Lemma wf_detach_delete (g : graph) (b : node) :
  wf g ->
  wf (Graph (filter (fun n => negb (same_node n b)) (nodes g))
            (filter (fun r => negb ((rstart r =? identity b) || (rend r =? identity b)))
                    (rels g))
            (next_node g) (next_rel g)).
Proof.
  intros W. constructor; simpl.
  - apply NoDup_map_filter, W.
  - intros n Hn. apply filter_In in Hn. now apply W.
  - apply NoDup_map_filter, W.
  - intros r Hr. apply filter_In in Hr. now apply W.
  - intros a c Ha Hc. apply filter_In in Ha, Hc. now apply (wf_names W).
  - intros r Hr. apply filter_In in Hr. destruct Hr as [Hr Hends].
    apply negb_true_iff, orb_false_iff in Hends. destruct Hends as [Hs He].
    apply Z.eqb_neq in Hs, He.
    destruct (wf_typed W r Hr) as (b0 & x & Hb & Hx & Lb & Lx & Ht & Hbe & Hfe).
    exists b0, x. repeat split; auto; apply filter_In; split; auto;
      apply negb_true_iff, Z.eqb_neq; destruct (rtype r); simpl in *; congruence.
  - intros r r' Hr Hr'. apply filter_In in Hr, Hr'. now apply (wf_simple W).
Qed.

(* ------------------------------------------------------------------ *)
(** ** [MERGE]: reuse or create *)

Lemma extends_refl t books names g : extends t books names g g.
Proof.
  constructor; auto using incl_refl. lia.
Qed.

Lemma extends_trans t books names g1 g2 g3 :
  extends t books names g1 g2 -> extends t books names g2 g3 ->
  extends t books names g1 g3.
Proof.
  intros X Y. constructor.
  - eapply incl_tran; [apply X|apply Y].
  - eapply incl_tran; [apply X|apply Y].
  - pose proof (ext_next_rel X). pose proof (ext_next_rel Y). lia.
  - intros n Hn. destruct (ext_new_nodes Y n Hn) as [H|H]; [|now right].
    apply (ext_new_nodes X n H).
  - intros r Hr. destruct (ext_new_rels Y r Hr) as [H|H].
    + destruct (ext_new_rels X r H) as [H'|(Hid & b & x & s & Hb & Hx & H')];
        [now left|right].
      split; [exact Hid|]. exists b, x, s. split; [exact Hb|].
      split; [apply (ext_nodes Y), Hx|exact H'].
    + right. destruct H as (Hid & H). split; [|exact H].
      pose proof (ext_next_rel X). lia.
Qed.

Lemma MERGE_node_spec t s g g' out :
  wf g -> MERGE_node t s g = (g', out) ->
  wf g' /\ out <> []
  /\ Forall (fun x => In x (nodes g') /\ props x = named t s) out
  /\ incl (nodes g) (nodes g') /\ rels g' = rels g /\ next_rel g' = next_rel g
  /\ (forall n, In n (nodes g') -> In n (nodes g) \/ props n = named t s).
Proof.
  intros W. unfold MERGE_node.
  destruct (filter _ (nodes g)) as [|n found] eqn:F.
  - simpl. intros H. injection H as <- <-.
    split; [|repeat split; simpl; auto].
    + apply wf_add_node; [exact W|]. intros n Hn E. exfalso.
      assert (Hin : In n (filter (fun n => props_eqb (props n) (named t s))
                                 (nodes g))).
      { apply filter_In. split; [exact Hn|]. now apply props_eqb_iff. }
      now rewrite F in Hin.
    + discriminate.
    + constructor; [|constructor]. split; [|reflexivity].
      apply in_snoc. now right.
    + apply incl_appl, incl_refl.
    + intros n Hn. apply in_snoc in Hn. destruct Hn as [Hn| ->]; auto.
  - intros H. injection H as <- <-.
    split; [exact W|]. split; [discriminate|].
    split; [|repeat split; auto using incl_refl].
    rewrite <- F. apply Forall_forall. intros x Hx. apply filter_In in Hx.
    split; [tauto|]. now apply props_eqb_iff.
Qed.

Lemma MERGE_rel_spec t b x g g' out :
  wf g -> In b (nodes g) -> In x (nodes g) ->
  label_of b = Book -> label_of x = far_label t ->
  MERGE_rel t b x g = (g', out) ->
  wf g' /\ out <> [] /\ nodes g' = nodes g /\ incl (rels g) (rels g')
  /\ next_rel g <= next_rel g'
  /\ (exists r, In r (rels g') /\ links_book t r b x)
  /\ (forall r, In r (rels g') ->
        In r (rels g) \/ (next_rel g <= rel_id r /\ links_book t r b x)).
Proof.
  intros W Hb Hx Lb Lx. unfold MERGE_rel.
  destruct (filter _ (rels g)) as [|r found] eqn:F.
  - intros H. injection H as <- <-. simpl.
    split; [|repeat split; auto].
    + apply wf_add_rel; auto. intros r Hr (Ht & Hbe & Hfe).
      assert (Hin : In r (filter (fun r => rel_type_eqb (rtype r) t
                                   && (book_end t r =? identity b)
                                   && (far_end t r =? identity x)) (rels g))).
      { apply filter_In. split; [exact Hr|].
        rewrite !andb_true_iff, !Z.eqb_eq, rel_type_eqb_iff. auto. }
      now rewrite F in Hin.
    + discriminate.
    + apply incl_appl, incl_refl.
    + lia.
    + exists (link_rel (next_rel g) t b x).
      split; [apply in_snoc; now right | apply links_book_link_rel].
    + intros r Hr. apply in_snoc in Hr. destruct Hr as [Hr| ->]; auto.
      right. rewrite rel_id_link_rel. split; [lia|apply links_book_link_rel].
  - intros H. injection H as <- <-.
    split; [exact W|]. split; [discriminate|].
    repeat split; auto using incl_refl; [lia|].
    exists r. assert (Hin : In r (r :: found)) by now left.
    rewrite <- F in Hin. apply filter_In in Hin. destruct Hin as [Hr Hc].
    rewrite !andb_true_iff, !Z.eqb_eq, rel_type_eqb_iff in Hc.
    split; [exact Hr|]. unfold links_book. tauto.
Qed.

Lemma in_UNWIND {A B} (l : list B) (rows : list A) (k : A) (s : B) :
  In (k, s) (UNWIND l rows) <-> In k rows /\ In s l.
Proof.
  unfold UNWIND. rewrite in_flat_map. split.
  - intros [r [Hr H]]. apply in_map_iff in H. destruct H as [y [E Hy]].
    injection E as -> ->. auto.
  - intros [Hk Hs]. exists k. split; [exact Hk|]. now apply in_map.
Qed.

Lemma UNWIND_MERGE_spec {K} t (book : K -> node) names rows g g' out :
  wf g ->
  (forall k, In k rows -> In (book k) (nodes g) /\ label_of (book k) = Book) ->
  UNWIND_MERGE t book names rows g = (g', out) ->
  wf g' /\ extends t (map book rows) names g g'
  /\ (forall k x, In (k, x) out ->
        In k rows /\ In x (nodes g')
        /\ (exists s, In s names /\ props x = named t s)
        /\ exists r, In r (rels g') /\ links_book t r (book k) x)
  /\ (forall k s, In k rows -> In s names ->
        exists x, In (k, x) out /\ In x (nodes g')
                  /\ props x = named t s
                  /\ exists r, In r (rels g') /\ links_book t r (book k) x).
Proof.
  intros W Hbooks H. unfold UNWIND_MERGE in H. run H.
  set (books := map book rows) in *.
  set (I := fun g => wf g /\ forall k, In k rows ->
                       In (book k) (nodes g) /\ label_of (book k) = Book).
  set (ext := extends t books names).
  assert (Imono : forall g1 g2, I g1 -> wf g2 -> ext g1 g2 -> I g2).
  { intros g1 g2 [_ Hb] W2 X. split; [exact W2|]. intros k Hk.
    destruct (Hb k Hk). split; [apply (ext_nodes X)|]; auto. }
  (* first clause: MERGE of the nodes *)
  pose (f1 := fun r : K * string =>
                let '(k, s) := r in
                found <- MERGE_node t s ;; ret (map (pair k) found)).
  pose (RA1 := fun (r : K * string) (_ : graph) => In (fst r) rows /\ In (snd r) names).
  pose (RB1 := fun (r : K * string) (y : K * node) (g : graph) =>
                 fst y = fst r /\ In (snd y) (nodes g)
                 /\ props (snd y) = named t (snd r)).
  assert (M1 : forall r y ga gb, I ga -> ext ga gb -> RB1 r y ga -> RB1 r y gb).
  { intros r y ga gb _ X (? & ? & ?). repeat split; auto. now apply (ext_nodes X). }
  assert (St1 : forall r ga gb out, I ga -> RA1 r ga -> f1 r ga = (gb, out) ->
            I gb /\ ext ga gb /\ out <> []
            /\ Forall (fun y => RB1 r y gb) out).
  { intros [k s] ga gb o HI [Hk Hs] Hf. simpl in Hk, Hs. unfold f1 in Hf. run Hf.
    apply ret_inv in Hf. destruct Hf as [-> ->].
    destruct (@MERGE_node_spec t s _ _ _ (proj1 HI) E0)
      as (W1 & Hne & Hall & Hincl & Hrels & Hnext & Hnew).
    assert (X : ext ga g1).
    { constructor; auto.
      - rewrite Hrels. apply incl_refl.
      - lia.
      - intros n Hn. destruct (Hnew n Hn); eauto.
      - intros r Hr. left. now rewrite <- Hrels. }
    split; [eapply Imono; eauto|]. split; [exact X|].
    split; [destruct rows1; simpl; congruence|].
    apply Forall_forall. intros y Hy. apply in_map_iff in Hy.
    destruct Hy as [x [<- Hx]]. rewrite Forall_forall in Hall.
    destruct (Hall x Hx). repeat split; auto. }
  assert (HA1 : Forall (fun r => RA1 r g) (UNWIND names rows)).
  { apply Forall_forall. intros [k s] Hks. apply in_UNWIND in Hks. exact Hks. }
  destruct (@per_row_rule _ _ f1 I ext RA1 RB1
              (extends_refl t books names) (@extends_trans t books names)
              (fun r ga gb _ _ H => H) M1 St1 _ _ _ _ (conj W Hbooks) HA1 E)
    as (HI1 & X1 & Hin1 & Hcov1).
  clear St1 M1.
  (* second clause: MERGE of the relationships *)
  pose (f2 := fun r : K * node =>
                let '(k, x) := r in
                found <- MERGE_rel t (book k) x ;; ret (map (fun _ => (k, x)) found)).
  pose (RA2 := fun (r : K * node) (g : graph) =>
                 In (fst r) rows /\ In (snd r) (nodes g)
                 /\ exists s, In s names /\ props (snd r) = named t s).
  pose (RB2 := fun (r : K * node) (y : K * node) (g : graph) =>
                 y = r /\ exists e, In e (rels g) /\ links_book t e (book (fst r)) (snd r)).
  assert (M2 : forall r ga gb, I ga -> ext ga gb -> RA2 r ga -> RA2 r gb).
  { intros r ga gb _ X (? & ? & ?). repeat split; auto. now apply (ext_nodes X). }
  assert (N2 : forall r y ga gb, I ga -> ext ga gb -> RB2 r y ga -> RB2 r y gb).
  { intros r y ga gb _ X (? & e & ? & ?). split; auto. exists e.
    split; auto. now apply (ext_rels X). }
  assert (St2 : forall r ga gb out, I ga -> RA2 r ga -> f2 r ga = (gb, out) ->
            I gb /\ ext ga gb /\ out <> []
            /\ Forall (fun y => RB2 r y gb) out).
  { intros [k x] ga gb o HI (Hk & Hx & s & Hs & Hp) Hf. simpl in Hk, Hx, Hp.
    unfold f2 in Hf. run Hf.
    apply ret_inv in Hf. destruct Hf as [-> ->].
    destruct (proj2 HI k Hk) as [Hbk Lbk].
    destruct (@MERGE_rel_spec _ _ _ _ _ _ (proj1 HI) Hbk Hx Lbk
                (@label_of_named t s x Hp) E0)
      as (W1 & Hne & Hnodes & Hincl & Hnext & Hex & Hnew).
    assert (X : ext ga g1).
    { constructor; auto.
      - rewrite Hnodes. apply incl_refl.
      - intros n Hn. left. now rewrite <- Hnodes.
      - intros r Hr. destruct (Hnew r Hr) as [?|[? ?]]; [now left|right].
        split; [assumption|]. exists (book k), x, s.
        repeat split; auto; try apply H1.
        + unfold books. now apply in_map.
        + now rewrite Hnodes. }
    split; [eapply Imono; eauto|]. split; [exact X|].
    split; [destruct rows1; simpl; congruence|].
    apply Forall_forall. intros y Hy. apply in_map_iff in Hy.
    destruct Hy as [e [<- He]]. split; auto. }
  assert (HA2 : Forall (fun r => RA2 r g0) rows0).
  { apply Forall_forall. intros [k x] Hkx.
    destruct (Hin1 _ Hkx) as ([k' s] & Hks & Hfst & Hx & Hp).
    simpl in Hfst, Hx, Hp. subst k'. apply in_UNWIND in Hks.
    repeat split; simpl; try tauto. exists s. tauto. }
  destruct (@per_row_rule _ _ f2 I ext RA2 RB2
              (extends_refl t books names) (@extends_trans t books names)
              M2 N2 St2 _ _ _ _ HI1 HA2 H)
    as (HI2 & X2 & Hin2 & Hcov2).
  clear St2 M2 N2.
  split; [apply HI2|]. split; [eapply extends_trans; eauto|]. split.
  - intros k x Hkx. destruct (Hin2 _ Hkx) as (r & Hr & <- & He).
    rewrite Forall_forall in HA2. destruct (HA2 _ Hr) as (Hk & Hx & Hs).
    simpl in *. repeat split; auto. now apply (ext_nodes X2).
  - intros k s Hk Hs.
    destruct (Hcov1 (k, s)) as ([k' x] & Hkx & Hfst & Hx & Hp).
    { apply in_UNWIND. auto. }
    simpl in Hfst, Hx, Hp. subst k'.
    destruct (Hcov2 _ Hkx) as (y & Hy & -> & He). simpl in He.
    exists x. repeat split; auto. now apply (ext_nodes X2).
Qed.

(* ------------------------------------------------------------------ *)
(** ** Patterns, [OPTIONAL MATCH] and [DELETE] *)

Lemma in_links t b g r x :
  In (r, x) (links t b g) <->
  In r (rels g) /\ In x (nodes g) /\ links_book t r b x /\ label_of x = far_label t.
Proof.
  unfold links, links_book. rewrite in_flat_map. split.
  - intros [r' [Hr' H]].
    destruct (rel_type_eqb (rtype r') t && (book_end t r' =? identity b)) eqn:C;
      [|contradiction].
    apply in_map_iff in H. destruct H as [y [E Hy]]. injection E as -> ->.
    apply filter_In in Hy. destruct Hy as [Hx Hc].
    rewrite andb_true_iff, Z.eqb_eq, rel_type_eqb_iff in C.
    rewrite andb_true_iff, Z.eqb_eq, has_label_iff in Hc.
    intuition congruence.
  - intros (Hr & Hx & (Ht & Hb & Hf) & Hl). exists r. split; [exact Hr|].
    replace (rel_type_eqb (rtype r) t && (book_end t r =? identity b)) with true.
    + apply in_map, filter_In. split; [exact Hx|].
      rewrite andb_true_iff, Z.eqb_eq, has_label_iff. auto.
    + symmetry. rewrite andb_true_iff, Z.eqb_eq, rel_type_eqb_iff. auto.
Qed.

(** In a well-formed store the pattern of type [t] at [b] meets every
    relationship of that type at [b]. *)
Lemma links_complete t b g r :
  wf g -> In r (rels g) -> rtype r = t -> book_end t r = identity b ->
  exists x, In (r, x) (links t b g).
Proof.
  intros W Hr Ht Hb.
  destruct (wf_typed W r Hr) as (b0 & x & _ & Hx & _ & Lx & (_ & _ & Hf)).
  rewrite Ht in *. exists x. apply in_links. unfold links_book. tauto.
Qed.

Lemma filter_filter {A} (P R : A -> bool) (l : list A) :
  filter P (filter R l) = filter (fun x => R x && P x) l.
Proof.
  induction l as [|a l IH]; simpl; [reflexivity|].
  destruct (R a); simpl; [destruct (P a)|]; now rewrite IH.
Qed.

Lemma per_row_DELETE (rows : list (node * option rel)) (g : graph) :
  per_row (fun '(b, oldRel) => _ <- DELETE_rel oldRel ;; ret [b]) rows g
  = (Graph (nodes g) (filter (kept (map snd rows)) (rels g))
           (next_node g) (next_rel g),
     map fst rows).
Proof.
  revert g. induction rows as [|[b o] rows IH]; intros g; simpl.
  - unfold ret. rewrite filter_all by reflexivity. now destruct g.
  - unfold bind at 1. unfold bind at 1.
    destruct o as [r|]; simpl; unfold bind; rewrite IH; simpl.
    + now rewrite filter_filter.
    + reflexivity.
Qed.

Lemma DETACH_spec t rows g g' out :
  wf g -> DETACH t rows g = (g', out) ->
  wf g' /\ nodes g' = nodes g /\ next_node g' = next_node g
  /\ next_rel g' = next_rel g
  /\ incl (rels g') (rels g)
  /\ (forall r b, In r (rels g') -> In b rows -> rtype r = t ->
                  book_end t r <> identity b)
  /\ (forall r, In r (rels g) ->
        (forall b, In b rows -> rtype r = t -> book_end t r <> identity b) ->
        In r (rels g'))
  /\ (forall b, In b out <-> In b rows).
Proof.
  intros W H. unfold DETACH in H. run H.
  rewrite (per_row_read _
             (fun b g => map (fun m => (b, option_map fst m)) (optional (links t b g))))
    in E by reflexivity.
  injection E as <- <-. rewrite per_row_DELETE in H. injection H as <- <-.
  set (rows1 := flat_map _ rows).
  assert (Hold : forall r, In (Some r) (map snd rows1) <->
                           exists b x, In b rows /\ In (r, x) (links t b g)).
  { intros r. unfold rows1. rewrite in_map_iff. split.
    - intros [[b o] [E H]]. simpl in E. subst o. apply in_flat_map in H.
      destruct H as [b' [Hb' H]]. apply in_map_iff in H.
      destruct H as [m [E Hm]]. injection E as -> E.
      destruct m as [[r' x]|]; simpl in E; [|discriminate]. injection E as ->.
      rewrite optional_In in Hm. eauto.
    - intros (b & x & Hb & Hl). exists (b, Some r). split; [reflexivity|].
      apply in_flat_map. exists b. split; [exact Hb|]. apply in_map_iff.
      exists (Some (r, x)). split; [reflexivity|]. now apply optional_In. }
  assert (Hkept : forall r', kept (map snd rows1) r' = true <->
                    forall r, In (Some r) (map snd rows1) -> rel_id r' <> rel_id r).
  { intros r'. unfold kept. rewrite forallb_forall. split.
    - intros Hk r Hr. specialize (Hk _ Hr). simpl in Hk.
      now apply negb_true_iff, Z.eqb_neq in Hk.
    - intros Hk [r|] Hr; [|reflexivity]. apply negb_true_iff, Z.eqb_neq. auto. }
  split; [now apply wf_filter_rels|]. simpl. repeat split; auto.
  - intros r Hr. now apply filter_In in Hr.
  - intros r b Hr Hb Ht Hbe. apply filter_In in Hr. destruct Hr as [Hr Hk].
    destruct (@links_complete t b g r W Hr Ht Hbe) as [x Hx].
    rewrite Hkept in Hk. apply (Hk r); [|reflexivity]. apply Hold. eauto.
  - intros r Hr Hother. apply filter_In. split; [exact Hr|]. apply Hkept.
    intros r0 Hr0 Eid. apply Hold in Hr0. destruct Hr0 as (b & x & Hb & Hl).
    apply in_links in Hl. destruct Hl as (Hr0 & _ & (Ht & Hbe & _) & _).
    assert (r = r0) by exact (@wf_same_rel_id g r r0 W Hr Hr0 Eid).
    subst r0. now apply (Hother b).
  - unfold rows1. rewrite in_map_iff. intros [[b' o] [E H]]. simpl in E. subst b'.
    apply in_flat_map in H. destruct H as [b' [Hb' H]].
    apply in_map_iff in H. destruct H as [m [E _]]. now injection E as ->.
  - intros Hb. unfold rows1. apply in_map_iff.
    destruct (optional (links t b g)) as [|m ms] eqn:O.
    { now apply optional_not_nil in O. }
    exists (b, option_map fst m). split; [reflexivity|].
    apply in_flat_map. exists b. split; [exact Hb|]. rewrite O. now left.
Qed.

(* ------------------------------------------------------------------ *)
(** ** [MATCH (b:Book) WHERE id(b) = $id] *)

Lemma MATCH_by_id_rows (id : Z) (g : graph) :
  MATCH_books [CondId id] g
  = (g, filter (fun b => has_label Book b && (identity b =? id)) (nodes g)).
Proof.
  unfold MATCH_books, read. f_equal. apply filter_ext. intros b.
  unfold where_holds. simpl. now rewrite andb_true_r.
Qed.

Lemma MATCH_by_id_found (id : Z) (g : graph) (b : node) :
  wf g -> In b (nodes g) -> label_of b = Book -> identity b = id ->
  MATCH_books [CondId id] g = (g, [b]).
Proof.
  intros W Hb Lb <-. rewrite MATCH_by_id_rows. f_equal.
  rewrite (filter_key identity (has_label Book) (nodes g) b (wf_ids W) Hb).
  apply has_label_iff in Lb. now rewrite Lb.
Qed.

Lemma MATCH_by_id_missing (id : Z) (g : graph) :
  (forall b, In b (nodes g) -> label_of b = Book -> identity b <> id) ->
  MATCH_books [CondId id] g = (g, []).
Proof.
  intros H. rewrite MATCH_by_id_rows. f_equal. apply filter_none.
  intros b Hb. destruct (has_label Book b) eqn:L; [|reflexivity].
  apply has_label_iff in L. simpl. apply Z.eqb_neq. auto.
Qed.

(** Whether the store holds a book with identity [id]. *)
Lemma book_dec (id : Z) (g : graph) :
  (exists b, In b (nodes g) /\ label_of b = Book /\ identity b = id)
  \/ (forall b, In b (nodes g) -> label_of b = Book -> identity b <> id).
Proof.
  induction (nodes g) as [|n l IH].
  - right. intros b [].
  - destruct IH as [(b & Hb & H)|IH].
    + left. exists b. split; [now right|exact H].
    + destruct (Z.eq_dec (identity n) id) as [E|E].
      * destruct (label_of n) eqn:L.
        -- left. exists n. split; [now left|auto].
        -- right. intros b [<-|Hb]; [congruence|auto].
        -- right. intros b [<-|Hb]; [congruence|auto].
      * right. intros b [<-|Hb]; auto.
Qed.

Lemma with_title_identity t b : identity (with_title t b) = identity b.
Proof. unfold with_title. now destruct (props b). Qed.

Lemma with_title_label t b : label_of (with_title t b) = label_of b.
Proof.
  unfold with_title, label_of. destruct (props b) eqn:E; simpl; rewrite ?E; reflexivity.
Qed.

Lemma with_title_title t b : label_of b = Book -> title (with_title t b) = t.
Proof.
  unfold with_title, label_of, title. destruct (props b) eqn:E; simpl; congruence.
Qed.

Lemma retitle_self t b : retitle t b b = with_title t b.
Proof. unfold retitle, same_node. now rewrite Z.eqb_refl. Qed.

Lemma retitle_unrelated t b n : identity n <> identity b -> retitle t b n = n.
Proof.
  unfold retitle, same_node. intros H. apply Z.eqb_neq in H. now rewrite H.
Qed.

Lemma SET_title_rows (b : node) (t : string) (g : graph) :
  per_row (fun b => b' <- SET_title b t ;; ret [b']) [b] g
  = (Graph (map (retitle t b) (nodes g)) (rels g) (next_node g) (next_rel g),
     [with_title t b]).
Proof. reflexivity. Qed.

(** The rows of the last clauses are empty only for an empty input. *)
Lemma OPTIONAL_MATCH_links_rows (rows : list node) (g : graph) :
  OPTIONAL_MATCH_links rows g
  = (g, flat_map (fun b =>
           flat_map (fun a =>
               map (fun m => (b, (a, option_map snd m))) (optional (links IN_GENRE b g)))
             (map (option_map snd) (optional (links WROTE b g)))) rows).
Proof.
  unfold OPTIONAL_MATCH_links, bind.
  rewrite (per_row_read _
             (fun b g => map (fun m => (b, option_map snd m)) (optional (links WROTE b g))))
    by reflexivity.
  rewrite (per_row_read _
             (fun (r : node * option node) g =>
                map (fun m => (fst r, (snd r, option_map snd m)))
                    (optional (links IN_GENRE (fst r) g))))
    by (intros [b a]; reflexivity).
  f_equal. induction rows as [|b rows IH]; simpl; [reflexivity|].
  rewrite flat_map_app, IH. f_equal.
  induction (optional (links WROTE b g)) as [|m ms IHm]; simpl; [reflexivity|].
  now rewrite IHm.
Qed.

Lemma group_by_nil {K V} (same : K -> K -> bool) (rows : list (K * V)) :
  group_by same rows = [] <-> rows = [].
Proof.
  unfold group_by. destruct rows; simpl; split; congruence.
Qed.

Lemma OPTIONAL_MATCH_links_nil (rows : list node) (g : graph) :
  snd (OPTIONAL_MATCH_links rows g) = [] <-> rows = [].
Proof.
  rewrite OPTIONAL_MATCH_links_rows. simpl. destruct rows as [|b rows]; simpl.
  - tauto.
  - split; [|discriminate]. intros H. apply app_eq_nil in H. destruct H as [H _].
    destruct (optional (links WROTE b g)) as [|a l] eqn:O.
    { now apply optional_not_nil in O. }
    simpl in H. apply app_eq_nil in H. destruct H as [H _].
    destruct (optional (links IN_GENRE b g)) eqn:O'.
    { now apply optional_not_nil in O'. }
    discriminate.
Qed.

(* ------------------------------------------------------------------ *)
(** ** The PUT statement *)

Lemma PUT_query_missing id t authors genres g :
  (forall b, In b (nodes g) -> label_of b = Book -> identity b <> id) ->
  PUT_query id t authors genres g = (g, []).
Proof.
  intros H. unfold PUT_query, bind at 1. now rewrite MATCH_by_id_missing.
Qed.

Lemma UNWIND_MERGE_nil {K} t (book : K -> node) names rows g g' out :
  wf g ->
  (forall k, In k rows -> In (book k) (nodes g) /\ label_of (book k) = Book) ->
  UNWIND_MERGE t book names rows g = (g', out) ->
  (out = [] <-> rows = [] \/ names = []).
Proof.
  intros W Hb H.
  apply UNWIND_MERGE_spec in H; [|assumption..].
  destruct H as (_ & _ & Hin & Hcov). split.
  - intros ->. destruct rows as [|k rows]; [now left|].
    destruct names as [|s names]; [now right|].
    destruct (Hcov k s) as (x & [] & _); now left.
  - intros Hnil. destruct out as [|[k x] out]; [reflexivity|].
    destruct (Hin k x) as (Hk & _ & (s & Hs & _) & _); [now left|].
    destruct Hnil as [-> | ->]; contradiction.
Qed.

Lemma PUT_query_found id t authors genres g g' records b :
  wf g -> In b (nodes g) -> label_of b = Book -> identity b = id ->
  PUT_query id t authors genres g = (g', records) ->
  wf g'
  /\ In (with_title t b) (nodes g')
  /\ (records = [] <-> authors = [] \/ genres = [])
  /\ (forall n, In n (nodes g) -> identity n <> id -> In n (nodes g'))
  /\ (forall n, In n (nodes g') ->
        n = with_title t b \/ (In n (nodes g) /\ identity n <> id)
        \/ exists c s, In s (names_of c authors genres)
                       /\ props n = named c s)
  /\ (forall r, In r (rels g) -> book_end (rtype r) r <> id -> In r (rels g'))
  /\ (forall r, In r (rels g') ->
        (In r (rels g) /\ book_end (rtype r) r <> id)
        \/ (next_rel g <= rel_id r
            /\ exists x s, In x (nodes g')
                 /\ In s (names_of (rtype r) authors genres)
                 /\ props x = named (rtype r) s
                 /\ links_book (rtype r) r (with_title t b) x))
  /\ (forall s, In s authors ->
        exists x r, In x (nodes g') /\ props x = AuthorP s
                    /\ In r (rels g') /\ links_book WROTE r (with_title t b) x)
  /\ (authors <> [] -> forall s, In s genres ->
        exists x r, In x (nodes g') /\ props x = GenreP s
                    /\ In r (rels g') /\ links_book IN_GENRE r (with_title t b) x).
Proof.
  intros W Hb Lb Hid H. unfold PUT_query in H.
  step H as g0 rows0 E0. rewrite (@MATCH_by_id_found id g b W Hb Lb Hid) in E0.
  injection E0 as <- <-.
  step H as g1 rows1 E1. rewrite SET_title_rows in E1. injection E1 as <- <-.
  set (b' := with_title t b) in *.
  set (g1 := Graph _ _ _ _) in H.
  assert (W1 : wf g1) by now apply wf_set_title.
  assert (Hb1 : In b' (nodes g1)).
  { unfold g1, b'. simpl. rewrite <- retitle_self. now apply in_map. }
  assert (Lb' : label_of b' = Book) by (unfold b'; now rewrite with_title_label).
  assert (Ib' : identity b' = id) by (unfold b'; now rewrite with_title_identity).
  step H as g2 rows2 E2. step H as g3 rows3 E3.
  step H as g4 rows4 E4. step H as g5 rows5 E5.
  step H as g6 rows6 E6. apply ret_inv in H. destruct H as [-> ->].
  destruct (@DETACH_spec _ _ _ _ _ W1 E2)
    as (W2 & N2 & NN2 & NR2 & I2 & D2 & K2 & R2).
  destruct (@DETACH_spec _ _ _ _ _ W2 E3)
    as (W3 & N3 & NN3 & NR3 & I3 & D3 & K3 & R3).
  assert (Hrows3 : forall k, In k rows3 <-> k = b').
  { intros k. rewrite R3, R2. simpl. intuition. }
  assert (Hbooks3 : forall k, In k rows3 ->
                      In ((fun b => b) k) (nodes g3) /\ label_of ((fun b => b) k) = Book).
  { intros k Hk. apply Hrows3 in Hk. subst k. rewrite N3, N2. auto. }
  pose proof E4 as S4. apply UNWIND_MERGE_spec in S4; [|assumption..].
  destruct S4 as (W4 & X4 & In4 & Cov4).
  pose proof (@UNWIND_MERGE_nil _ _ _ _ _ _ _ _ W3 Hbooks3 E4) as Nil4.
  assert (Hrows4 : forall k, In k (map fst rows4) -> k = b').
  { intros k Hk. apply in_map_iff in Hk. destruct Hk as [[k' x] [<- Hk]].
    apply In4 in Hk. now apply Hrows3. }
  assert (Hbooks4 : forall k, In k (map fst rows4) ->
                      In ((fun b => b) k) (nodes g4) /\ label_of ((fun b => b) k) = Book).
  { intros k Hk. apply Hrows4 in Hk. subst k. split; [|exact Lb'].
    apply (ext_nodes X4). rewrite N3, N2. exact Hb1. }
  pose proof E5 as S5. apply UNWIND_MERGE_spec in S5; [|assumption..].
  destruct S5 as (W5 & X5 & In5 & Cov5).
  pose proof (@UNWIND_MERGE_nil _ _ _ _ _ _ _ _ W4 Hbooks4 E5) as Nil5.
  assert (G6 : g6 = g5 /\ (rows6 = [] <-> map fst rows5 = [])).
  { pose proof (OPTIONAL_MATCH_links_nil (map fst rows5) g5) as Hn.
    rewrite E6 in Hn. simpl in Hn. split; [|exact Hn].
    rewrite OPTIONAL_MATCH_links_rows in E6. now injection E6. }
  destruct G6 as [-> Nil6].
  assert (Hin3 : In b' rows3) by now apply Hrows3.
  assert (Hmap : forall (A B : Type) (f : A -> B) l, map f l = [] <-> l = []).
  { intros A B f l. destruct l; simpl; split; congruence. }
  assert (A1 : forall n, In n (nodes g1) ->
                 n = b' \/ (In n (nodes g) /\ identity n <> id)).
  { intros n Hn. unfold g1 in Hn. simpl in Hn. apply in_map_iff in Hn.
    destruct Hn as [m [<- Hm]].
    destruct (Z.eq_dec (identity m) (identity b)) as [E|E].
    - left. rewrite (@wf_same_id g m b W Hm Hb E). apply retitle_self.
    - right. rewrite (@retitle_unrelated t b m E). split; [exact Hm|congruence]. }
  assert (A2 : forall n, In n (nodes g) -> identity n <> id -> In n (nodes g1)).
  { intros n Hn Hne. unfold g1. simpl.
    rewrite <- (@retitle_unrelated t b n) by congruence. now apply in_map. }
  assert (B1 : forall r, In r (rels g3) ->
                 In r (rels g) /\ book_end (rtype r) r <> id).
  { intros r Hr. split; [apply I2, I3, Hr|]. rewrite <- Ib'.
    destruct (rtype r) eqn:Tr.
    - apply (D2 r b'); auto. now left.
    - apply (D3 r b'); auto. apply R2. now left. }
  assert (B2 : forall r, In r (rels g) -> book_end (rtype r) r <> id ->
                 In r (rels g3)).
  { intros r Hr Hne. apply K3.
    - apply K2; [exact Hr|]. intros b0 [<-|[]] Tr. rewrite Tr in Hne. congruence.
    - intros b0 Hb0 Tr. apply R2 in Hb0. destruct Hb0 as [<-|[]].
      rewrite Tr in Hne. congruence. }
  assert (Hbooks : forall (rows : list node) b0,
             (forall k, In k rows -> k = b') ->
             In b0 (map (fun b => b) rows) -> b0 = b').
  { intros rows b0 Hall Hb0. rewrite map_id in Hb0. auto. }
  assert (NR : next_rel g3 = next_rel g) by (rewrite NR3, NR2; reflexivity).
  pose proof (ext_next_rel X4) as NR4.
  split; [exact W5|]. split.
  { apply (ext_nodes X5), (ext_nodes X4). rewrite N3, N2. exact Hb1. }
  split.
  { rewrite Hmap, group_by_nil, Nil6, Hmap, Nil5, Hmap, Nil4. split.
    - intros [[E | ->] | ->]; auto. rewrite E in Hin3. contradiction.
    - intros [-> | ->]; auto. }
  split.
  { intros n Hn Hne. apply (ext_nodes X5), (ext_nodes X4).
    rewrite N3, N2. auto. }
  split.
  { intros n Hn. destruct (ext_new_nodes X5 n Hn) as [Hn4|(s & Hs & Hp)].
    - destruct (ext_new_nodes X4 n Hn4) as [Hn3|(s & Hs & Hp)].
      + rewrite N3, N2 in Hn3. destruct (A1 n Hn3); auto.
      + right. right. exists WROTE, s. auto.
    - right. right. exists IN_GENRE, s. auto. }
  split.
  { intros r Hr Hne. apply (ext_rels X5), (ext_rels X4). auto. }
  split.
  { intros r Hr.
    destruct (ext_new_rels X5 r Hr) as [Hr4|(Hid5 & b0 & x & s & Hb0 & Hx & Hs & Hp & Hl)].
    - destruct (ext_new_rels X4 r Hr4)
        as [Hr3|(Hid4 & b0 & x & s & Hb0 & Hx & Hs & Hp & Hl)].
      + left. auto.
      + right. split; [lia|]. exists x, s.
        apply (Hbooks rows3) in Hb0; [|apply Hrows3]. subst b0.
        destruct Hl as (Tr & Hl). rewrite Tr.
        repeat split; auto; try apply Hl. now apply (ext_nodes X5).
    - right. split; [lia|]. exists x, s.
      apply (Hbooks (map fst rows4)) in Hb0; [|exact Hrows4]. subst b0.
      destruct Hl as (Tr & Hl). rewrite Tr. repeat split; auto; apply Hl. }
  split.
  { intros s Hs. destruct (Cov4 b' s Hin3 Hs) as (x & _ & Hx & Hp & r & Hr & Hl).
    exists x, r. repeat split; auto; try apply Hl.
    - now apply (ext_nodes X5).
    - now apply (ext_rels X5). }
  intros Hne s Hs.
  assert (Hin4 : In b' (map fst rows4)).
  { destruct rows4 as [|[k x] rows4].
    - exfalso. destruct Nil4 as [Nil4 _]. destruct (Nil4 eq_refl) as [-> | ->];
        [contradiction|congruence].
    - left. apply Hrows4. now left. }
  destruct (Cov5 b' s Hin4 Hs) as (x & _ & Hx & Hp & r & Hr & Hl).
  exists x, r. repeat split; auto; apply Hl.
Qed.

(* ------------------------------------------------------------------ *)
(** ** PUT: update *)

Lemma carries_validate body t authors genres :
  carries body t authors genres ->
  exists ja jg,
    PUT_validate body = Ok (Some (JStr t), Some (JArr ja), Some (JArr jg))
    /\ as_strings ja = Some authors /\ as_strings jg = Some genres.
Proof.
  intros (Ht & Hne & (ja & Ha & Sa) & (jg & Hg & Sg)). exists ja, jg.
  split; [|auto]. unfold PUT_validate, destructure.
  destruct body; try discriminate. rewrite Ht, Ha, Hg. simpl.
  apply String.eqb_neq in Hne. now rewrite Hne.
Qed.

Lemma carries_body_of t authors genres :
  t <> "" -> carries (body_of t authors genres) t authors genres.
Proof.
  intros Hne. unfold carries, body_of. simpl. repeat split; auto.
  - exists (map JStr authors). split; [reflexivity|].
    induction authors as [|a l IH]; simpl; [reflexivity|now rewrite IH].
  - exists (map JStr genres). split; [reflexivity|].
    induction genres as [|a l IH]; simpl; [reflexivity|now rewrite IH].
Qed.

Section Update.

Variable neo4j_int : string -> Z.

(** What PUT answers once its checks have passed. *)
Lemma PUT_carries idParam body t authors genres g :
  present idParam = true -> carries body t authors genres ->
  PUT neo4j_int idParam body g
  = let (g', records) := PUT_query (neo4j_int (param idParam)) t authors genres g in
    match records with
    | [] => Some (Response 404 false (Error_text "Book not found"), g')
    | (b, authors, genres) :: _ =>
        Some (Response 200 true
                (Data_book (BookData (identity b) (bookId b) (title b)
                              authors genres)), g')
    end.
Proof.
  intros Hp Hc. destruct (carries_validate Hc) as (ja & jg & V & Sa & Sg).
  unfold PUT. rewrite Hp, V. simpl. now rewrite Sa, Sg.
Qed.

Lemma PUT_missing_id body g :
  PUT neo4j_int None body g
  = Some (Response 400 false (Error_text "Missing required id"), g).
Proof. reflexivity. Qed.

Lemma PUT_empty_id body g :
  PUT neo4j_int (Some "") body g
  = Some (Response 400 false (Error_text "Missing required id"), g).
Proof. reflexivity. Qed.

(** A PUT aimed at an identity no book has answers 404 and writes
    nothing. *)
Lemma PUT_no_book idParam body t authors genres g :
  present idParam = true -> carries body t authors genres ->
  (forall b, In b (nodes g) -> label_of b = Book ->
             identity b <> neo4j_int (param idParam)) ->
  PUT neo4j_int idParam body g
  = Some (Response 404 false (Error_text "Book not found"), g).
Proof.
  intros Hp Hc Hno. rewrite (@PUT_carries idParam body t authors genres g Hp Hc).
  now rewrite PUT_query_missing.
Qed.

(** Success needs the id, the book, and both lists non-empty. *)
Lemma PUT_success_inv idParam body t authors genres g resp g' :
  wf g -> carries body t authors genres ->
  PUT neo4j_int idParam body g = Some (resp, g') -> success resp = true ->
  present idParam = true
  /\ authors <> [] /\ genres <> []
  /\ exists b records,
       In b (nodes g) /\ label_of b = Book
       /\ identity b = neo4j_int (param idParam)
       /\ PUT_query (neo4j_int (param idParam)) t authors genres g = (g', records).
Proof.
  intros W Hc H Hs. destruct (present idParam) eqn:Hp.
  2:{ unfold PUT in H. rewrite Hp in H. simpl in H. injection H as <- <-.
      discriminate. }
  split; [reflexivity|]. rewrite (@PUT_carries idParam body t authors genres g Hp Hc) in H.
  destruct (book_dec (neo4j_int (param idParam)) g) as [(b & Hb & Lb & Ib)|Hno].
  - destruct (PUT_query _ _ _ _ g) as [g1 records] eqn:E.
    destruct (@PUT_query_found _ _ _ _ _ _ _ _ W Hb Lb Ib E)
      as (_ & _ & Hnil & _).
    destruct records as [|[[b0 a0] ge0] records].
    + injection H as <- <-. discriminate.
    + injection H as <- <-.
      assert (Hn : ~ (authors = [] \/ genres = [])).
      { intros Hor. apply Hnil in Hor. discriminate. }
      split; [tauto|]. split; [tauto|]. exists b, ((b0, a0, ge0) :: records).
      auto.
  - rewrite PUT_query_missing in H by exact Hno. injection H as <- <-.
    discriminate.
Qed.

(** C3. For an existing book, a PUT whose authors or genres list is the
    empty array passes the checks of the handler, the statement returns
    no record and the handler answers 404 "Book not found"; by then the
    statement has set the title of the book and deleted every
    relationship the book had. *)
Theorem PUT_empty_list_not_found idParam body t authors genres g b :
  wf g -> present idParam = true -> carries body t authors genres ->
  authors = [] \/ genres = [] ->
  In b (nodes g) -> label_of b = Book -> identity b = neo4j_int (param idParam) ->
  exists v g' b',
    PUT_validate body = Ok v
    /\ PUT_query (neo4j_int (param idParam)) t authors genres g = (g', [])
    /\ PUT neo4j_int idParam body g
       = Some (Response 404 false (Error_text "Book not found"), g')
    /\ In b' (nodes g') /\ identity b' = identity b /\ label_of b' = Book
    /\ title b' = t
    /\ (forall r, In r (rels g) -> book_end (rtype r) r = identity b ->
                  ~ In r (rels g')).
Proof.
  intros W Hp Hc Hempty Hb Lb Ib.
  destruct (carries_validate Hc) as (ja & jg & V & _).
  destruct (PUT_query (neo4j_int (param idParam)) t authors genres g)
    as [g' records] eqn:E.
  destruct (@PUT_query_found _ _ _ _ _ _ _ _ W Hb Lb Ib E)
    as (_ & Hb' & Hnil & _ & _ & _ & Hrels & _).
  apply Hnil in Hempty. subst records.
  exists (Some (JStr t), Some (JArr ja), Some (JArr jg)), g', (with_title t b).
  split; [exact V|]. split; [reflexivity|]. split.
  { rewrite (@PUT_carries idParam body t authors genres g Hp Hc). now rewrite E. }
  split; [exact Hb'|]. split; [apply with_title_identity|].
  split; [now rewrite with_title_label|]. split; [now apply with_title_title|].
  intros r Hr Hbe Hr'. rewrite Ib in Hbe.
  destruct (Hrels r Hr') as [[_ Hne]|[Hid _]]; [contradiction|].
  pose proof (wf_next_rel W r Hr). lia.
Qed.

End Update.

(* ------------------------------------------------------------------ *)
(** ** DELETE *)

Section Delete.

Variable neo4j_int : string -> Z.

Lemma DELETE_query_found id g b :
  wf g -> In b (nodes g) -> label_of b = Book -> identity b = id ->
  DELETE_query id g
  = (Graph (filter (fun n => negb (same_node n b)) (nodes g))
           (filter (fun r => negb ((rstart r =? identity b) || (rend r =? identity b)))
                   (rels g))
           (next_node g) (next_rel g), [1]).
Proof.
  intros W Hb Lb Ib. unfold DELETE_query, bind at 1.
  now rewrite (@MATCH_by_id_found id g b W Hb Lb Ib).
Qed.

Lemma DELETE_query_missing id g :
  (forall b, In b (nodes g) -> label_of b = Book -> identity b <> id) ->
  DELETE_query id g = (g, [0]).
Proof.
  intros Hno. unfold DELETE_query, bind at 1.
  now rewrite MATCH_by_id_missing by exact Hno.
Qed.

(** C9. DELETE without an id answers 400.  With an id, a book of that
    identity is removed together with every relationship that starts or
    ends at it, nothing else changes, and the answer reports
    [deletedCount] 1; when no book has that identity the store is left
    as it is and the answer is a success with [deletedCount] 0. *)
Theorem DELETE_removes_book id g :
  wf g ->
  (present id = false ->
     DELETE neo4j_int id g
     = (Response 400 false (Error_text "Missing required id"), g))
  /\ (present id = true ->
      (forall b, In b (nodes g) -> label_of b = Book ->
                 identity b <> neo4j_int (param id)) ->
      DELETE neo4j_int id g = (Response 200 true (DeletedCount 0), g))
  /\ (present id = true ->
      forall b, In b (nodes g) -> label_of b = Book ->
                identity b = neo4j_int (param id) ->
      exists g',
        DELETE neo4j_int id g = (Response 200 true (DeletedCount 1), g')
        /\ (forall n, In n (nodes g') <->
                      In n (nodes g) /\ identity n <> identity b)
        /\ (forall r, In r (rels g') <->
                      In r (rels g) /\ rstart r <> identity b
                      /\ rend r <> identity b)).
Proof.
  intros W. split; [|split].
  - intros Hp. unfold DELETE. now rewrite Hp.
  - intros Hp Hno. unfold DELETE. rewrite Hp. simpl.
    now rewrite DELETE_query_missing by exact Hno.
  - intros Hp b Hb Lb Ib. unfold DELETE. rewrite Hp. simpl.
    rewrite (@DELETE_query_found _ g b W Hb Lb Ib).
    eexists. split; [reflexivity|]. simpl. split.
    + intros n. rewrite filter_In. unfold same_node.
      rewrite negb_true_iff, Z.eqb_neq. reflexivity.
    + intros r. rewrite filter_In, negb_true_iff, orb_false_iff, !Z.eqb_neq.
      reflexivity.
Qed.

End Delete.

(* ------------------------------------------------------------------ *)
(** ** POST: create *)

Lemma group_by_keys {K V} (same : K -> K -> bool) (rows : list (K * V)) k vs :
  In (k, vs) (group_by same rows) -> In k (map fst rows).
Proof.
  unfold group_by. intros H. apply in_map_iff in H. destruct H as [k' [E H]].
  injection E as -> _. revert H. generalize (map fst rows). intros l.
  induction l as [|a l IH]; simpl; [tauto|].
  intros [->|H]; [now left|]. apply filter_In in H. right. now apply IH.
Qed.

Lemma map_nil_iff {A B} (f : A -> B) (l : list A) : map f l = [] <-> l = [].
Proof. destruct l; simpl; split; congruence. Qed.

Lemma POST_query_spec uuid t authors genres g g' records :
  wf g -> POST_query uuid t authors genres g = (g', records) ->
  let b := Node (next_node g) (BookP uuid t) in
  wf g'
  /\ In b (nodes g')
  /\ incl (nodes g) (nodes g') /\ incl (rels g) (rels g')
  /\ (forall n, In n (nodes g') ->
        n = b \/ In n (nodes g)
        \/ exists c s, In s (names_of c authors genres)
                       /\ props n = named c s)
  /\ (forall r, In r (rels g') ->
        In r (rels g)
        \/ (next_rel g <= rel_id r
            /\ exists x s, In x (nodes g')
                 /\ In s (names_of (rtype r) authors genres)
                 /\ props x = named (rtype r) s
                 /\ links_book (rtype r) r b x))
  /\ (forall s, In s authors ->
        exists x r, In x (nodes g') /\ props x = AuthorP s
                    /\ In r (rels g') /\ links_book WROTE r b x)
  /\ (authors <> [] -> forall s, In s genres ->
        exists x r, In x (nodes g') /\ props x = GenreP s
                    /\ In r (rels g') /\ links_book IN_GENRE r b x)
  /\ (records = [] <-> authors = [] \/ genres = []).
Proof.
  intros W H b. unfold POST_query in H.
  step H as g1 b1 E1. unfold CREATE_node in E1. injection E1 as <- <-.
  fold b in H. set (g1 := Graph _ _ _ _) in H.
  assert (W1 : wf g1).
  { apply wf_add_node; [exact W|]. intros n _ Hp. unfold label_of. now rewrite Hp. }
  assert (Hb1 : In b (nodes g1)) by (unfold g1; simpl; apply in_snoc; now right).
  assert (Lb : label_of b = Book) by reflexivity.
  step H as g2 rows2 E2. step H as g3 rows3 E3.
  apply ret_inv in H. destruct H as [-> ->].
  assert (Hbooks1 : forall k, In k [b] ->
            In ((fun b => b) k) (nodes g1) /\ label_of ((fun b => b) k) = Book).
  { intros k [<-|[]]. auto. }
  pose proof E2 as S2. apply UNWIND_MERGE_spec in S2; [|assumption..].
  destruct S2 as (W2 & X2 & In2 & Cov2).
  pose proof (@UNWIND_MERGE_nil _ _ _ _ _ _ _ _ W1 Hbooks1 E2) as Nil2.
  set (rows := map _ (group_by same_node rows2)) in E3.
  assert (Hrows : forall k, In k rows -> fst k = b).
  { intros k Hk. unfold rows in Hk. apply in_map_iff in Hk.
    destruct Hk as [[b0 found] [<- Hk]]. simpl.
    apply group_by_keys, in_map_iff in Hk. destruct Hk as [[k' x] [<- Hk]].
    apply In2 in Hk. destruct Hk as [[<-|[]] _]. reflexivity. }
  assert (Hnil : rows = [] <-> rows2 = []).
  { unfold rows. now rewrite map_nil_iff, group_by_nil. }
  assert (Hbooks2 : forall k, In k rows ->
            In (fst k) (nodes g2) /\ label_of (fst k) = Book).
  { intros k Hk. rewrite (Hrows k Hk). split; [|exact Lb].
    now apply (ext_nodes X2). }
  pose proof E3 as S3. apply UNWIND_MERGE_spec in S3; [|assumption..].
  destruct S3 as (W3 & X3 & In3 & Cov3).
  pose proof (@UNWIND_MERGE_nil _ _ _ _ _ _ _ _ W2 Hbooks2 E3) as Nil3.
  assert (N1 : incl (nodes g) (nodes g1)) by (unfold g1; simpl; apply incl_appl, incl_refl).
  pose proof (ext_next_rel X2) as NR2.
  split; [exact W3|]. split.
  { now apply (ext_nodes X3), (ext_nodes X2). }
  split.
  { eapply incl_tran; [exact N1|]. eapply incl_tran; [apply X2|apply X3]. }
  split.
  { eapply incl_tran; [apply (ext_rels X2)|apply (ext_rels X3)]. }
  split.
  { intros n Hn. destruct (ext_new_nodes X3 n Hn) as [Hn2|(s & Hs & Hp)].
    - destruct (ext_new_nodes X2 n Hn2) as [Hn1|(s & Hs & Hp)].
      + unfold g1 in Hn1. simpl in Hn1. apply in_snoc in Hn1. tauto.
      + right. right. exists WROTE, s. auto.
    - right. right. exists IN_GENRE, s. auto. }
  split.
  { intros r Hr.
    destruct (ext_new_rels X3 r Hr) as [Hr2|(Hid3 & b0 & x & s & Hb0 & Hx & Hs & Hp & Hl)].
    - destruct (ext_new_rels X2 r Hr2)
        as [Hr1|(Hid2 & b0 & x & s & Hb0 & Hx & Hs & Hp & Hl)].
      + now left.
      + right. split; [exact Hid2|]. exists x, s. destruct Hb0 as [<-|[]].
        destruct Hl as (Tr & Hl). rewrite Tr.
        repeat split; auto; try apply Hl. now apply (ext_nodes X3).
    - right. split; [simpl in NR2; lia|]. exists x, s.
      apply in_map_iff in Hb0. destruct Hb0 as [k [<- Hk]].
      rewrite (Hrows k Hk) in Hl.
      destruct Hl as (Tr & Hl). rewrite Tr.
      repeat split; auto; apply Hl. }
  split.
  { intros s Hs.
    destruct (Cov2 b s (or_introl eq_refl) Hs) as (x & _ & Hx & Hp & r & Hr & Hl).
    exists x, r. repeat split; auto; try apply Hl.
    - now apply (ext_nodes X3).
    - now apply (ext_rels X3). }
  split.
  { intros Hne s Hs. destruct rows as [|k rows'] eqn:Erows.
    - exfalso. destruct Hnil as [Hnil _]. specialize (Hnil eq_refl).
      apply Nil2 in Hnil. destruct Hnil; [discriminate|contradiction].
    - destruct (Cov3 k s (or_introl eq_refl) Hs) as (x & _ & Hx & Hp & r & Hr & Hl).
      rewrite (Hrows k (or_introl eq_refl)) in Hl. exists x, r.
      repeat split; auto; apply Hl. }
  rewrite map_nil_iff, group_by_nil, Nil3, Hnil, Nil2. split.
  - intros [[E| ->]| ->]; auto. discriminate.
  - intros [->| ->]; auto.
Qed.

Lemma as_strings_nil items l : as_strings items = Some l -> (items = [] <-> l = []).
Proof.
  destruct items as [|j items]; simpl.
  - intros H. injection H as <-. tauto.
  - destruct j; try discriminate. destruct (as_strings items); [|discriminate].
    intros H. injection H as <-. split; discriminate.
Qed.

Lemma POST_carries uuid body t authors genres g :
  carries body t authors genres -> authors <> [] -> genres <> [] ->
  POST uuid body g
  = let (g', records) := POST_query uuid t authors genres g in
    match records with
    | [] => Some (Response 200 false (Err_object no_record), g')
    | (b, authors, genres) :: _ =>
        Some (Response 200 true
                (Data_created
                   (CreatedData (identity b) (bookId b) (title b)
                      (map (fun _ => None) authors)
                      (map (fun _ => None) genres))), g')
    end.
Proof.
  intros (Ht & Hne & (ja & Ha & Sa) & (jg & Hg & Sg)) Hae Hge.
  assert (V : POST_validate body = Ok (Some (JStr t), Some (JArr ja), Some (JArr jg))).
  { unfold POST_validate, destructure. destruct body; try discriminate.
    rewrite Ht, Ha, Hg. simpl. apply String.eqb_neq in Hne. rewrite Hne. simpl.
    destruct ja as [|j ja]; [pose proof (as_strings_nil _ Sa); tauto|].
    destruct jg as [|j' jg]; [pose proof (as_strings_nil _ Sg); tauto|].
    reflexivity. }
  unfold POST. rewrite V. simpl. now rewrite Sa, Sg.
Qed.

(** A POST that reports success went through the statement, with both
    lists non-empty. *)
Lemma POST_success_inv uuid body t authors genres g resp g' :
  wf g -> carries body t authors genres ->
  POST uuid body g = Some (resp, g') -> success resp = true ->
  authors <> [] /\ genres <> []
  /\ exists records, POST_query uuid t authors genres g = (g', records).
Proof.
  intros W Hc H Hs.
  destruct (list_eq_dec string_dec authors []) as [Ea|Ea];
    [|destruct (list_eq_dec string_dec genres []) as [Eg|Eg]].
  - exfalso. destruct Hc as (Ht & Hne & (ja & Ha & Sa) & (jg & Hg & Sg)).
    subst authors. pose proof (as_strings_nil _ Sa) as Hja.
    assert (ja = []) by tauto. subst ja.
    unfold POST, POST_validate, destructure in H. destruct body; try discriminate.
    rewrite Ht, Ha in H. simpl in H. apply String.eqb_neq in Hne.
    rewrite Hne in H. simpl in H. injection H as <- _. discriminate.
  - exfalso. destruct Hc as (Ht & Hne & (ja & Ha & Sa) & (jg & Hg & Sg)).
    subst genres. pose proof (as_strings_nil _ Sg) as Hjg.
    assert (jg = []) by tauto. subst jg.
    unfold POST, POST_validate, destructure in H. destruct body; try discriminate.
    rewrite Ht, Ha, Hg in H. simpl in H. apply String.eqb_neq in Hne.
    rewrite Hne in H. simpl in H.
    destruct (List.length ja =? 0)%nat; simpl in H; injection H as <- _; discriminate.
  - split; [exact Ea|]. split; [exact Eg|].
    rewrite (@POST_carries uuid body t authors genres g Hc Ea Eg) in H.
    destruct (POST_query uuid t authors genres g) as [g1 records].
    exists records. destruct records as [|[[b0 a0] ge0] records];
      injection H as _ <-; reflexivity.
Qed.

Lemma POST_wf uuid body g resp g' :
  wf g -> POST uuid body g = Some (resp, g') -> wf g'.
Proof.
  intros W. unfold POST. destruct (POST_validate body) as [[[vt va] vg]|e].
  - destruct (as_string vt) as [t|]; [|discriminate].
    destruct (as_strings (items_of va)) as [authors|]; [|discriminate].
    destruct (as_strings (items_of vg)) as [genres|]; [|discriminate].
    destruct (POST_query uuid t authors genres g) as [g1 records] eqn:E.
    apply POST_query_spec in E; [|exact W]. destruct E as (W1 & _).
    destruct records as [|[[b0 a0] ge0] records]; intros H; injection H as _ <-;
      exact W1.
  - intros H. injection H as _ <-. exact W.
Qed.

Lemma POST_keeps uuid body g resp g' :
  wf g -> POST uuid body g = Some (resp, g') -> incl (nodes g) (nodes g').
Proof.
  intros W. unfold POST. destruct (POST_validate body) as [[[vt va] vg]|e].
  - destruct (as_string vt) as [t|]; [|discriminate].
    destruct (as_strings (items_of va)) as [authors|]; [|discriminate].
    destruct (as_strings (items_of vg)) as [genres|]; [|discriminate].
    destruct (POST_query uuid t authors genres g) as [g1 records] eqn:E.
    apply POST_query_spec in E; [|exact W]. destruct E as (_ & _ & Hincl & _).
    destruct records as [|[[b0 a0] ge0] records]; intros H; injection H as _ <-;
      exact Hincl.
  - intros H. injection H as _ <-. apply incl_refl.
Qed.

Section Reachable.

Variable neo4j_int : string -> Z.

Lemma PUT_wf idParam body g resp g' :
  wf g -> PUT neo4j_int idParam body g = Some (resp, g') -> wf g'.
Proof.
  intros W. unfold PUT. destruct (present idParam); simpl.
  2:{ intros H. injection H as _ <-. exact W. }
  destruct (PUT_validate body) as [[[vt va] vg]|e].
  2:{ intros H. injection H as _ <-. exact W. }
  destruct (as_string vt) as [t|]; [|discriminate].
  destruct (as_strings (items_of va)) as [authors|]; [|discriminate].
  destruct (as_strings (items_of vg)) as [genres|]; [|discriminate].
  destruct (PUT_query _ t authors genres g) as [g1 records] eqn:E.
  assert (W1 : wf g1).
  { destruct (book_dec (neo4j_int (param idParam)) g) as [(b & Hb & Lb & Ib)|Hno].
    - now destruct (@PUT_query_found _ _ _ _ _ _ _ _ W Hb Lb Ib E).
    - rewrite PUT_query_missing in E by exact Hno. now injection E as <- _. }
  destruct records as [|[[b0 a0] ge0] records]; intros H; injection H as _ <-;
    exact W1.
Qed.

Lemma DELETE_wf id g resp g' :
  wf g -> DELETE neo4j_int id g = (resp, g') -> wf g'.
Proof.
  intros W. unfold DELETE. destruct (present id); simpl.
  2:{ intros H. injection H as _ <-. exact W. }
  destruct (book_dec (neo4j_int (param id)) g) as [(b & Hb & Lb & Ib)|Hno].
  - rewrite (@DELETE_query_found _ g b W Hb Lb Ib).
    intros H. injection H as _ <-. now apply wf_detach_delete.
  - rewrite DELETE_query_missing by exact Hno.
    intros H. injection H as _ <-. exact W.
Qed.

Lemma PUT_keeps idParam body g resp g' :
  wf g -> PUT neo4j_int idParam body g = Some (resp, g') ->
  forall x, In x (nodes g) -> label_of x <> Book -> In x (nodes g').
Proof.
  intros W. unfold PUT. destruct (present idParam); simpl.
  2:{ intros H. now injection H as _ <-. }
  destruct (PUT_validate body) as [[[vt va] vg]|e].
  2:{ intros H. now injection H as _ <-. }
  destruct (as_string vt) as [t|]; [|discriminate].
  destruct (as_strings (items_of va)) as [authors|]; [|discriminate].
  destruct (as_strings (items_of vg)) as [genres|]; [|discriminate].
  destruct (PUT_query _ t authors genres g) as [g1 records] eqn:E.
  assert (K : forall x, In x (nodes g) -> label_of x <> Book -> In x (nodes g1)).
  { destruct (book_dec (neo4j_int (param idParam)) g) as [(b & Hb & Lb & Ib)|Hno].
    - destruct (@PUT_query_found _ _ _ _ _ _ _ _ W Hb Lb Ib E)
        as (_ & _ & _ & Hkeep & _).
      intros x Hx Lx. apply Hkeep; [exact Hx|]. intros Ex. apply Lx.
      rewrite <- Ib in Ex. now rewrite (@wf_same_id g x b W Hx Hb Ex).
    - rewrite PUT_query_missing in E by exact Hno. now injection E as <- _. }
  destruct records as [|[[b0 a0] ge0] records]; intros H; injection H as _ <-;
    exact K.
Qed.

Lemma DELETE_keeps id g resp g' :
  wf g -> DELETE neo4j_int id g = (resp, g') ->
  forall x, In x (nodes g) -> label_of x <> Book -> In x (nodes g').
Proof.
  intros W. unfold DELETE. destruct (present id); simpl.
  2:{ intros H. now injection H as _ <-. }
  destruct (book_dec (neo4j_int (param id)) g) as [(b & Hb & Lb & Ib)|Hno].
  - rewrite (@DELETE_query_found _ g b W Hb Lb Ib).
    intros H. injection H as _ <-. simpl. intros x Hx Lx.
    apply filter_In. split; [exact Hx|]. apply negb_true_iff, Z.eqb_neq.
    intros Ex. apply Lx. now rewrite (@wf_same_id g x b W Hx Hb Ex).
  - rewrite DELETE_query_missing by exact Hno.
    intros H. now injection H as _ <-.
Qed.

Lemma handled_wf g g' : wf g -> handled neo4j_int g g' -> wf g'.
Proof.
  intros W [uuid body resp H|idParam body resp H|id resp H].
  - eapply POST_wf; eauto.
  - eapply PUT_wf; eauto.
  - eapply DELETE_wf; eauto.
Qed.

(** No handler removes an Author or a Genre. *)
Lemma handled_keeps g g' :
  wf g -> handled neo4j_int g g' ->
  forall x, In x (nodes g) -> label_of x <> Book -> In x (nodes g').
Proof.
  intros W [uuid body resp H|idParam body resp H|id resp H].
  - intros x Hx _. eapply POST_keeps; eauto.
  - eapply PUT_keeps; eauto.
  - eapply DELETE_keeps; eauto.
Qed.

(** Every store the handlers can build is well formed. *)
Lemma reachable_wf g : reachable neo4j_int g -> wf g.
Proof.
  induction 1 as [|g g' _ IH H].
  - apply wf_empty.
  - eapply handled_wf; eauto.
Qed.

End Reachable.

Lemma isArray_truthy v : isArray v = true -> truthy v = true.
Proof. destruct v as [[]|]; simpl; congruence. Qed.

Lemma destructure_cases body :
  body = JNull
  \/ destructure body
     = Ok (get_field "title" body, get_field "authors" body, get_field "genres" body).
Proof. destruct body; auto. Qed.

(** C7. POST checks its body before it writes: a body without a truthy
    title, one whose authors are missing, not an array or empty, and one
    whose genres are, each make the handler throw an error with a message
    of its own; the store is left as it was and the answer has status 200
    with [success] false and the thrown error as [err]. *)
Theorem POST_validation_fails_before_write uuid body g :
  body <> JNull ->
  let failed e := POST uuid body g = Some (Response 200 false (Err_object e), g) in
  (truthy (get_field "title" body) = false -> failed (Error "Book title missing"))
  /\ (truthy (get_field "title" body) = true ->
      no_items (get_field "authors" body) ->
      failed (Error "At least one author required"))
  /\ (truthy (get_field "title" body) = true ->
      ~ no_items (get_field "authors" body) ->
      no_items (get_field "genres" body) ->
      failed (Error "At least one genre required"))
  /\ Error "Book title missing" <> Error "At least one author required"
  /\ Error "Book title missing" <> Error "At least one genre required"
  /\ Error "At least one author required" <> Error "At least one genre required".
Proof.
  intros Hnn failed.
  assert (D : destructure body
              = Ok (get_field "title" body, get_field "authors" body,
                    get_field "genres" body)).
  { unfold destructure. destruct body; congruence. }
  assert (Bad : forall v, no_items v ->
            negb (truthy v) || negb (isArray v) || (List.length (items_of v) =? 0)%nat
            = true).
  { intros v [H|[H|H]]; rewrite H; simpl; rewrite ?orb_true_r; reflexivity. }
  assert (Good : forall v, ~ no_items v ->
            negb (truthy v) || negb (isArray v) || (List.length (items_of v) =? 0)%nat
            = false).
  { intros v H. unfold no_items in H.
    destruct (truthy v); [|tauto]. destruct (isArray v); [|tauto].
    destruct (items_of v); [tauto|reflexivity]. }
  unfold failed, POST, POST_validate. rewrite D.
  split; [|split; [|split]].
  - intros ->. reflexivity.
  - intros -> Ha. simpl. now rewrite (Bad _ Ha).
  - intros -> Ha Hg. simpl. now rewrite (Good _ Ha), (Bad _ Hg).
  - repeat split; discriminate.
Qed.

(** The bodies PUT lets through: it asks for a truthy title and two
    arrays, of any length. *)
Lemma PUT_validate_iff body :
  (exists v, PUT_validate body = Ok v) <->
  truthy (get_field "title" body) = true
  /\ isArray (get_field "authors" body) = true
  /\ isArray (get_field "genres" body) = true.
Proof.
  unfold PUT_validate. destruct (destructure_cases body) as [-> | ->].
  { simpl. split; [intros [v H]; discriminate | intros (H & _); discriminate]. }
  destruct (truthy (get_field "title" body)); simpl;
    [|split; [intros [v H]; discriminate | intros (H & _); discriminate]].
  destruct (isArray (get_field "authors" body)) eqn:Ia;
    [rewrite (isArray_truthy _ Ia)|rewrite orb_true_r]; simpl;
    [|split; [intros [v H]; discriminate | intros (_ & H & _); discriminate]].
  destruct (isArray (get_field "genres" body)) eqn:Ig;
    [rewrite (isArray_truthy _ Ig)|rewrite orb_true_r]; simpl;
    [|split; [intros [v H]; discriminate | intros (_ & _ & H); discriminate]].
  split; eauto.
Qed.

(** C10. The checks of the two write handlers differ on empty lists: a
    body with a truthy title and two arrays, one of them empty, passes
    the checks of PUT, which only ask for arrays, and fails those of
    POST. *)
Theorem validation_asymmetry body :
  truthy (get_field "title" body) = true ->
  isArray (get_field "authors" body) = true ->
  isArray (get_field "genres" body) = true ->
  items_of (get_field "authors" body) = [] \/ items_of (get_field "genres" body) = [] ->
  (exists v, PUT_validate body = Ok v)
  /\ (exists e, POST_validate body = Throw e)
  /\ (items_of (get_field "authors" body) = [] ->
      POST_validate body = Throw (Error "At least one author required"))
  /\ (items_of (get_field "authors" body) <> [] ->
      POST_validate body = Throw (Error "At least one genre required")).
Proof.
  intros Ht Ha Hg Hempty.
  split; [apply PUT_validate_iff; auto|].
  assert (Hnn : body <> JNull) by (intros ->; discriminate).
  assert (D : destructure body
              = Ok (get_field "title" body, get_field "authors" body,
                    get_field "genres" body)).
  { unfold destructure. destruct body; congruence. }
  unfold POST_validate. rewrite D, Ht. simpl.
  assert (Ta : truthy (get_field "authors" body) = true).
  { destruct (get_field "authors" body) as [[]|]; try discriminate. reflexivity. }
  assert (Tg : truthy (get_field "genres" body) = true).
  { destruct (get_field "genres" body) as [[]|]; try discriminate. reflexivity. }
  rewrite Ta, Ha, Tg, Hg. simpl.
  destruct (items_of (get_field "authors" body)) as [|a l]; simpl.
  - split; [eauto|]. split; [reflexivity|congruence].
  - destruct Hempty as [H|H]; [discriminate|]. rewrite H. simpl.
    split; [eauto|]. split; [discriminate|reflexivity].
Qed.

(* ------------------------------------------------------------------ *)
(** ** One entity per name *)

Lemma named_not_Book c s x : props x = named c s -> label_of x <> Book.
Proof.
  intros H. rewrite (@label_of_named c s x H). apply far_label_not_Book.
Qed.

Lemma wf_the_node g c s x :
  wf g -> In x (nodes g) -> props x = named c s ->
  the_node g c s x.
Proof.
  intros W Hx Hp. repeat split; auto. intros x' Hx' Hp'.
  apply (wf_names W); auto; [|congruence]. eapply named_not_Book; eauto.
Qed.

Lemma wf_the_rel g c b x r :
  wf g -> In r (rels g) -> links_book c r b x -> the_rel g c b x r.
Proof.
  intros W Hr Hl. repeat split; auto; try apply Hl. intros r' Hr' Hl'.
  destruct (links_book_same Hl' Hl) as (? & ? & ?). now apply (wf_simple W).
Qed.

(** A successful POST resolves every name it carries to the one node of
    that name, the node the store already had if there was one, and
    joins it to the new book by one relationship. *)
Lemma POST_resolves uuid body t authors genres g resp g' c s :
  wf g -> carries body t authors genres ->
  POST uuid body g = Some (resp, g') -> success resp = true ->
  In s (names_of c authors genres) ->
  exists x r,
    the_node g' c s x
    /\ (forall x0, In x0 (nodes g) -> props x0 = named c s -> x0 = x)
    /\ the_rel g' c (Node (next_node g) (BookP uuid t)) x r.
Proof.
  intros W Hc H Hs Hin.
  destruct (@POST_success_inv _ _ _ _ _ _ _ _ W Hc H Hs) as (Ha & Hg & records & E).
  apply POST_query_spec in E; [|exact W].
  destruct E as (W' & Hb & Nincl & _ & _ & _ & CovA & CovG & _).
  assert (Cov : exists x r, In x (nodes g') /\ props x = named c s
                  /\ In r (rels g')
                  /\ links_book c r (Node (next_node g) (BookP uuid t)) x).
  { destruct c; simpl in Hin; [apply CovA|apply CovG]; auto. }
  destruct Cov as (x & r & Hx & Hp & Hr & Hl). exists x, r.
  pose proof (@wf_the_node _ c s x W' Hx Hp) as Tn. split; [exact Tn|]. split.
  - intros x0 Hx0 Hp0. apply Tn; auto.
  - now apply wf_the_rel.
Qed.

Section Resolve.

Variable neo4j_int : string -> Z.

(** The same for a successful PUT and the book it updates. *)
Lemma PUT_resolves idParam body t authors genres g resp g' c s :
  wf g -> carries body t authors genres ->
  PUT neo4j_int idParam body g = Some (resp, g') -> success resp = true ->
  In s (names_of c authors genres) ->
  exists b x r,
    In b (nodes g') /\ label_of b = Book
    /\ identity b = neo4j_int (param idParam)
    /\ the_node g' c s x
    /\ (forall x0, In x0 (nodes g) -> props x0 = named c s -> x0 = x)
    /\ the_rel g' c b x r.
Proof.
  intros W Hc H Hs Hin.
  destruct (@PUT_success_inv _ _ _ _ _ _ _ _ _ W Hc H Hs)
    as (_ & Ha & Hg & b & records & Hb & Lb & Ib & E).
  destruct (@PUT_query_found _ _ _ _ _ _ _ _ W Hb Lb Ib E)
    as (W' & Hb' & _ & Hkeep & _ & _ & _ & CovA & CovG).
  assert (Cov : exists x r, In x (nodes g') /\ props x = named c s
                  /\ In r (rels g') /\ links_book c r (with_title t b) x).
  { destruct c; simpl in Hin; [apply CovA|apply CovG]; auto. }
  destruct Cov as (x & r & Hx & Hp & Hr & Hl). exists (with_title t b), x, r.
  pose proof (@wf_the_node _ c s x W' Hx Hp) as Tn.
  split; [exact Hb'|]. split; [now rewrite with_title_label|].
  split; [now rewrite with_title_identity|]. split; [exact Tn|]. split.
  - intros x0 Hx0 Hp0. apply Tn; auto. apply Hkeep; auto.
    intros E0. apply (@named_not_Book c s x0 Hp0). rewrite <- Ib in E0.
    now rewrite (@wf_same_id g x0 b W Hx0 Hb E0).
  - now apply wf_the_rel.
Qed.

(** C8. Authors and genres are created once per name.  In every store
    the handlers can build, no two Author (or Genre) nodes share a name
    and no two relationships of one type join the same pair; no request
    removes an Author or Genre node; a
    successful POST or PUT resolves each name of its lists to the single
    node of that name, reusing the one the store had; and after two
    successful POSTs that both list the author [s] there is one Author
    node named [s], joined to each of the two new books by one WROTE
    relationship. *)
Theorem names_resolve_to_one_entity g :
  reachable neo4j_int g ->
  (forall a b, In a (nodes g) -> In b (nodes g) -> label_of a <> Book ->
               props a = props b -> a = b)
  /\ (forall r r', In r (rels g) -> In r' (rels g) -> rtype r = rtype r' ->
                   rstart r = rstart r' -> rend r = rend r' -> r = r')
  /\ (forall g', handled neo4j_int g g' ->
                 forall x, In x (nodes g) -> label_of x <> Book -> In x (nodes g'))
  /\ (forall uuid body t authors genres resp g' c s,
        carries body t authors genres ->
        POST uuid body g = Some (resp, g') -> success resp = true ->
        In s (names_of c authors genres) ->
        exists x r,
          the_node g' c s x
          /\ (forall x0, In x0 (nodes g) -> props x0 = named c s ->
                         x0 = x)
          /\ the_rel g' c (Node (next_node g) (BookP uuid t)) x r)
  /\ (forall idParam body t authors genres resp g' c s,
        carries body t authors genres ->
        PUT neo4j_int idParam body g = Some (resp, g') -> success resp = true ->
        In s (names_of c authors genres) ->
        exists b x r,
          In b (nodes g') /\ label_of b = Book
          /\ identity b = neo4j_int (param idParam)
          /\ the_node g' c s x
          /\ (forall x0, In x0 (nodes g) -> props x0 = named c s ->
                         x0 = x)
          /\ the_rel g' c b x r)
  /\ (forall s uuid1 body1 t1 authors1 genres1 resp1 g1
             uuid2 body2 t2 authors2 genres2 resp2 g2,
        carries body1 t1 authors1 genres1 -> In s authors1 ->
        POST uuid1 body1 g = Some (resp1, g1) -> success resp1 = true ->
        carries body2 t2 authors2 genres2 -> In s authors2 ->
        POST uuid2 body2 g1 = Some (resp2, g2) -> success resp2 = true ->
        let b1 := Node (next_node g) (BookP uuid1 t1) in
        let b2 := Node (next_node g1) (BookP uuid2 t2) in
        In b1 (nodes g2) /\ In b2 (nodes g2) /\ identity b1 <> identity b2
        /\ exists a r1 r2,
             the_node g2 WROTE s a
             /\ the_rel g2 WROTE b1 a r1 /\ the_rel g2 WROTE b2 a r2).
Proof.
  intros R. pose proof (reachable_wf R) as W.
  split; [apply (wf_names W)|]. split; [apply (wf_simple W)|].
  split; [intros g' Hg'; apply (handled_keeps W Hg')|].
  split; [intros; eapply POST_resolves; eauto|].
  split; [intros; eapply PUT_resolves; eauto|].
  intros s uuid1 body1 t1 authors1 genres1 resp1 g1
         uuid2 body2 t2 authors2 genres2 resp2 g2
         Hc1 Hs1 P1 S1 Hc2 Hs2 P2 S2 b1 b2.
  pose proof (@POST_wf _ _ _ _ _ W P1) as W1.
  pose proof (@POST_wf _ _ _ _ _ W1 P2) as W2.
  destruct (@POST_resolves _ _ _ _ _ _ _ _ WROTE s W Hc1 P1 S1 Hs1)
    as (x1 & r1 & (Hx1 & Hp1 & _) & _ & (Hr1 & Hl1 & _)).
  destruct (@POST_resolves _ _ _ _ _ _ _ _ WROTE s W1 Hc2 P2 S2 Hs2)
    as (x2 & r2 & Tn2 & Hreuse & Tr2).
  destruct (@POST_success_inv _ _ _ _ _ _ _ _ W Hc1 P1 S1) as (_ & _ & rec1 & E1).
  destruct (@POST_success_inv _ _ _ _ _ _ _ _ W1 Hc2 P2 S2) as (_ & _ & rec2 & E2).
  apply POST_query_spec in E1; [|exact W]. destruct E1 as (_ & Hb1 & _).
  apply POST_query_spec in E2; [|exact W1].
  destruct E2 as (_ & Hb2 & Nincl & Rincl & _).
  fold b1 in Hb1, Hl1. fold b2 in Hb2, Tr2.
  assert (x1 = x2) by (apply Hreuse; auto). subst x2.
  split; [now apply Nincl|]. split; [exact Hb2|]. split.
  { pose proof (wf_next_node W1 b1 Hb1). simpl in *. lia. }
  exists x1, r1, r2. split; [exact Tn2|]. split; [|exact Tr2].
  apply wf_the_rel; auto.
Qed.

End Resolve.

(* ------------------------------------------------------------------ *)
(** ** GET: search *)

Lemma same_node_refl b : same_node b b = true.
Proof. apply Z.eqb_refl. Qed.

Lemma flat_map_unselect {V} (vals : node -> list V) (books : list node) (b0 : node) :
  (forall b, In b books -> same_node b0 b = false) ->
  flat_map (fun b => if same_node b0 b then vals b else []) books = [].
Proof.
  induction books as [|b books IH]; simpl; intros H; [reflexivity|].
  rewrite (H b (or_introl eq_refl)). apply IH. intros b1 H1. apply H. now right.
Qed.

Lemma flat_map_select {V} (vals : node -> list V) (books : list node) (b0 : node) :
  NoDup (map identity books) -> In b0 books ->
  flat_map (fun b => if same_node b0 b then vals b else []) books = vals b0.
Proof.
  induction books as [|b books IH]; simpl; [tauto|].
  intros Hnd Hin. inversion Hnd as [|? ? Hn Hnd']; subst.
  assert (Hrest : forall b1, In b1 books -> identity b1 <> identity b).
  { intros b1 H1 E. apply Hn. rewrite <- E. now apply in_map. }
  destruct Hin as [->|Hin].
  - rewrite same_node_refl, flat_map_unselect; [apply app_nil_r|].
    intros b1 H1. apply Z.eqb_neq. intros E. now apply (Hrest b1 H1).
  - destruct (same_node b0 b) eqn:E.
    + exfalso. apply same_node_iff in E. apply (Hrest b0 Hin E).
    + simpl. now apply IH.
Qed.

Lemma group_by_flat_map {V} (vals : node -> list V) (books : list node) :
  NoDup (map identity books) -> (forall b, In b books -> vals b <> []) ->
  group_by same_node (flat_map (fun b => map (pair b) (vals b)) books)
  = map (fun b => (b, vals b)) books.
Proof.
  intros Hnd Hne. unfold group_by.
  set (rows := flat_map _ books).
  assert (Hkeys : distinct same_node (map fst rows) = books).
  { unfold rows. clear rows. induction books as [|b books IH]; [reflexivity|].
    simpl. rewrite map_app, map_map. simpl.
    inversion Hnd as [|? ? Hn Hnd']; subst.
    rewrite (distinct_run same_node identity same_node_iff (b := b)).
    - rewrite IH; auto; [|intros; apply Hne; now right]. f_equal.
      apply filter_all. intros b1 H1. apply negb_true_iff.
      destruct (same_node b b1) eqn:E; [|reflexivity]. exfalso.
      apply same_node_iff in E. apply Hn. rewrite E. now apply in_map.
    - specialize (Hne b (or_introl eq_refl)). destruct (vals b); simpl; congruence.
    - apply Forall_forall. intros x Hx. apply in_map_iff in Hx.
      now destruct Hx as [v [<- _]]. }
  rewrite Hkeys. apply map_ext_in. intros b0 Hb0. f_equal.
  rewrite <- (@flat_map_select _ vals books b0 Hnd Hb0). unfold rows. clear.
  induction books as [|b books IH]; simpl; [reflexivity|].
  rewrite filter_app, map_app, IH. f_equal.
  destruct (same_node b0 b) eqn:E.
  - rewrite filter_all, map_map, map_id; [reflexivity|].
    intros r Hr. apply in_map_iff in Hr. now destruct Hr as [v [<- _]].
  - rewrite filter_none; [reflexivity|].
    intros r Hr. apply in_map_iff in Hr. now destruct Hr as [v [<- _]].
Qed.

Lemma combinations_not_nil g b : combinations g b <> [].
Proof.
  unfold combinations.
  destruct (optional (links WROTE b g)) as [|a l] eqn:A.
  { now apply optional_not_nil in A. }
  destruct (optional (links IN_GENRE b g)) as [|x l'] eqn:G.
  { now apply optional_not_nil in G. }
  simpl. discriminate.
Qed.

Lemma in_option_snd {A B} (l : list (A * B)) (x : B) :
  In (Some x) (map (option_map snd) (optional l)) <-> exists r, In (r, x) l.
Proof.
  rewrite in_map_iff. split.
  - intros [[[r x']|] [E H]]; simpl in E; [|discriminate]. injection E as ->.
    rewrite optional_In in H. eauto.
  - intros [r H]. exists (Some (r, x)). split; [reflexivity|].
    now rewrite optional_In.
Qed.

Lemma collect_fst_combinations g b x :
  In x (collect_fst (combinations g b)) <-> exists r, In (r, x) (links WROTE b g).
Proof.
  unfold collect_fst, combinations. rewrite non_null_In, <- in_option_snd.
  rewrite in_map_iff. split.
  - intros [[a o] [E H]]. simpl in E. subst a. apply in_flat_map in H.
    destruct H as [a [Ha H]]. apply in_map_iff in H. destruct H as [m [E _]].
    now injection E as -> _.
  - intros H. destruct (optional (links IN_GENRE b g)) as [|m l] eqn:G.
    { now apply optional_not_nil in G. }
    exists (Some x, option_map snd m). split; [reflexivity|].
    apply in_flat_map. exists (Some x). split; [exact H|]. now left.
Qed.

Lemma collect_snd_combinations g b x :
  In x (collect_snd (combinations g b)) <-> exists r, In (r, x) (links IN_GENRE b g).
Proof.
  unfold collect_snd, combinations. rewrite non_null_In, <- in_option_snd.
  rewrite in_map_iff. split.
  - intros [[a o] [E H]]. simpl in E. subst o. apply in_flat_map in H.
    destruct H as [a' [Ha H]]. apply in_map_iff in H. destruct H as [m [E Hm]].
    injection E as _ <-. now apply in_map.
  - intros H. apply in_map_iff in H. destruct H as [m [E Hm]].
    destruct (map (option_map snd) (optional (links WROTE b g))) as [|a l] eqn:A.
    { apply map_nil_iff in A. now apply optional_not_nil in A. }
    exists (a, Some x). split; [reflexivity|].
    apply in_flat_map. exists a. split; [now left|].
    apply in_map_iff. exists m. now rewrite E.
Qed.

(** The records of the GET statement: one per selected book. *)
Lemma GET_query_records conditions g :
  wf g ->
  GET_query conditions g
  = (g, map (fun b => (b, distinct same_node (collect_fst (combinations g b)),
                          distinct same_node (collect_snd (combinations g b))))
            (filter (fun b => has_label Book b && where_holds g conditions b)
                    (nodes g))).
Proof.
  intros W. unfold GET_query, bind at 1. unfold MATCH_books at 1, read.
  set (books := filter _ (nodes g)).
  unfold bind. rewrite OPTIONAL_MATCH_links_rows. unfold ret. f_equal.
  replace (flat_map _ books)
    with (flat_map (fun b => map (pair b) (combinations g b)) books).
  - rewrite group_by_flat_map.
    + now rewrite map_map.
    + apply NoDup_map_filter, W.
    + intros b _. apply combinations_not_nil.
  - apply flat_map_ext. intros b. unfold combinations.
    induction (map (option_map snd) (optional (links WROTE b g))) as [|a l IH];
      simpl; [reflexivity|].
    now rewrite map_app, IH, map_map.
Qed.

(** Deduplicated nodes of one category have pairwise different names. *)
Lemma distinct_linked_names g c (l : list node) :
  wf g -> (forall x, In x l -> In x (nodes g) /\ label_of x = far_label c) ->
  NoDup (map name (distinct same_node l)).
Proof.
  intros W Hl.
  pose proof (distinct_NoDup same_node identity same_node_iff l) as Hnd.
  apply NoDup_map_NoDup_ForallPairs; [|eapply NoDup_map_inv; eauto].
  intros x y Hx Hy E. apply distinct_incl in Hx, Hy.
  destruct (Hl x Hx) as [Nx Lx], (Hl y Hy) as [Ny Ly].
  apply (wf_names W); auto.
  - rewrite Lx. apply far_label_not_Book.
  - rewrite (named_name c x Lx), (named_name c y Ly). now rewrite E.
Qed.

Lemma distinct_linked_In g (l : list node) x :
  wf g -> (forall y, In y l -> In y (nodes g)) ->
  (In x (distinct same_node l) <-> In x l).
Proof.
  intros W Hl. split; [apply distinct_incl|]. intros Hx.
  destruct (distinct_cover same_node identity same_node_iff _ _ Hx) as [y [Hy E]].
  apply same_node_iff in E.
  assert (y = x).
  { apply (@wf_same_id g y x W); auto. apply Hl. eapply distinct_incl; eauto. }
  now subst.
Qed.

Lemma in_links_linked g c b x :
  (exists r, In (r, x) (links c b g)) <-> linked g c (identity b) x.
Proof.
  unfold linked. split.
  - intros [r H]. apply in_links in H. destruct H as (Hr & Hx & (Ht & Hb & Hf) & Hl).
    split; [exact Hx|]. split; [exact Hl|]. exists r. tauto.
  - intros (Hx & Hl & r & Hr & Ht & Hb & Hf). exists r. apply in_links.
    unfold links_book. tauto.
Qed.

Lemma any_contains_iff terms s :
  Str.well_formed s = true ->
  (forall term, In term terms -> Str.well_formed term = true) ->
  (any_contains terms s = true <-> exists term, In term terms /\ contains_ci s term).
Proof.
  intros Hs Ht. unfold any_contains. rewrite existsb_exists.
  split; intros [term [Hin H]]; exists term; (split; [exact Hin|]);
    now apply (@CaseFacts.toLower_contains s term Hs (Ht term Hin)).
Qed.

Lemma holds_category g b c terms :
  (forall a, linked g c (identity b) a -> Str.well_formed (name a) = true) ->
  (forall term, In term terms -> Str.well_formed term = true) ->
  (existsb (fun m => any_contains terms (name (snd m))) (links c b g) = true <->
   exists a term, linked g c (identity b) a /\ In term terms
                  /\ contains_ci (name a) term).
Proof.
  intros Hn Ht. rewrite existsb_exists. split.
  - intros [[r a] [Hin H]]. simpl in H.
    assert (Hl : linked g c (identity b) a) by (apply in_links_linked; eauto).
    apply (@any_contains_iff terms (name a) (Hn a Hl) Ht) in H.
    destruct H as [term [Hterm Hc]]. exists a, term. auto.
  - intros (a & term & Hl & Hterm & Hc). pose proof Hl as Hl'.
    apply in_links_linked in Hl. destruct Hl as [r Hr].
    exists (r, a). split; [exact Hr|]. simpl.
    apply (@any_contains_iff terms (name a) (Hn a Hl') Ht). eauto.
Qed.

(** The name lists of an entry: the names of the linked nodes, each
    once. *)
Lemma book_view_names g b :
  wf g ->
  NoDup (data_authors (book_view g b)) /\ NoDup (data_genres (book_view g b))
  /\ (forall s, In s (data_authors (book_view g b)) <->
                exists a, linked g WROTE (identity b) a /\ name a = s)
  /\ (forall s, In s (data_genres (book_view g b)) <->
                exists x, linked g IN_GENRE (identity b) x /\ name x = s).
Proof.
  intros W. simpl.
  assert (Hlinked : forall c (l : list node),
            (forall x, In x l <-> exists r, In (r, x) (links c b g)) ->
            NoDup (map name (distinct same_node l))
            /\ (forall s, In s (map name (distinct same_node l)) <->
                          exists a, linked g c (identity b) a /\ name a = s)).
  { intros c l Hl.
    assert (Hin : forall x, In x l -> In x (nodes g) /\ label_of x = far_label c).
    { intros x Hx. apply Hl, in_links_linked in Hx.
      destruct Hx as (? & ? & _). auto. }
    split; [apply (@distinct_linked_names g c l W Hin)|].
    intros s. rewrite in_map_iff. split.
    - intros [a [E Ha]]. exists a. split; [|exact E].
      apply in_links_linked, Hl. eapply distinct_incl; eauto.
    - intros [a [Ha E]]. exists a. split; [exact E|].
      apply (@distinct_linked_In g l a W); [intros y Hy; now apply Hin|].
      now apply Hl, in_links_linked. }
  destruct (Hlinked WROTE _ (collect_fst_combinations g b)) as [NA IA].
  destruct (Hlinked IN_GENRE _ (collect_snd_combinations g b)) as [NG IG].
  auto.
Qed.

Section Search.

Variable neo4j_int : string -> Z.

Lemma GET_data q g :
  wf g ->
  GET neo4j_int q g
  = Response 200 true
      (Data_list
         (map (book_view g)
              (filter (fun b => has_label Book b
                                && forallb (holds g b) (conditions neo4j_int q))
                      (nodes g)))).
Proof.
  intros W. unfold GET. rewrite (GET_query_records _ W).
  now rewrite map_map.
Qed.

Lemma conditions_count q f :
  List.length (filter (fun c => filter_name_eqb (filter_of c) f)
                      (conditions neo4j_int q))
  = if supplied q f then 1%nat else 0%nat.
Proof.
  unfold conditions, supplied.
  destruct (present (q_id q)), (present (q_title q)), (present (q_bookId q)),
    (0 <? List.length (q_author q))%nat, (0 <? List.length (q_genre q))%nat, f;
    reflexivity.
Qed.

(** C4. The search query has one condition for every filter the request
    supplies ([supplied]: a non-empty string, as [if (title)] tests it, or
    a non-empty list) and none for the others; the conditions are joined by AND
    and a book is returned exactly when it meets all of them; without
    any filter there is no WHERE clause and every book is returned; an
    empty author or genre list adds no condition, where the condition
    over an empty list would hold for no book. *)
Theorem GET_conditions q g :
  wf g ->
  (forall f, List.length (filter (fun c => filter_name_eqb (filter_of c) f)
                                 (conditions neo4j_int q))
             = if supplied q f then 1%nat else 0%nat)
  /\ whereClause (conditions neo4j_int q)
     = (if (0 <? List.length (conditions neo4j_int q))%nat
        then "WHERE " ++ Str.join " AND "
                           (map condition_text (conditions neo4j_int q))
        else "")%string
  /\ GET neo4j_int q g
     = Response 200 true
         (Data_list
            (map (book_view g)
                 (filter (fun b => has_label Book b
                                   && forallb (holds g b) (conditions neo4j_int q))
                         (nodes g))))
  /\ ((forall f, supplied q f = false) ->
      conditions neo4j_int q = []
      /\ whereClause (conditions neo4j_int q) = ""
      /\ GET neo4j_int q g
         = Response 200 true
             (Data_list (map (book_view g) (filter (has_label Book) (nodes g)))))
  /\ (q_author q = [] ->
      forall c, In c (conditions neo4j_int q) -> filter_of c <> F_author)
  /\ (q_genre q = [] ->
      forall c, In c (conditions neo4j_int q) -> filter_of c <> F_genre)
  /\ (forall b, holds g b (CondAuthors []) = false
                /\ holds g b (CondGenres []) = false).
Proof.
  intros W.
  assert (Hnone : forall f, supplied q f = false ->
            forall c, In c (conditions neo4j_int q) -> filter_of c <> f).
  { intros f Hf c Hc E. pose proof (conditions_count q f) as Hn.
    rewrite Hf in Hn. apply length_zero_iff_nil in Hn.
    assert (Hin : In c (filter (fun c => filter_name_eqb (filter_of c) f)
                               (conditions neo4j_int q))).
    { apply filter_In. split; [exact Hc|]. rewrite E. now destruct f. }
    now rewrite Hn in Hin. }
  split; [apply conditions_count|]. split; [reflexivity|].
  split; [now apply GET_data|]. split; [|split; [|split]].
  - intros Hall.
    assert (E : conditions neo4j_int q = []).
    { destruct (conditions neo4j_int q) as [|c l] eqn:Ec; [reflexivity|].
      exfalso. apply (Hnone (filter_of c) (Hall _) c); [|reflexivity].
      now left. }
    rewrite (GET_data q W), E. repeat split.
    do 3 f_equal. apply filter_ext. intros b. simpl. apply andb_true_r.
  - intros E. apply Hnone. simpl. now rewrite E.
  - intros E. apply Hnone. simpl. now rewrite E.
  - intros b. simpl. split;
      (induction (links _ b g) as [|m l IH]; [reflexivity|exact IH]).
Qed.

(** C5. A book meets the title filter exactly when the filter string
    occurs in its title, letter case aside; it meets the author filter
    (the genre filter) exactly when one of its authors (genres) has a
    name in which one of the search terms occurs, letter case aside; and
    a book is returned exactly when it meets the condition of every
    filter the request supplies.  "Letter case aside" is [contains_ci]:
    some part of the one string has the characters of the other, each
    the same or its capital or small letter.  The strings are well-formed
    UTF-8, as every string of a JSON body, of a URL and of the store is. *)
Theorem GET_match_semantics q g b :
  wf g -> In b (nodes g) -> label_of b = Book ->
  (forall t, Str.well_formed (title b) = true -> Str.well_formed t = true ->
             (holds g b (CondTitle t) = true <-> contains_ci (title b) t))
  /\ (forall terms,
        (forall a, linked g WROTE (identity b) a -> Str.well_formed (name a) = true) ->
        (forall term, In term terms -> Str.well_formed term = true) ->
        (holds g b (CondAuthors terms) = true <->
         exists a term, linked g WROTE (identity b) a /\ In term terms
                        /\ contains_ci (name a) term))
  /\ (forall terms,
        (forall x, linked g IN_GENRE (identity b) x -> Str.well_formed (name x) = true) ->
        (forall term, In term terms -> Str.well_formed term = true) ->
        (holds g b (CondGenres terms) = true <->
         exists x term, linked g IN_GENRE (identity b) x /\ In term terms
                        /\ contains_ci (name x) term))
  /\ (exists data,
        GET neo4j_int q g = Response 200 true (Data_list data)
        /\ (In (book_view g b) data <->
            (present (q_id q) = true ->
               holds g b (CondId (neo4j_int (param (q_id q)))) = true)
            /\ (present (q_title q) = true ->
                  holds g b (CondTitle (param (q_title q))) = true)
            /\ (present (q_bookId q) = true ->
                  holds g b (CondBookId (param (q_bookId q))) = true)
            /\ (q_author q <> [] -> holds g b (CondAuthors (q_author q)) = true)
            /\ (q_genre q <> [] -> holds g b (CondGenres (q_genre q)) = true))).
Proof.
  intros W Hb Lb.
  split; [intros t Hs Ht; apply (@CaseFacts.toLower_contains _ _ Hs Ht)|].
  split; [intros terms Hn Ht; apply (@holds_category g b WROTE terms Hn Ht)|].
  split; [intros terms Hn Ht; apply (@holds_category g b IN_GENRE terms Hn Ht)|].
  eexists. split; [apply (GET_data q W)|].
  rewrite in_map_iff. split.
  - intros [b' [E Hb']]. apply filter_In in Hb'. destruct Hb' as [Hb' Hc].
    assert (b' = b).
    { apply (@wf_same_id g b' b W Hb' Hb). unfold book_view in E. congruence. }
    subst b'. apply andb_true_iff in Hc. destruct Hc as [_ Hc].
    rewrite forallb_forall in Hc. unfold conditions in Hc.
    repeat split; intros Hp; apply Hc; rewrite !in_app_iff.
    + rewrite Hp. left. now left.
    + rewrite Hp. right. left. now left.
    + rewrite Hp. right. right. left. now left.
    + destruct (q_author q); [congruence|]. do 3 right. left. now left.
    + destruct (q_genre q); [congruence|]. do 4 right. now left.
  - intros (Hi & Ht & Hk & Ha & Hg). exists b. split; [reflexivity|].
    apply filter_In. split; [exact Hb|]. apply andb_true_iff.
    split; [now apply has_label_iff|]. apply forallb_forall.
    intros c Hc. unfold conditions in Hc. rewrite !in_app_iff in Hc.
    destruct Hc as [Hc|[Hc|[Hc|[Hc|Hc]]]].
    + destruct (present (q_id q)); [|contradiction].
      destruct Hc as [<-|[]]. auto.
    + destruct (present (q_title q)); [|contradiction].
      destruct Hc as [<-|[]]. auto.
    + destruct (present (q_bookId q)); [|contradiction].
      destruct Hc as [<-|[]]. auto.
    + destruct (q_author q) as [|s l] eqn:E; [contradiction|].
      destruct Hc as [<-|[]]. apply Ha. discriminate.
    + destruct (q_genre q) as [|s l] eqn:E; [contradiction|].
      destruct Hc as [<-|[]]. apply Hg. discriminate.
Qed.

(** C6. The answer of GET has one entry for every book of the store that
    meets the conditions of the search, and no other entry: each such
    book appears, and appears once, with its identity, [bookId] and title.
    The authors and genres of an entry are the names of the Author and
    Genre nodes joined to the book, each name once whatever the number of
    author and genre combinations; and a book without authors (genres) is
    still returned, with the empty list there. *)
Theorem GET_books_once_with_distinct_names q g :
  wf g ->
  exists data,
    GET neo4j_int q g = Response 200 true (Data_list data)
    /\ NoDup (map data_id data)
    /\ (forall b, In b (nodes g) -> label_of b = Book ->
          forallb (holds g b) (conditions neo4j_int q) = true ->
          exists d, In d data /\ data_id d = identity b
            /\ data_bookId d = bookId b /\ data_title d = title b
            /\ ((forall a, ~ linked g WROTE (identity b) a) -> data_authors d = [])
            /\ ((forall x, ~ linked g IN_GENRE (identity b) x) -> data_genres d = []))
    /\ (forall d, In d data ->
          exists b, In b (nodes g) /\ label_of b = Book
            /\ forallb (holds g b) (conditions neo4j_int q) = true
            /\ data_id d = identity b)
    /\ (forall d, In d data ->
          NoDup (data_authors d) /\ NoDup (data_genres d)
          /\ (forall s, In s (data_authors d) <->
                        exists a, linked g WROTE (data_id d) a /\ name a = s)
          /\ (forall s, In s (data_genres d) <->
                        exists x, linked g IN_GENRE (data_id d) x /\ name x = s)
          /\ ((forall a, ~ linked g WROTE (data_id d) a) -> data_authors d = [])
          /\ ((forall x, ~ linked g IN_GENRE (data_id d) x) -> data_genres d = [])).
Proof.
  intros W. eexists. split; [apply (GET_data q W)|]. split.
  { rewrite map_map. simpl. apply NoDup_map_filter, W. }
  assert (Empty : forall b,
            ((forall a, ~ linked g WROTE (identity b) a) ->
             data_authors (book_view g b) = [])
            /\ ((forall x, ~ linked g IN_GENRE (identity b) x) ->
                data_genres (book_view g b) = [])).
  { intros b. destruct (book_view_names b W) as (_ & _ & IA & IG). split.
    - intros Hnone.
      destruct (data_authors (book_view g b)) as [|s l] eqn:E; [reflexivity|].
      exfalso. destruct (proj1 (IA s)) as [a [Ha _]]; [now left|].
      now apply (Hnone a).
    - intros Hnone.
      destruct (data_genres (book_view g b)) as [|s l] eqn:E; [reflexivity|].
      exfalso. destruct (proj1 (IG s)) as [x [Hx _]]; [now left|].
      now apply (Hnone x). }
  split; [|split].
  - intros b Hb Lb Hc. exists (book_view g b). split.
    { apply in_map, filter_In. split; [exact Hb|].
      apply andb_true_iff. split; [now apply has_label_iff|exact Hc]. }
    split; [reflexivity|]. split; [reflexivity|]. split; [reflexivity|].
    apply Empty.
  - intros d Hd. apply in_map_iff in Hd. destruct Hd as [b [<- Hb]].
    apply filter_In in Hb. destruct Hb as [Hb Hc].
    apply andb_true_iff in Hc. destruct Hc as [Lb Hc].
    exists b. split; [exact Hb|]. split; [now apply has_label_iff|].
    split; [exact Hc|reflexivity].
  - intros d Hd. apply in_map_iff in Hd. destruct Hd as [b [<- Hb]].
    destruct (book_view_names b W) as (NA & NG & IA & IG).
    change (data_id (book_view g b)) with (identity b).
    split; [exact NA|]. split; [exact NG|]. split; [exact IA|]. split; [exact IG|].
    apply Empty.
Qed.

(** C1. A successful PUT replaces the relationships of the book: in the
    store after it, the WROTE relationships into the book come from
    Author nodes named in the supplied list and every supplied name has
    one, likewise for IN_GENRE and the genre list; no relationship the
    book had before survives, every Author and Genre node of the old
    store is still there, the new store is well formed (one node per
    name, one relationship per pair), and fetching the book by its id
    returns it with the new title and exactly the supplied names. *)
Theorem PUT_replaces_relationships idParam body t authors genres g resp g' :
  wf g -> carries body t authors genres ->
  PUT neo4j_int idParam body g = Some (resp, g') -> success resp = true ->
  let id := neo4j_int (param idParam) in
  (forall r, In r (rels g') -> rtype r = WROTE -> rend r = id ->
     exists a, In a (nodes g') /\ identity a = rstart r
               /\ label_of a = Author /\ In (name a) authors)
  /\ (forall s, In s authors ->
        exists a r, In a (nodes g') /\ props a = AuthorP s /\ In r (rels g')
                    /\ rtype r = WROTE /\ rstart r = identity a /\ rend r = id)
  /\ (forall r, In r (rels g') -> rtype r = IN_GENRE -> rstart r = id ->
        exists x, In x (nodes g') /\ identity x = rend r
                  /\ label_of x = Genre /\ In (name x) genres)
  /\ (forall s, In s genres ->
        exists x r, In x (nodes g') /\ props x = GenreP s /\ In r (rels g')
                    /\ rtype r = IN_GENRE /\ rstart r = id /\ rend r = identity x)
  /\ (forall r, In r (rels g) -> book_end (rtype r) r = id -> ~ In r (rels g'))
  /\ (forall n, In n (nodes g) -> label_of n <> Book -> In n (nodes g'))
  /\ wf g'
  /\ (exists b', In b' (nodes g') /\ label_of b' = Book /\ identity b' = id
        /\ title b' = t
        /\ GET neo4j_int (SearchParams idParam None None [] []) g'
           = Response 200 true (Data_list [book_view g' b'])
        /\ (forall s, In s (data_authors (book_view g' b')) <-> In s authors)
        /\ (forall s, In s (data_genres (book_view g' b')) <-> In s genres)).
Proof.
  intros W Hc H Hs id.
  destruct (@PUT_success_inv _ _ _ _ _ _ _ _ _ W Hc H Hs)
    as (Hp & Ha & Hg & b & records & Hb & Lb & Ib & E).
  fold id in Ib, E.
  destruct (@PUT_query_found _ _ _ _ _ _ _ _ W Hb Lb Ib E)
    as (W' & Hb' & _ & Hkeep & _ & _ & Hrels & CovA & CovG).
  assert (Ib' : identity (with_title t b) = id)
    by now rewrite with_title_identity.
  assert (Lb' : label_of (with_title t b) = Book)
    by now rewrite with_title_label.
  assert (Hnew : forall r c, In r (rels g') -> rtype r = c -> book_end c r = id ->
            exists x s, In x (nodes g') /\ In s (names_of c authors genres)
                        /\ props x = named c s
                        /\ far_end c r = identity x).
  { intros r c Hr Tr Hbe.
    destruct (Hrels r Hr) as [[_ Hne]|(_ & x & s & Hx & Hs' & Hpx & Hl)].
    - rewrite Tr in Hne. contradiction.
    - rewrite Tr in *. exists x, s. repeat split; auto. apply Hl. }
  assert (Cov : forall c s, In s (names_of c authors genres) ->
            exists x r, In x (nodes g') /\ props x = named c s /\ In r (rels g')
                        /\ links_book c r (with_title t b) x).
  { intros c s Hin. destruct c; simpl in Hin; [apply CovA|apply CovG]; auto. }
  assert (Hview : forall c s,
            (exists a, linked g' c id a /\ name a = s)
            <-> In s (names_of c authors genres)).
  { intros c s. split.
    - intros (a & (Hain & La & r & Hr & Tr & Hbe & Hfe) & <-).
      destruct (Hnew r c Hr Tr Hbe) as (x & s' & Hx & Hs' & Hpx & Hf).
      assert (a = x) by (apply (@wf_same_id g' a x W' Hain Hx); congruence).
      subst a. now rewrite (@name_of_named c s' x Hpx).
    - intros Hin. destruct (Cov c s Hin) as (x & r & Hx & Hpx & Hr & Tr & Hbe & Hfe).
      exists x. split; [|apply (@name_of_named c s x Hpx)].
      split; [exact Hx|]. split; [apply (@label_of_named c s x Hpx)|].
      exists r. repeat split; auto; congruence. }
  split.
  { intros r Hr Tr He. destruct (Hnew r WROTE Hr Tr He) as (x & s & Hx & Hs' & Hpx & Hf).
    exists x. simpl in Hf, Hs'. repeat split; auto.
    - apply (@label_of_named WROTE s x Hpx).
    - now rewrite (@name_of_named WROTE s x Hpx). }
  split.
  { intros s Hs'. destruct (CovA s Hs') as (x & r & Hx & Hpx & Hr & Tr & Hbe & Hfe).
    exists x, r. simpl in Hbe, Hfe. repeat split; auto; congruence. }
  split.
  { intros r Hr Tr He. destruct (Hnew r IN_GENRE Hr Tr He) as (x & s & Hx & Hs' & Hpx & Hf).
    exists x. simpl in Hf, Hs'. repeat split; auto.
    - apply (@label_of_named IN_GENRE s x Hpx).
    - now rewrite (@name_of_named IN_GENRE s x Hpx). }
  split.
  { intros s Hs'.
    destruct (CovG Ha s Hs') as (x & r & Hx & Hpx & Hr & Tr & Hbe & Hfe).
    exists x, r. simpl in Hbe, Hfe. repeat split; auto; congruence. }
  split.
  { intros r Hr Hbe Hr'. destruct (Hrels r Hr') as [[_ Hne]|[Hid _]]; [contradiction|].
    pose proof (wf_next_rel W r Hr). lia. }
  split.
  { intros n Hn Ln. apply Hkeep; [exact Hn|]. intros En. apply Ln.
    rewrite <- Ib in En. now rewrite (@wf_same_id g n b W Hn Hb En). }
  split; [exact W'|].
  exists (with_title t b).
  destruct (book_view_names (with_title t b) W') as (_ & _ & IA & IG).
  rewrite Ib' in IA, IG.
  split; [exact Hb'|]. split; [exact Lb'|]. split; [exact Ib'|].
  split; [now apply with_title_title|]. split.
  { rewrite (GET_data _ W'). unfold conditions. simpl. rewrite Hp. simpl.
    pose proof (@MATCH_by_id_found id g' (with_title t b) W' Hb' Lb' Ib') as M.
    unfold MATCH_books, read, where_holds in M. injection M as M.
    unfold id in M. now rewrite M. }
  split.
  - intros s. rewrite IA. apply (Hview WROTE).
  - intros s. rewrite IG. apply (Hview IN_GENRE).
Qed.

End Search.

(* ------------------------------------------------------------------ *)
(** ** The handlers on the small store *)

Lemma sample_POST :
  POST "u1" (body_of "Dune" ["A"] ["X"]) empty_graph
  = Some (Response 200 true
            (Data_created (CreatedData 0 "u1" "Dune" [None] [None])), sample).
Proof. vm_compute. reflexivity. Qed.

Lemma sample_wf : wf sample.
Proof. exact (@POST_wf _ _ _ _ _ wf_empty sample_POST). Qed.

Lemma sample_reachable : reachable decimal sample.
Proof.
  exact (@reach_step decimal _ _ (reach_empty decimal)
           (@by_POST decimal _ _ _ _ _ sample_POST)).
Qed.

Lemma library_POST_1 :
  POST "u1" (body_of (Str.text [201; 99; 111; 108; 101]%N) ["A"; "B"] ["X"; "Y"])
       empty_graph
  = Some (Response 200 true
            (Data_created
               (CreatedData 0 "u1" (Str.text [201; 99; 111; 108; 101]%N)
                  [None; None] [None; None])), library_1).
Proof. vm_compute. reflexivity. Qed.

Lemma library_POST_2 :
  POST "u2" (body_of "Dune" ["A"] ["X"]) library_1
  = Some (Response 200 true
            (Data_created (CreatedData 5 "u2" "Dune" [None] [None])), library_2).
Proof. vm_compute. reflexivity. Qed.

Lemma library_PUT :
  PUT decimal (Some "5") (body_of "Dune" ["A"] []) library_2
  = Some (Response 404 false (Error_text "Book not found"), library).
Proof. vm_compute. reflexivity. Qed.

Lemma library_wf : wf library.
Proof.
  exact (@PUT_wf decimal _ _ _ _ _
           (@POST_wf _ _ _ _ _ (@POST_wf _ _ _ _ _ wf_empty library_POST_1)
              library_POST_2)
           library_PUT).
Qed.

(** Four author and genre combinations, two names each; and the book
    without a genre. *)
Example GET_library_all :
  GET decimal (SearchParams None None None [] []) library
  = Response 200 true
      (Data_list [BookData 0 "u1" (Str.text [201; 99; 111; 108; 101]%N)
                    ["A"; "B"] ["X"; "Y"];
                  BookData 5 "u2" "Dune" ["A"] []]).
Proof. vm_compute. reflexivity. Qed.

(** "éCOL" is found in "École", "ecole" is not: the accent is no matter
    of letter case. *)
Example GET_library_by_title :
  GET decimal (SearchParams None (Some (Str.text [233; 67; 79; 76]%N)) None [] [])
      library
  = Response 200 true
      (Data_list [BookData 0 "u1" (Str.text [201; 99; 111; 108; 101]%N)
                    ["A"; "B"] ["X"; "Y"]])
  /\ GET decimal (SearchParams None (Some "ecole") None [] []) library
     = Response 200 true (Data_list []).
Proof. split; vm_compute; reflexivity. Qed.

(** The capital E acute and the small one are one letter, by the pairs of
    letters alone. *)
Example same_letter_E_acute : same_letter (Str.utf8 201) (Str.utf8 233).
Proof.
  right. exists (Str.utf8 233). split; exists 201%N, 233%N.
  - split; [|split; [reflexivity|now left]].
    unfold case_pairs. repeat (first [left; reflexivity | right]).
  - split; [|split; [reflexivity|now right]].
    unfold case_pairs. repeat (first [left; reflexivity | right]).
Qed.

Example GET_sample_all :
  GET decimal (SearchParams None None None [] []) sample
  = Response 200 true (Data_list [BookData 0 "u1" "Dune" ["A"] ["X"]]).
Proof. vm_compute. reflexivity. Qed.

Example GET_sample_by_title_and_author :
  GET decimal (SearchParams None (Some "UN") None ["b"; "a"] []) sample
  = Response 200 true (Data_list [BookData 0 "u1" "Dune" ["A"] ["X"]]).
Proof. vm_compute. reflexivity. Qed.

Example GET_sample_no_match :
  GET decimal (SearchParams None (Some "UN") None [] ["y"]) sample
  = Response 200 true (Data_list []).
Proof. vm_compute. reflexivity. Qed.

Example POST_null_body uuid g :
  POST uuid JNull g
  = Some (Response 200 false
            (Err_object
               (TypeError "Cannot destructure property 'title' of 'body' as it is null.")),
          g).
Proof. reflexivity. Qed.

Example PUT_missing_title g :
  PUT decimal (Some "0") (JObj [("authors", JArr []); ("genres", JArr [])]) g
  = Some (Response 500 false (Error_text "Error: Book title missing"), g).
Proof. reflexivity. Qed.

(** C2. The claim fails on the store [sample]: book 0 exists, yet a PUT
    for it with an empty authors list is answered 404 "Book not found",
    and the store has changed by then (new title, relationships gone). *)
Theorem PUT_reports_existing_book_missing :
  In dune (nodes sample) /\ label_of dune = Book /\ identity dune = decimal "0"
  /\ PUT decimal (Some "0") (body_of "Dune II" [] ["X"]) sample
     = Some (Response 404 false (Error_text "Book not found"), sample_emptied)
  /\ title dune = "Dune" /\ In (Node 0 (BookP "u1" "Dune II")) (nodes sample_emptied)
  /\ rels sample = [Rel 0 WROTE 1 0; Rel 1 IN_GENRE 0 2]
  /\ rels sample_emptied = [].
Proof.
  repeat split; try reflexivity; simpl; auto.
Qed.

Lemma dune_II_carries (authors genres : list string) :
  carries (body_of "Dune II" authors genres) "Dune II" authors genres.
Proof. apply carries_body_of. discriminate. Qed.

Lemma sample_PUT :
  PUT decimal (Some "0") (body_of "Dune II" ["C"] ["Y"]) sample
  = Some (Response 200 true (Data_book sample_updated_data), sample_updated).
Proof. vm_compute. reflexivity. Qed.

Lemma PUT_replaces_relationships_witness :
  wf sample
  /\ carries (body_of "Dune II" ["C"] ["Y"]) "Dune II" ["C"] ["Y"]
  /\ PUT decimal (Some "0") (body_of "Dune II" ["C"] ["Y"]) sample
     = Some (Response 200 true (Data_book sample_updated_data), sample_updated)
  /\ (forall r, In r (rels sample) -> book_end (rtype r) r = decimal "0" ->
                ~ In r (rels sample_updated))
  /\ (forall n, In n (nodes sample) -> label_of n <> Book ->
                In n (nodes sample_updated)).
Proof.
  split; [exact sample_wf|]. split; [exact (dune_II_carries ["C"] ["Y"])|].
  split; [exact sample_PUT|].
  pose proof (@PUT_replaces_relationships decimal (Some "0") _ _ _ _ _ _ _
                sample_wf (dune_II_carries ["C"] ["Y"]) sample_PUT eq_refl) as H.
  cbv zeta in H. destruct H as (_ & _ & _ & _ & H1 & H2 & _). split; assumption.
Defined.

Lemma PUT_empty_list_not_found_witness :
  wf sample /\ present (Some "0") = true
  /\ carries (body_of "Dune II" [] ["X"]) "Dune II" [] ["X"]
  /\ In dune (nodes sample) /\ label_of dune = Book
  /\ identity dune = decimal (param (Some "0"))
  /\ exists v g' b',
       PUT_validate (body_of "Dune II" [] ["X"]) = Ok v
       /\ PUT_query (decimal (param (Some "0"))) "Dune II" [] ["X"] sample = (g', [])
       /\ PUT decimal (Some "0") (body_of "Dune II" [] ["X"]) sample
          = Some (Response 404 false (Error_text "Book not found"), g')
       /\ In b' (nodes g') /\ identity b' = identity dune /\ label_of b' = Book
       /\ title b' = "Dune II"
       /\ (forall r, In r (rels sample) ->
                     book_end (rtype r) r = identity dune -> ~ In r (rels g')).
Proof.
  split; [exact sample_wf|]. split; [reflexivity|].
  split; [exact (dune_II_carries [] ["X"])|].
  split; [now left|]. split; [reflexivity|]. split; [reflexivity|].
  exact (@PUT_empty_list_not_found decimal (Some "0") _ _ _ _ sample dune
           sample_wf eq_refl (dune_II_carries [] ["X"]) (or_introl eq_refl)
           (or_introl eq_refl) eq_refl eq_refl).
Defined.

Lemma GET_conditions_witness :
  wf sample
  /\ GET decimal (SearchParams None (Some "du") None ["a"] []) sample
     = Response 200 true
         (Data_list
            (map (book_view sample)
                 (filter (fun b => has_label Book b
                            && forallb (holds sample b)
                                 (conditions decimal
                                    (SearchParams None (Some "du") None ["a"] [])))
                         (nodes sample)))).
Proof.
  split; [exact sample_wf|].
  exact (proj1 (proj2 (proj2
           (@GET_conditions decimal (SearchParams None (Some "du") None ["a"] [])
              sample sample_wf)))).
Defined.

Lemma GET_match_semantics_witness :
  wf library /\ In ecole (nodes library) /\ label_of ecole = Book
  /\ Str.well_formed (title ecole) = true
  /\ Str.well_formed (Str.text [233; 67; 79; 76]%N) = true
  /\ holds library ecole (CondTitle (Str.text [233; 67; 79; 76]%N)) = true
  /\ contains_ci (title ecole) (Str.text [233; 67; 79; 76]%N).
Proof.
  assert (H : holds library ecole (CondTitle (Str.text [233; 67; 79; 76]%N)) = true)
    by (vm_compute; reflexivity).
  split; [exact library_wf|]. split; [left; reflexivity|]. split; [reflexivity|].
  split; [reflexivity|]. split; [reflexivity|]. split; [exact H|].
  exact (proj1 (proj1 (@GET_match_semantics decimal
                         (SearchParams None None None [] []) library ecole
                         library_wf (or_introl eq_refl) eq_refl)
                  (Str.text [233; 67; 79; 76]%N) eq_refl eq_refl) H).
Defined.

Lemma GET_books_once_with_distinct_names_witness :
  wf library
  /\ exists data,
       GET decimal (SearchParams None None None ["a"] []) library
       = Response 200 true (Data_list data)
       /\ NoDup (map data_id data)
       /\ (exists d, In d data /\ data_id d = identity dune_2
                     /\ data_title d = "Dune" /\ data_genres d = [])
       /\ (exists d, In d data /\ data_id d = identity ecole
                     /\ NoDup (data_authors d) /\ NoDup (data_genres d)).
Proof.
  split; [exact library_wf|].
  destruct (@GET_books_once_with_distinct_names decimal
              (SearchParams None None None ["a"] []) library library_wf)
    as (data & E & Hnd & Hall & _ & Hnames).
  exists data. split; [exact E|]. split; [exact Hnd|]. split.
  - destruct (Hall dune_2) as (d & Hd & Hi & _ & Ht & _ & Hg).
    { do 5 right. left. reflexivity. } { reflexivity. } { vm_compute. reflexivity. }
    exists d. split; [exact Hd|]. split; [exact Hi|]. split; [exact Ht|].
    apply Hg. intros x (_ & _ & r & Hr & Tr & Hb & _).
    repeat (destruct Hr as [<-|Hr]; [discriminate|]). contradiction.
  - destruct (Hall ecole) as (d & Hd & Hi & _).
    { left. reflexivity. } { reflexivity. } { vm_compute. reflexivity. }
    exists d. split; [exact Hd|]. split; [exact Hi|].
    destruct (Hnames d Hd) as (NA & NG & _). split; assumption.
Defined.

Lemma POST_validation_fails_before_write_witness :
  body_of "" ["A"] ["X"] <> JNull
  /\ POST "u2" (body_of "" ["A"] ["X"]) sample
     = Some (Response 200 false (Err_object (Error "Book title missing")), sample).
Proof.
  split; [discriminate|].
  exact (proj1 (@POST_validation_fails_before_write "u2" (body_of "" ["A"] ["X"])
                  sample ltac:(discriminate)) eq_refl).
Defined.

Lemma names_resolve_to_one_entity_witness :
  reachable decimal sample
  /\ forall a b, In a (nodes sample) -> In b (nodes sample) -> label_of a <> Book ->
                 props a = props b -> a = b.
Proof.
  split; [exact sample_reachable|].
  exact (proj1 (@names_resolve_to_one_entity decimal sample sample_reachable)).
Defined.

Lemma DELETE_removes_book_witness :
  wf sample
  /\ exists g',
       DELETE decimal (Some "0") sample = (Response 200 true (DeletedCount 1), g')
       /\ (forall n, In n (nodes g') <->
                     In n (nodes sample) /\ identity n <> identity dune)
       /\ (forall r, In r (rels g') <->
                     In r (rels sample) /\ rstart r <> identity dune
                     /\ rend r <> identity dune).
Proof.
  split; [exact sample_wf|].
  exact (proj2 (proj2 (@DELETE_removes_book decimal (Some "0") sample sample_wf))
           eq_refl dune (or_introl eq_refl) eq_refl eq_refl).
Defined.

Lemma validation_asymmetry_witness :
  truthy (get_field "title" (body_of "Dune" [] ["X"])) = true
  /\ isArray (get_field "authors" (body_of "Dune" [] ["X"])) = true
  /\ isArray (get_field "genres" (body_of "Dune" [] ["X"])) = true
  /\ items_of (get_field "authors" (body_of "Dune" [] ["X"])) = []
  /\ (exists v, PUT_validate (body_of "Dune" [] ["X"]) = Ok v)
  /\ POST_validate (body_of "Dune" [] ["X"])
     = Throw (Error "At least one author required").
Proof.
  split; [reflexivity|]. split; [reflexivity|]. split; [reflexivity|].
  split; [reflexivity|].
  pose proof (@validation_asymmetry (body_of "Dune" [] ["X"])
                eq_refl eq_refl eq_refl (or_introl eq_refl)) as H.
  destruct H as (H1 & _ & H2 & _). split; [exact H1|exact (H2 eq_refl)].
Defined.

(* ------------------------------------------------------------------ *)
(** ** Further properties of the handlers *)

Section Further.

Variable neo4j_int : string -> Z.

(** X1. PUT checks its body after the id and before the statement: with
    an id present, a body without a truthy title, one whose authors are
    not an array and one whose genres are not an array are each answered
    with status 500 and the text of the thrown error, and the store is
    left as it was. *)
Theorem PUT_validation_fails_before_write idParam body g :
  present idParam = true -> body <> JNull ->
  let failed m :=
    PUT neo4j_int idParam body g = Some (Response 500 false (Error_text m), g) in
  (truthy (get_field "title" body) = false -> failed "Error: Book title missing")
  /\ (truthy (get_field "title" body) = true ->
      isArray (get_field "authors" body) = false ->
      failed "Error: Authors must be an array")
  /\ (truthy (get_field "title" body) = true ->
      isArray (get_field "authors" body) = true ->
      isArray (get_field "genres" body) = false ->
      failed "Error: Genres must be an array").
Proof.
  intros Hp Hnn failed. unfold failed, PUT, PUT_validate. rewrite Hp. simpl.
  destruct (destructure_cases body) as [E|E]; [contradiction|]. rewrite E.
  split; [|split].
  - intros ->. reflexivity.
  - intros -> Ia. rewrite Ia. simpl. now rewrite orb_true_r.
  - intros -> Ia Ig. rewrite Ia, Ig, (isArray_truthy _ Ia). simpl.
    now rewrite orb_true_r.
Qed.

(** X2. Every store the handlers can build from the empty one has no two
    nodes and no two relationships with the same identity, and no
    dangling relationship: each WROTE joins an Author node of the store
    to a Book node of the store, each IN_GENRE a Book to a Genre. *)
Theorem reachable_store_has_no_dangling_relationship g :
  reachable neo4j_int g ->
  NoDup (map identity (nodes g)) /\ NoDup (map rel_id (rels g))
  /\ forall r, In r (rels g) ->
       exists a b, In a (nodes g) /\ In b (nodes g)
                   /\ identity a = rstart r /\ identity b = rend r
                   /\ match rtype r with
                      | WROTE => label_of a = Author /\ label_of b = Book
                      | IN_GENRE => label_of a = Book /\ label_of b = Genre
                      end.
Proof.
  intros R. pose proof (reachable_wf R) as W.
  split; [apply W|]. split; [apply W|].
  intros r Hr. destruct (wf_typed W r Hr) as (b & x & Hb & Hx & Lb & Lx & _ & Eb & Ex).
  destruct (rtype r); simpl in *.
  - exists x, b. auto 10.
  - exists b, x. auto 10.
Qed.

(** X3. A search by id returns at most one book, the one with that
    identity, and the empty list (with status 200, not an error) when no
    book has it. *)
Theorem GET_by_id q g :
  wf g -> present (q_id q) = true ->
  exists data,
    GET neo4j_int q g = Response 200 true (Data_list data)
    /\ (List.length data <= 1)%nat
    /\ (forall d, In d data -> data_id d = neo4j_int (param (q_id q)))
    /\ ((forall b, In b (nodes g) -> label_of b = Book ->
                   identity b <> neo4j_int (param (q_id q))) -> data = []).
Proof.
  intros W Hp. eexists. split; [apply (GET_data _ q W)|].
  set (id := neo4j_int (param (q_id q))).
  set (sel := filter _ (nodes g)).
  assert (Hsel : forall b, In b sel -> In b (nodes g) /\ label_of b = Book
                                       /\ identity b = id).
  { intros b Hb. unfold sel in Hb. apply filter_In in Hb. destruct Hb as [Hb Hc].
    apply andb_true_iff in Hc. destruct Hc as [Lb Hc].
    unfold conditions in Hc. rewrite Hp in Hc. simpl in Hc.
    apply andb_true_iff in Hc. destruct Hc as [Hc _]. apply Z.eqb_eq in Hc.
    split; [exact Hb|]. split; [now apply has_label_iff|exact Hc]. }
  split; [|split].
  - rewrite length_map. destruct sel as [|b1 [|b2 sel']] eqn:E; simpl; try lia.
    exfalso. assert (Hnd : NoDup (map identity sel)).
    { unfold sel. apply NoDup_map_filter, W. }
    rewrite E in Hnd. simpl in Hnd. inversion Hnd as [|? ? Hn _]; subst.
    apply Hn. left.
    destruct (Hsel b1) as (_ & _ & I1); [now left|].
    destruct (Hsel b2) as (_ & _ & I2); [right; now left|]. congruence.
  - intros d Hd. apply in_map_iff in Hd. destruct Hd as [b [<- Hb]].
    now apply Hsel.
  - intros Hno. destruct sel as [|b sel'] eqn:E; [reflexivity|]. exfalso.
    destruct (Hsel b) as (Hb & Lb & Ib); [now left|]. now apply (Hno b).
Qed.

End Further.

(* ------------------------------------------------------------------ *)
(** ** What POST creates and answers *)

Lemma in_group_by {K V} (same : K -> K -> bool) (rows : list (K * V)) k vs :
  In (k, vs) (group_by same rows) ->
  In k (map fst rows) /\ vs = map snd (filter (fun r => same k (fst r)) rows).
Proof.
  intros H. split; [eapply group_by_keys; eauto|].
  unfold group_by in H. apply in_map_iff in H. destruct H as [k' [E _]].
  now injection E as -> <-.
Qed.

Lemma same_key_refl k : same_key k k = true.
Proof.
  unfold same_key. rewrite same_node_refl, Nat.eqb_refl. simpl.
  induction (snd k) as [|a l IH]; simpl; [reflexivity|].
  now rewrite same_node_refl.
Qed.

Lemma map_const_repeat {A B} (y : B) (l : list A) :
  map (fun _ => y) l = repeat y (List.length l).
Proof. induction l as [|a l IH]; simpl; [reflexivity|now rewrite IH]. Qed.

(** Two duplicate-free lists of names with the same members have the same
    length. *)
Lemma same_names_length (l : list string) (names : list string) :
  NoDup l -> (forall s, In s l <-> In s names) ->
  List.length l = List.length (nodup string_dec names).
Proof.
  intros Hnd Hin. apply Permutation_length.
  apply NoDup_Permutation; [exact Hnd|apply NoDup_nodup|].
  intros s. rewrite nodup_In. apply Hin.
Qed.

(** The nodes one category of a write statement collects for a book:
    all in the store, one per supplied name. *)
Lemma collected_names g c (found : list node) (names : list string) :
  wf g ->
  (forall x, In x found ->
     In x (nodes g) /\ exists s, In s names /\ props x = named c s) ->
  (forall s, In s names -> exists x, In x found /\ props x = named c s) ->
  NoDup (map name (distinct same_node found))
  /\ forall s, In s (map name (distinct same_node found)) <-> In s names.
Proof.
  intros W Hin Hcov.
  assert (Hl : forall x, In x found -> In x (nodes g) /\ label_of x = far_label c).
  { intros x Hx. destruct (Hin x Hx) as (Hn & s & _ & Hp).
    split; [exact Hn|apply (@label_of_named c s x Hp)]. }
  split; [apply (@distinct_linked_names g c found W Hl)|].
  intros s. rewrite in_map_iff. split.
  - intros [x [<- Hx]]. apply distinct_incl in Hx.
    destruct (Hin x Hx) as (_ & s & Hs & Hp). now rewrite (@name_of_named c s x Hp).
  - intros Hs. destruct (Hcov s Hs) as (x & Hx & Hp). exists x.
    split; [apply (@name_of_named c s x Hp)|].
    apply (@distinct_linked_In g found x W); [|exact Hx].
    intros y Hy. now apply Hl.
Qed.

(** The records of the POST statement: the new book with the nodes of
    its authors and of its genres, one node per name. *)
Lemma POST_query_records uuid t authors genres g g' records :
  wf g -> POST_query uuid t authors genres g = (g', records) ->
  forall b0 found_a found_g, In (b0, found_a, found_g) records ->
    b0 = Node (next_node g) (BookP uuid t)
    /\ NoDup (map name found_a) /\ (forall s, In s (map name found_a) <-> In s authors)
    /\ NoDup (map name found_g) /\ (forall s, In s (map name found_g) <-> In s genres).
Proof.
  intros W H. unfold POST_query in H.
  step H as g1 b1 E1. unfold CREATE_node in E1. injection E1 as <- <-.
  set (b := Node (next_node g) (BookP uuid t)) in *.
  set (g1 := Graph _ _ _ _) in H.
  assert (W1 : wf g1).
  { apply wf_add_node; [exact W|]. intros n _ Hp. unfold label_of. now rewrite Hp. }
  assert (Hb1 : In b (nodes g1)) by (unfold g1; simpl; apply in_snoc; now right).
  assert (Lb : label_of b = Book) by reflexivity.
  step H as g2 rows2 E2. step H as g3 rows3 E3.
  apply ret_inv in H. destruct H as [-> ->].
  assert (Hbooks1 : forall k, In k [b] ->
            In ((fun b => b) k) (nodes g1) /\ label_of ((fun b => b) k) = Book).
  { intros k [<-|[]]. auto. }
  pose proof E2 as S2. apply UNWIND_MERGE_spec in S2; [|assumption..].
  destruct S2 as (W2 & X2 & In2 & Cov2).
  set (rows := map _ (group_by same_node rows2)) in E3.
  assert (Hrows : forall k, In k rows ->
            fst k = b
            /\ NoDup (map name (snd k))
            /\ forall s, In s (map name (snd k)) <-> In s authors).
  { intros k Hk. unfold rows in Hk. apply in_map_iff in Hk.
    destruct Hk as [[b0 found] [<- Hk]]. simpl.
    apply in_group_by in Hk. destruct Hk as [Hk ->].
    apply in_map_iff in Hk. destruct Hk as [[k' x'] [<- Hk]].
    destruct (In2 _ _ Hk) as ([<-|[]] & _). simpl. split; [reflexivity|].
    apply (@collected_names g2 WROTE _ authors W2).
    - intros x Hx. apply in_map_iff in Hx. destruct Hx as [[k x0] [<- Hx]].
      apply filter_In in Hx. destruct Hx as [Hx _].
      destruct (In2 _ _ Hx) as (_ & Hn & Hs & _). auto.
    - intros s Hs. destruct (Cov2 b s (or_introl eq_refl) Hs) as (x & Hx & _ & Hp & _).
      exists x. split; [|exact Hp]. apply in_map_iff. exists (b, x).
      split; [reflexivity|]. apply filter_In. split; [exact Hx|].
      apply same_node_refl. }
  assert (Hbooks2 : forall k, In k rows ->
            In (fst k) (nodes g2) /\ label_of (fst k) = Book).
  { intros k Hk. destruct (Hrows k Hk) as [-> _]. split; [|exact Lb].
    now apply (ext_nodes X2). }
  pose proof E3 as S3. apply UNWIND_MERGE_spec in S3; [|assumption..].
  destruct S3 as (W3 & X3 & In3 & Cov3).
  intros b0 found_a found_g Hrec. apply in_map_iff in Hrec.
  destruct Hrec as [[k found] [E Hk]]. injection E as <- <- <-.
  apply in_group_by in Hk. destruct Hk as [Hk ->].
  apply in_map_iff in Hk. destruct Hk as [[k' x'] [<- Hk]]. simpl.
  destruct (In3 _ _ Hk) as (Hk' & _).
  destruct (Hrows k' Hk') as (Hb0 & Hnd & Hin).
  split; [exact Hb0|]. split; [exact Hnd|]. split; [exact Hin|].
  apply (@collected_names g3 IN_GENRE _ genres W3).
  - intros x Hx. apply in_map_iff in Hx. destruct Hx as [[k x0] [<- Hx]].
    apply filter_In in Hx. destruct Hx as [Hx _].
    destruct (In3 _ _ Hx) as (_ & Hn & Hs & _). auto.
  - intros s Hs. destruct (Cov3 k' s Hk' Hs) as (x & Hx & _ & Hp & _).
    exists x. split; [|exact Hp]. apply in_map_iff. exists (k', x).
    split; [reflexivity|]. apply filter_In. split; [exact Hx|].
    apply same_key_refl.
Qed.

Section Create.

Variable neo4j_int : string -> Z.

(** X4. A successful POST adds one Book node, with a fresh identity, the
    generated [bookId] and the title; it keeps every node and every
    relationship of the store as it was, adds no other book, and every
    relationship it adds is at the new book.  Its answer carries that
    identity, [bookId] and title, and in [authors] and [genres] one
    [undefined] per distinct supplied name (the names themselves are not
    returned). *)
Theorem POST_creates_one_book uuid body t authors genres g resp g' :
  wf g -> carries body t authors genres ->
  POST uuid body g = Some (resp, g') -> success resp = true ->
  resp = Response 200 true
           (Data_created
              (CreatedData (next_node g) uuid t
                 (repeat None (List.length (nodup string_dec authors)))
                 (repeat None (List.length (nodup string_dec genres)))))
  /\ (forall n, In n (nodes g) -> identity n <> next_node g)
  /\ In (Node (next_node g) (BookP uuid t)) (nodes g')
  /\ incl (nodes g) (nodes g') /\ incl (rels g) (rels g')
  /\ (forall n, In n (nodes g') -> label_of n = Book ->
                n = Node (next_node g) (BookP uuid t) \/ In n (nodes g))
  /\ (forall r, In r (rels g') ->
                In r (rels g) \/ book_end (rtype r) r = next_node g).
Proof.
  intros W Hc H Hs.
  destruct (@POST_success_inv _ _ _ _ _ _ _ _ W Hc H Hs) as (Ha & Hg & records & E).
  pose proof (POST_query_records _ _ _ _ W E) as Hrec.
  rewrite (@POST_carries uuid body t authors genres g Hc Ha Hg), E in H.
  apply POST_query_spec in E; [|exact W].
  destruct E as (_ & Hb & Nincl & Rincl & Hnodes & Hrels & _).
  split.
  { destruct records as [|[[b0 fa] fg] records].
    - injection H as <-. discriminate.
    - injection H as <-.
      destruct (Hrec b0 fa fg (or_introl eq_refl)) as (-> & NA & IA & NG & IG).
      simpl. rewrite !map_const_repeat.
      rewrite <- (@same_names_length _ authors NA IA),
        <- (@same_names_length _ genres NG IG).
      now rewrite !length_map. }
  split.
  { intros n Hn. pose proof (wf_next_node W n Hn). lia. }
  split; [exact Hb|]. split; [exact Nincl|]. split; [exact Rincl|]. split.
  - intros n Hn Ln. destruct (Hnodes n Hn) as [->|[Hold|(c & s & _ & Hp)]]; auto.
    exfalso. now apply (@named_not_Book c s n Hp).
  - intros r Hr. destruct (Hrels r Hr) as [Hold|(_ & x & s & _ & _ & _ & _ & Hbe & _)];
      [now left|right; exact Hbe].
Qed.

(** X5. Fetching a book by its id right after its creation returns one
    entry, with the title, the generated [bookId] and exactly the
    supplied author and genre names, each once. *)
Theorem POST_then_GET uuid body t authors genres g resp g' idParam :
  wf g -> carries body t authors genres ->
  POST uuid body g = Some (resp, g') -> success resp = true ->
  present idParam = true -> neo4j_int (param idParam) = next_node g ->
  exists d,
    GET neo4j_int (SearchParams idParam None None [] []) g'
    = Response 200 true (Data_list [d])
    /\ data_id d = next_node g /\ data_bookId d = uuid /\ data_title d = t
    /\ NoDup (data_authors d) /\ (forall s, In s (data_authors d) <-> In s authors)
    /\ NoDup (data_genres d) /\ (forall s, In s (data_genres d) <-> In s genres).
Proof.
  intros W Hc H Hs Hp Hid.
  destruct (@POST_success_inv _ _ _ _ _ _ _ _ W Hc H Hs) as (Ha & Hg & records & E).
  apply POST_query_spec in E; [|exact W].
  destruct E as (W' & Hb & _ & _ & _ & Hrels & CovA & CovG & _).
  set (b := Node (next_node g) (BookP uuid t)) in *.
  exists (book_view g' b).
  destruct (book_view_names b W') as (NA & NG & IA & IG).
  assert (Hview : forall c s,
            (exists a, linked g' c (identity b) a /\ name a = s)
            <-> In s (names_of c authors genres)).
  { intros c s. split.
    - intros (a & (Hain & La & r & Hr & Tr & Hbe & Hfe) & <-).
      destruct (Hrels r Hr) as [Hold|(_ & x & s' & Hx & Hs' & Hpx & Hl)].
      + exfalso.
        destruct (wf_typed W r Hold) as (b0 & x0 & Hb0 & _ & _ & _ & _ & Eb & _).
        rewrite Tr, Hbe in Eb. pose proof (wf_next_node W b0 Hb0). simpl in Eb. lia.
      + rewrite Tr in *. destruct Hl as (_ & _ & Hf).
        assert (a = x) by (apply (@wf_same_id g' a x W' Hain Hx); congruence).
        subst a. now rewrite (@name_of_named c s' x Hpx).
    - intros Hin.
      assert (Cov : exists x r, In x (nodes g') /\ props x = named c s
                      /\ In r (rels g') /\ links_book c r b x).
      { destruct c; simpl in Hin; [apply CovA|apply CovG]; auto. }
      destruct Cov as (x & r & Hx & Hpx & Hr & Tr & Hbe & Hfe).
      exists x. split; [|apply (@name_of_named c s x Hpx)].
      split; [exact Hx|]. split; [apply (@label_of_named c s x Hpx)|].
      exists r. repeat split; auto. }
  split.
  { rewrite (GET_data _ _ W'). unfold conditions. simpl. rewrite Hp. simpl.
    pose proof (@MATCH_by_id_found (next_node g) g' b W' Hb eq_refl eq_refl) as M.
    unfold MATCH_books, read, where_holds in M. injection M as M.
    rewrite Hid. now rewrite M. }
  split; [reflexivity|]. split; [reflexivity|]. split; [reflexivity|].
  split; [exact NA|]. split; [intros s; rewrite IA; apply (Hview WROTE)|].
  split; [exact NG|]. intros s. rewrite IG. apply (Hview IN_GENRE).
Qed.

End Create.

(* ------------------------------------------------------------------ *)
(** ** What a write leaves alone *)

(** The authors and genres of the books other than the one with
    identity [id] are the same in [g'] as in [g] when [g'] keeps the
    Author and Genre nodes and the relationships away from [id], and its
    other relationships are all at [id]. *)
Lemma linked_frame g g' id :
  wf g -> wf g' ->
  (forall n, In n (nodes g) -> label_of n <> Book -> In n (nodes g')) ->
  (forall r, In r (rels g) -> book_end (rtype r) r <> id -> In r (rels g')) ->
  (forall r, In r (rels g') -> In r (rels g) \/ book_end (rtype r) r = id) ->
  forall i c a, i <> id -> (linked g' c i a <-> linked g c i a).
Proof.
  intros W W' Hkeep Hold Hnew i c a Hi. unfold linked. split.
  - intros (Ha & La & r & Hr & Tr & Hbe & Hfe).
    assert (Hr0 : In r (rels g)).
    { destruct (Hnew r Hr) as [H|H]; [exact H|]. rewrite Tr in H. congruence. }
    destruct (wf_typed W r Hr0) as (b0 & x & _ & Hx & _ & Lx & _ & _ & Ex).
    rewrite Tr in Lx, Ex.
    assert (Hx' : In x (nodes g')).
    { apply Hkeep; [exact Hx|]. rewrite Lx. apply far_label_not_Book. }
    assert (a = x) by (apply (@wf_same_id g' a x W' Ha Hx'); congruence).
    subst a. split; [exact Hx|]. split; [exact La|]. exists r. auto.
  - intros (Ha & La & r & Hr & Tr & Hbe & Hfe). split.
    { apply Hkeep; [exact Ha|]. rewrite La. apply far_label_not_Book. }
    split; [exact La|]. exists r. split; [|auto].
    apply Hold; [exact Hr|]. rewrite Tr. congruence.
Qed.

Lemma with_title_bookId t b : bookId (with_title t b) = bookId b.
Proof.
  unfold with_title, bookId. destruct (props b) eqn:E; simpl; rewrite ?E; reflexivity.
Qed.

Section Frame.

Variable neo4j_int : string -> Z.

(** A PUT that answers either left the store alone or ran its statement
    on string parameters. *)
Lemma PUT_cases idParam body g resp g' :
  PUT neo4j_int idParam body g = Some (resp, g') ->
  g' = g
  \/ exists t authors genres records,
       PUT_query (neo4j_int (param idParam)) t authors genres g = (g', records).
Proof.
  unfold PUT. destruct (present idParam); simpl.
  2:{ intros H. injection H as _ <-. now left. }
  destruct (PUT_validate body) as [[[vt va] vg]|e].
  2:{ intros H. injection H as _ <-. now left. }
  destruct (as_string vt) as [t|]; [|discriminate].
  destruct (as_strings (items_of va)) as [authors|]; [|discriminate].
  destruct (as_strings (items_of vg)) as [genres|]; [|discriminate].
  destruct (PUT_query _ t authors genres g) as [g1 records] eqn:E.
  intros H. right. exists t, authors, genres, records.
  destruct records as [|[[b0 a0] ge0] records]; injection H as _ <-; exact E.
Qed.

(** X6. Whatever a PUT answers, it touches one book only: every other
    book is still in the store with the same authors and genres, no book
    is created or removed, and the target keeps its [bookId]. *)
Theorem PUT_touches_one_book idParam body g resp g' :
  wf g -> PUT neo4j_int idParam body g = Some (resp, g') ->
  (forall b0, In b0 (nodes g) -> label_of b0 = Book ->
              identity b0 <> neo4j_int (param idParam) ->
     In b0 (nodes g')
     /\ forall c a, linked g' c (identity b0) a <-> linked g c (identity b0) a)
  /\ (forall b, In b (nodes g) -> label_of b = Book ->
        exists b', In b' (nodes g') /\ label_of b' = Book
                   /\ identity b' = identity b /\ bookId b' = bookId b)
  /\ (forall b', In b' (nodes g') -> label_of b' = Book ->
        exists b, In b (nodes g) /\ label_of b = Book /\ identity b = identity b').
Proof.
  intros W H.
  assert (Same : g' = g ->
    (forall b0, In b0 (nodes g) -> label_of b0 = Book ->
                identity b0 <> neo4j_int (param idParam) ->
       In b0 (nodes g')
       /\ forall c a, linked g' c (identity b0) a <-> linked g c (identity b0) a)
    /\ (forall b, In b (nodes g) -> label_of b = Book ->
          exists b', In b' (nodes g') /\ label_of b' = Book
                     /\ identity b' = identity b /\ bookId b' = bookId b)
    /\ (forall b', In b' (nodes g') -> label_of b' = Book ->
          exists b, In b (nodes g) /\ label_of b = Book /\ identity b = identity b')).
  { intros ->. split; [|split].
    - intros b0 Hb0 _ _. split; [exact Hb0|]. intros c a. reflexivity.
    - intros b Hb Lb. exists b. auto.
    - intros b Hb Lb. exists b. auto. }
  destruct (@PUT_cases _ _ _ _ _ H) as [E|(t & authors & genres & records & E)]; [auto|].
  set (id := neo4j_int (param idParam)) in *.
  destruct (book_dec id g) as [(b & Hb & Lb & Ib)|Hno].
  2:{ rewrite PUT_query_missing in E by exact Hno. injection E as <- _. auto. }
  destruct (@PUT_query_found _ _ _ _ _ _ _ _ W Hb Lb Ib E)
    as (W' & Hb' & _ & Hkeep & Hnodes & Hold & Hrels & _).
  assert (K : forall n, In n (nodes g) -> label_of n <> Book -> In n (nodes g')).
  { intros x Hx Lx. apply Hkeep; [exact Hx|]. intros Ex. apply Lx.
    rewrite <- Ib in Ex. now rewrite (@wf_same_id g x b W Hx Hb Ex). }
  assert (Hnew : forall r, In r (rels g') ->
            In r (rels g) \/ book_end (rtype r) r = id).
  { intros r Hr. destruct (Hrels r Hr) as [[Hr0 _]|(_ & x & s & _ & _ & _ & _ & Hbe & _)];
      [now left|right]. now rewrite Hbe, with_title_identity. }
  split; [|split].
  - intros b0 Hb0 Lb0 Ib0. split; [now apply Hkeep|].
    intros c a. now apply (@linked_frame g g' id W W' K Hold Hnew).
  - intros b1 Hb1 Lb1. destruct (Z.eq_dec (identity b1) id) as [E1|E1].
    + assert (b1 = b) by (apply (@wf_same_id g b1 b W Hb1 Hb); congruence).
      subst b1. exists (with_title t b).
      rewrite with_title_label, with_title_identity, with_title_bookId. auto.
    + exists b1. split; [now apply Hkeep|auto].
  - intros b1 Hb1 Lb1. destruct (Hnodes b1 Hb1) as [->|[[H0 _]|(c & s & _ & Hp)]].
    + exists b. rewrite with_title_identity. auto.
    + exists b1. auto.
    + exfalso. now apply (@named_not_Book c s b1 Hp).
Qed.

(** X8. After the DELETE of an existing book, no search lists it, a
    second DELETE with the same id answers [deletedCount] 0 and changes
    nothing, every other book is still there with the same authors and
    genres, and the Author and Genre nodes are all kept, also those the
    deleted book alone was joined to. *)
Theorem DELETE_then id g resp g' b :
  wf g -> present id = true ->
  In b (nodes g) -> label_of b = Book -> identity b = neo4j_int (param id) ->
  DELETE neo4j_int id g = (resp, g') ->
  DELETE neo4j_int id g' = (Response 200 true (DeletedCount 0), g')
  /\ (forall q, exists data,
        GET neo4j_int q g' = Response 200 true (Data_list data)
        /\ forall d, In d data -> data_id d <> identity b)
  /\ (forall b0, In b0 (nodes g) -> label_of b0 = Book -> identity b0 <> identity b ->
        In b0 (nodes g')
        /\ forall c a, linked g' c (identity b0) a <-> linked g c (identity b0) a)
  /\ (forall n, In n (nodes g) -> label_of n <> Book -> In n (nodes g')).
Proof.
  intros W Hp Hb Lb Ib H. unfold DELETE in H. rewrite Hp in H. simpl in H.
  rewrite (@DELETE_query_found _ g b W Hb Lb Ib) in H. injection H as _ <-.
  set (g' := Graph _ _ _ _).
  assert (W' : wf g') by now apply wf_detach_delete.
  assert (Hn : forall n, In n (nodes g') <-> In n (nodes g) /\ identity n <> identity b).
  { intros n. unfold g'. simpl. rewrite filter_In. unfold same_node.
    now rewrite negb_true_iff, Z.eqb_neq. }
  assert (Hr : forall r, In r (rels g') <->
                 In r (rels g) /\ rstart r <> identity b /\ rend r <> identity b).
  { intros r. unfold g'. simpl.
    now rewrite filter_In, negb_true_iff, orb_false_iff, !Z.eqb_neq. }
  assert (K : forall n, In n (nodes g) -> label_of n <> Book -> In n (nodes g')).
  { intros n Hin Ln. apply Hn. split; [exact Hin|]. intros E. apply Ln.
    now rewrite (@wf_same_id g n b W Hin Hb E). }
  split; [|split; [|split]].
  - unfold DELETE. rewrite Hp. simpl. rewrite DELETE_query_missing; [reflexivity|].
    intros b0 Hb0 _ E. apply Hn in Hb0. destruct Hb0 as [_ Hb0]. congruence.
  - intros q. eexists. split; [apply (GET_data _ q W')|].
    intros d Hd. apply in_map_iff in Hd. destruct Hd as [b0 [<- Hb0]].
    apply filter_In in Hb0. destruct Hb0 as [Hb0 _]. apply Hn in Hb0. apply Hb0.
  - intros b0 Hb0 Lb0 Ib0. split; [apply Hn; auto|]. intros c a.
    apply (@linked_frame g g' (identity b) W W' K); auto.
    + intros r Hin Hbe. apply Hr.
      destruct (wf_typed W r Hin) as (b1 & x & _ & Hx & _ & Lx & _ & Eb & Ex).
      assert (Hfar : far_end (rtype r) r <> identity b).
      { intros E. rewrite Ex in E.
        pose proof (@wf_same_id g x b W Hx Hb E) as ->.
        rewrite Lb in Lx. symmetry in Lx. now apply far_label_not_Book in Lx. }
      destruct (rtype r); simpl in *; auto.
    + intros r Hin. left. now apply Hr.
  - exact K.
Qed.

End Frame.

(* ------------------------------------------------------------------ *)
(** ** What PUT answers *)

Lemma distinct_names_NoDup (l : list string) : NoDup (distinct String.eqb l).
Proof.
  rewrite <- (map_id (distinct String.eqb l)).
  apply (distinct_NoDup String.eqb (fun s => s)). intros x y. apply String.eqb_eq.
Qed.

Lemma distinct_names_In (l : list string) (s : string) :
  In s (distinct String.eqb l) <-> In s l.
Proof.
  split; [apply distinct_incl|]. intros H.
  destruct (distinct_cover String.eqb (fun s => s)
              (fun x y => String.eqb_eq x y) _ _ H) as [y [Hy E]].
  apply String.eqb_eq in E. now subst.
Qed.

Lemma OPTIONAL_MATCH_links_combinations (rows : list node) (g : graph) :
  OPTIONAL_MATCH_links rows g
  = (g, flat_map (fun b => map (pair b) (combinations g b)) rows).
Proof.
  rewrite OPTIONAL_MATCH_links_rows. f_equal. apply flat_map_ext. intros b.
  unfold combinations.
  induction (map (option_map snd) (optional (links WROTE b g))) as [|a l IH];
    simpl; [reflexivity|].
  now rewrite map_app, IH, map_map.
Qed.

Lemma collect_fst_In {A B} (vs : list (option A * option B)) (x : A) :
  In x (collect_fst vs) <-> exists o, In (Some x, o) vs.
Proof.
  unfold collect_fst. rewrite non_null_In, in_map_iff. split.
  - intros [[a o] [E H]]. simpl in E. subst a. eauto.
  - intros [o H]. now exists (Some x, o).
Qed.

Lemma collect_snd_In {A B} (vs : list (option A * option B)) (x : B) :
  In x (collect_snd vs) <-> exists o, In (o, Some x) vs.
Proof.
  unfold collect_snd. rewrite non_null_In, in_map_iff. split.
  - intros [[o a] [E H]]. simpl in E. subst a. eauto.
  - intros [o H]. now exists (o, Some x).
Qed.

(** The records of the PUT statement for an existing book: the book with
    its new title and the names of the nodes it is then joined to, each
    once. *)
Lemma PUT_query_records id t authors genres g g' records b :
  wf g -> In b (nodes g) -> label_of b = Book -> identity b = id ->
  PUT_query id t authors genres g = (g', records) ->
  forall b0 names_a names_g, In (b0, names_a, names_g) records ->
    b0 = with_title t b /\ NoDup names_a /\ NoDup names_g
    /\ (forall s, In s names_a <-> exists a, linked g' WROTE id a /\ name a = s)
    /\ (forall s, In s names_g <-> exists x, linked g' IN_GENRE id x /\ name x = s).
Proof.
  intros W Hb Lb Hid H. unfold PUT_query in H.
  step H as g0 rows0 E0. rewrite (@MATCH_by_id_found id g b W Hb Lb Hid) in E0.
  injection E0 as <- <-.
  step H as g1 rows1 E1. rewrite SET_title_rows in E1. injection E1 as <- <-.
  set (b' := with_title t b) in *.
  set (g1 := Graph _ _ _ _) in H.
  assert (W1 : wf g1) by now apply wf_set_title.
  assert (Hb1 : In b' (nodes g1)).
  { unfold g1, b'. simpl. rewrite <- retitle_self. now apply in_map. }
  assert (Lb' : label_of b' = Book) by (unfold b'; now rewrite with_title_label).
  assert (Ib' : identity b' = id) by (unfold b'; now rewrite with_title_identity).
  step H as g2 rows2 E2. step H as g3 rows3 E3.
  step H as g4 rows4 E4. step H as g5 rows5 E5.
  step H as g6 rows6 E6. apply ret_inv in H. destruct H as [-> ->].
  destruct (@DETACH_spec _ _ _ _ _ W1 E2) as (W2 & N2 & _ & _ & _ & _ & _ & R2).
  destruct (@DETACH_spec _ _ _ _ _ W2 E3) as (W3 & N3 & _ & _ & _ & _ & _ & R3).
  assert (Hrows3 : forall k, In k rows3 <-> k = b').
  { intros k. rewrite R3, R2. simpl. intuition. }
  assert (Hbooks3 : forall k, In k rows3 ->
                      In ((fun b => b) k) (nodes g3) /\ label_of ((fun b => b) k) = Book).
  { intros k Hk. apply Hrows3 in Hk. subst k. rewrite N3, N2. auto. }
  pose proof E4 as S4. apply UNWIND_MERGE_spec in S4; [|assumption..].
  destruct S4 as (W4 & X4 & In4 & _).
  assert (Hrows4 : forall k, In k (map fst rows4) -> k = b').
  { intros k Hk. apply in_map_iff in Hk. destruct Hk as [[k' x] [<- Hk]].
    apply In4 in Hk. now apply Hrows3. }
  assert (Hbooks4 : forall k, In k (map fst rows4) ->
                      In ((fun b => b) k) (nodes g4) /\ label_of ((fun b => b) k) = Book).
  { intros k Hk. apply Hrows4 in Hk. subst k. split; [|exact Lb'].
    apply (ext_nodes X4). rewrite N3, N2. exact Hb1. }
  pose proof E5 as S5. apply UNWIND_MERGE_spec in S5; [|assumption..].
  destruct S5 as (W5 & _ & In5 & _).
  assert (Hrows5 : forall k, In k (map fst rows5) -> k = b').
  { intros k Hk. apply in_map_iff in Hk. destruct Hk as [[k' x] [<- Hk]].
    apply In5 in Hk. now apply Hrows4. }
  rewrite OPTIONAL_MATCH_links_combinations in E6. injection E6 as <- <-.
  set (rows := map fst rows5) in *.
  assert (Hrows6 : forall b1 v,
            In (b1, v) (flat_map (fun b => map (pair b) (combinations g5 b)) rows)
            <-> In b1 rows /\ In v (combinations g5 b1)).
  { intros b1 v. rewrite in_flat_map. split.
    - intros [b2 [Hb2 Hv]]. apply in_map_iff in Hv. destruct Hv as [v' [E Hv]].
      injection E as -> ->. auto.
    - intros [Hb1' Hv]. exists b1. split; [exact Hb1'|]. now apply in_map. }
  intros b0 names_a names_g Hrec. apply in_map_iff in Hrec.
  destruct Hrec as [[k vs] [E Hk]]. injection E as <- <- <-.
  apply in_group_by in Hk. destruct Hk as [Hk Hvs].
  apply in_map_iff in Hk. destruct Hk as [[k0 v0] [Ek Hk]]. simpl in Ek. subst k0.
  apply Hrows6 in Hk. destruct Hk as [Hk _].
  pose proof (Hrows5 k Hk) as ->.
  assert (Hin : forall v, In v vs <-> In v (combinations g5 b')).
  { intros v. rewrite Hvs, in_map_iff. split.
    - intros [[b1 v1] [Ev Hv]]. simpl in Ev. subst v1. apply filter_In in Hv.
      destruct Hv as [Hv _]. apply Hrows6 in Hv. destruct Hv as [Hb1' Hv].
      now rewrite <- (Hrows5 b1 Hb1').
    - intros Hv. exists (b', v). split; [reflexivity|]. apply filter_In.
      split; [now apply Hrows6|]. apply same_node_refl. }
  split; [reflexivity|].
  split; [apply distinct_names_NoDup|]. split; [apply distinct_names_NoDup|].
  rewrite <- Ib'. split.
  - intros s. rewrite distinct_names_In, in_map_iff. split.
    + intros [a [<- Ha]]. exists a. split; [|reflexivity].
      apply in_links_linked, collect_fst_combinations, collect_fst_In.
      apply collect_fst_In in Ha. destruct Ha as [o Ho]. exists o. now apply Hin.
    + intros [a [Ha <-]]. exists a. split; [reflexivity|].
      apply in_links_linked, collect_fst_combinations, collect_fst_In in Ha.
      destruct Ha as [o Ho]. apply collect_fst_In. exists o. now apply Hin.
  - intros s. rewrite distinct_names_In, in_map_iff. split.
    + intros [a [<- Ha]]. exists a. split; [|reflexivity].
      apply in_links_linked, collect_snd_combinations, collect_snd_In.
      apply collect_snd_In in Ha. destruct Ha as [o Ho]. exists o. now apply Hin.
    + intros [a [Ha <-]]. exists a. split; [reflexivity|].
      apply in_links_linked, collect_snd_combinations, collect_snd_In in Ha.
      destruct Ha as [o Ho]. apply collect_snd_In. exists o. now apply Hin.
Qed.

(** After the PUT statement has run for an existing book with a
    non-empty authors list, the book is joined to exactly the supplied
    names. *)
Lemma PUT_query_view id t authors genres g g' records b :
  wf g -> In b (nodes g) -> label_of b = Book -> identity b = id ->
  PUT_query id t authors genres g = (g', records) -> authors <> [] ->
  forall c s, (exists a, linked g' c id a /\ name a = s)
              <-> In s (names_of c authors genres).
Proof.
  intros W Hb Lb Ib E Ha.
  destruct (@PUT_query_found _ _ _ _ _ _ _ _ W Hb Lb Ib E)
    as (W' & Hb' & _ & _ & _ & _ & Hrels & CovA & CovG).
  intros c s. split.
  - intros (a & (Hain & La & r & Hr & Tr & Hbe & Hfe) & <-).
    destruct (Hrels r Hr) as [[_ Hne]|(_ & x & s' & Hx & Hs' & Hpx & Hl)].
    + rewrite Tr in Hne. contradiction.
    + rewrite Tr in *. destruct Hl as (_ & _ & Hf).
      assert (a = x) by (apply (@wf_same_id g' a x W' Hain Hx); congruence).
      subst a. now rewrite (@name_of_named c s' x Hpx).
  - intros Hin.
    assert (Cov : exists x r, In x (nodes g') /\ props x = named c s
                    /\ In r (rels g') /\ links_book c r (with_title t b) x).
    { destruct c; simpl in Hin; [apply CovA|apply CovG]; auto. }
    destruct Cov as (x & r & Hx & Hpx & Hr & Tr & Hbe & Hfe).
    exists x. split; [|apply (@name_of_named c s x Hpx)].
    split; [exact Hx|]. split; [apply (@label_of_named c s x Hpx)|].
    exists r. rewrite with_title_identity in Hbe. repeat split; auto; congruence.
Qed.

Section Answer.

Variable neo4j_int : string -> Z.

(** X7. The answer of a successful PUT describes the book as the store
    now holds it: its identity and unchanged [bookId], the new title, and
    the supplied author and genre names, each once. *)
Theorem PUT_answers_with_the_new_state idParam body t authors genres g resp g' :
  wf g -> carries body t authors genres ->
  PUT neo4j_int idParam body g = Some (resp, g') -> success resp = true ->
  exists b names_a names_g,
    In b (nodes g) /\ label_of b = Book
    /\ identity b = neo4j_int (param idParam)
    /\ resp = Response 200 true
                (Data_book (BookData (identity b) (bookId b) t names_a names_g))
    /\ NoDup names_a /\ (forall s, In s names_a <-> In s authors)
    /\ NoDup names_g /\ (forall s, In s names_g <-> In s genres).
Proof.
  intros W Hc H Hs.
  destruct (@PUT_success_inv _ _ _ _ _ _ _ _ _ W Hc H Hs)
    as (Hp & Ha & Hg & b & records & Hb & Lb & Ib & E).
  rewrite (@PUT_carries neo4j_int idParam body t authors genres g Hp Hc), E in H.
  pose proof (@PUT_query_records _ _ _ _ _ _ _ _ W Hb Lb Ib E) as Hrec.
  pose proof (@PUT_query_view _ _ _ _ _ _ _ _ W Hb Lb Ib E Ha) as Hview.
  destruct records as [|[[b0 na] ng] records].
  { injection H as <-. discriminate. }
  injection H as <-.
  destruct (Hrec b0 na ng (or_introl eq_refl)) as (-> & NA & NG & IA & IG).
  exists b, na, ng. split; [exact Hb|]. split; [exact Lb|]. split; [exact Ib|].
  split.
  { rewrite with_title_identity, with_title_bookId, (@with_title_title t b Lb).
    reflexivity. }
  split; [exact NA|]. split; [intros s; rewrite IA; apply (Hview WROTE)|].
  split; [exact NG|]. intros s. rewrite IG. apply (Hview IN_GENRE).
Qed.

End Answer.

(* ------------------------------------------------------------------ *)
(** ** The fields of the page: [trim], [split] and the parsed names *)

Section Fields.

Import BooksPage.

Lemma after_Some w l r : after w l = Some r <-> l = w ++ r.
Proof.
  revert l. induction w as [|c w IH]; intros l; simpl.
  - split; congruence.
  - destruct l as [|d l]; [split; discriminate|].
    destruct (Ascii.eqb_spec c d) as [->|Hne].
    + rewrite IH. split; congruence.
    + split; [discriminate|]. intros E. injection E as E _. congruence.
Qed.

Lemma strip_one_Some tokens l r :
  strip_one tokens l = Some r -> exists w, In w tokens /\ l = w ++ r.
Proof.
  induction tokens as [|w tokens IH]; simpl; [discriminate|].
  destruct (after w l) as [r'|] eqn:E.
  - intros [= ->]. apply after_Some in E. eauto.
  - intros H. destruct (IH H) as [w' [Hw' El]]. eauto.
Qed.

Lemma strip_one_None tokens l :
  strip_one tokens l = None -> forall w r, In w tokens -> l <> w ++ r.
Proof.
  induction tokens as [|w tokens IH]; simpl; [contradiction|].
  destruct (after w l) as [r'|] eqn:E; [discriminate|].
  intros H w' r [<-|Hw'] El.
  - apply after_Some in El. congruence.
  - eapply IH; eauto.
Qed.

Lemma strip_one_prefix tokens l post :
  strip_one tokens (l ++ post) = None -> strip_one tokens l = None.
Proof.
  intros H. destruct (strip_one tokens l) as [r|] eqn:E; [|reflexivity].
  apply strip_one_Some in E. destruct E as [w [Hw ->]].
  exfalso. eapply strip_one_None; [exact H|exact Hw|]. now rewrite <- app_assoc.
Qed.

Lemma strip_suffix fuel tokens l : exists pre, l = pre ++ strip fuel tokens l.
Proof.
  revert l. induction fuel as [|fuel IH]; intros l; simpl; [now exists []|].
  destruct (strip_one tokens l) as [r|] eqn:E; [|now exists []].
  apply strip_one_Some in E. destruct E as [w [_ ->]].
  destruct (IH r) as [pre Hpre]. exists (w ++ pre).
  now rewrite <- app_assoc, <- Hpre.
Qed.

Lemma strip_fixed fuel tokens l :
  strip_one tokens l = None -> strip fuel tokens l = l.
Proof. intros H. destruct fuel; simpl; [reflexivity|now rewrite H]. Qed.

Lemma strip_done fuel tokens l :
  ~ In [] tokens -> (List.length l <= fuel)%nat ->
  strip_one tokens (strip fuel tokens l) = None.
Proof.
  intros Hne. revert l. induction fuel as [|fuel IH]; intros l Hl; simpl.
  - destruct l; [|simpl in Hl; lia].
    destruct (strip_one tokens []) as [r|] eqn:E; [|reflexivity].
    apply strip_one_Some in E. destruct E as [w [Hw Ew]].
    symmetry in Ew. apply app_eq_nil in Ew. destruct Ew as [-> _]. contradiction.
  - destruct (strip_one tokens l) as [r|] eqn:E; [|exact E].
    apply IH. apply strip_one_Some in E. destruct E as [w [Hw ->]].
    rewrite length_app in Hl. destruct w; [contradiction|]. simpl in Hl. lia.
Qed.

Lemma white_space_tokens : ~ In [] white_space.
Proof. unfold white_space. simpl. intuition discriminate. Qed.

Lemma white_space_rev_tokens : ~ In [] (map (@rev ascii) white_space).
Proof. unfold white_space. simpl. intuition discriminate. Qed.

(** No white space at the start, none at the end. *)
Definition no_lead (l : list ascii) : Prop := strip_one white_space l = None.
Definition no_trail (l : list ascii) : Prop :=
  strip_one (map (@rev ascii) white_space) (rev l) = None.

Lemma trimStart_no_lead l : no_lead (trimStart l).
Proof. apply strip_done; [apply white_space_tokens|lia]. Qed.

Lemma trimEnd_no_trail l : no_trail (trimEnd l).
Proof.
  unfold no_trail, trimEnd. rewrite rev_involutive.
  apply strip_done; [apply white_space_rev_tokens|]. rewrite length_rev. lia.
Qed.

Lemma trimStart_suffix l : exists pre, l = pre ++ trimStart l.
Proof. apply strip_suffix. Qed.

Lemma trimEnd_prefix l : exists post, l = trimEnd l ++ post.
Proof.
  unfold trimEnd.
  destruct (strip_suffix (List.length l) (map (@rev ascii) white_space) (rev l))
    as [pre H].
  exists (rev pre). rewrite <- rev_app_distr, <- H. now rewrite rev_involutive.
Qed.

Lemma trimStart_fixed l : no_lead l -> trimStart l = l.
Proof. apply strip_fixed. Qed.

Lemma trimEnd_fixed l : no_trail l -> trimEnd l = l.
Proof.
  intros H. unfold trimEnd. rewrite strip_fixed by exact H. apply rev_involutive.
Qed.

Lemma trimEnd_no_lead l : no_lead l -> no_lead (trimEnd l).
Proof.
  intros H. destruct (trimEnd_prefix l) as [post E]. unfold no_lead in *.
  rewrite E in H. eapply strip_one_prefix, H.
Qed.

Lemma trim_chars s :
  list_ascii_of_string (trim s) = trimEnd (trimStart (list_ascii_of_string s)).
Proof. apply list_ascii_of_string_of_list_ascii. Qed.

(** [trim] leaves a trimmed string as it is. *)
Lemma trim_trim s : trim (trim s) = trim s.
Proof.
  unfold trim at 1. rewrite trim_chars.
  rewrite trimStart_fixed by apply trimEnd_no_lead, trimStart_no_lead.
  rewrite trimEnd_fixed by apply trimEnd_no_trail. reflexivity.
Qed.

(** [trim] only drops characters. *)
Lemma trim_In s c :
  In c (list_ascii_of_string (trim s)) -> In c (list_ascii_of_string s).
Proof.
  rewrite trim_chars. intros H.
  destruct (trimStart_suffix (list_ascii_of_string s)) as [pre E].
  destruct (trimEnd_prefix (trimStart (list_ascii_of_string s))) as [post E'].
  rewrite E, E'. rewrite !in_app_iff. auto.
Qed.

Lemma trim_space s : trim (String " " s) = trim s.
Proof. reflexivity. Qed.

Lemma split_not_nil c s : split c s <> [].
Proof.
  destruct s as [|d s]; simpl; [discriminate|].
  destruct (Ascii.eqb d c); [discriminate|]. now destruct (split c s).
Qed.

Lemma split_app c x y : split c (x ++ String c y) = split c x ++ split c y.
Proof.
  induction x as [|d x IH]; simpl.
  - now rewrite Ascii.eqb_refl.
  - destruct (Ascii.eqb d c); [now rewrite IH|].
    rewrite IH. destruct (split c x) eqn:E; [|reflexivity].
    now destruct (split_not_nil c x).
Qed.

Lemma split_free c s : ~ In c (list_ascii_of_string s) -> split c s = [s].
Proof.
  induction s as [|d s IH]; simpl; [reflexivity|]. intros H.
  destruct (Ascii.eqb_spec d c) as [->|Hne]; [tauto|].
  rewrite IH by tauto. reflexivity.
Qed.

Lemma split_pieces c s p :
  In p (split c s) -> ~ In c (list_ascii_of_string p).
Proof.
  revert p. induction s as [|d s IH]; simpl; intros p.
  - intros [<-|[]]. simpl. tauto.
  - destruct (Ascii.eqb_spec d c) as [->|Hne].
    + intros [<-|H]; [simpl; tauto|now apply IH].
    + destruct (split c s) as [|q qs].
      * intros [<-|[]]. simpl. intuition.
      * intros [<-|H]; [|apply IH; now right].
        simpl. intros [E|E]; [congruence|]. apply (IH q); [now left|exact E].
Qed.

Lemma names_app x y : names (x ++ String "," y) = names x ++ names y.
Proof. unfold names. now rewrite split_app, map_app, filter_app. Qed.

Lemma names_space s : names (String " " s) = names s.
Proof.
  unfold names. simpl. destruct (split "," s) as [|p ps] eqn:E.
  - now destruct (split_not_nil "," s).
  - reflexivity.
Qed.

Lemma names_empty : names "" = [].
Proof. reflexivity. Qed.

(** What [trim] drops belongs to a white space character. *)
Lemma strip_In fuel tokens l c :
  In c l -> In c (strip fuel tokens l) \/ exists w, In w tokens /\ In c w.
Proof.
  revert l. induction fuel as [|fuel IH]; intros l H; simpl; [now left|].
  destruct (strip_one tokens l) as [r|] eqn:E; [|now left].
  apply strip_one_Some in E. destruct E as [w [Hw ->]].
  apply in_app_iff in H. destruct H as [H|H]; [right; eauto|now apply IH].
Qed.

Lemma comma_not_white_space w : In w white_space -> ~ In ","%char w.
Proof.
  unfold white_space. simpl.
  intros H; repeat (destruct H as [<-|H]; [simpl; intuition discriminate|]).
  contradiction.
Qed.

Lemma trim_keeps_comma s :
  In ","%char (list_ascii_of_string s) ->
  In ","%char (list_ascii_of_string (trim s)).
Proof.
  rewrite trim_chars. intros H.
  apply (strip_In (List.length (list_ascii_of_string s)) white_space) in H.
  destruct H as [H|[w [Hw Hc]]]; [|now destruct (comma_not_white_space Hw)].
  fold (trimStart (list_ascii_of_string s)) in H.
  unfold trimEnd. rewrite <- in_rev. apply in_rev in H.
  apply (strip_In (List.length (trimStart (list_ascii_of_string s)))
                  (map (@rev ascii) white_space)) in H.
  destruct H as [H|[w [Hw Hc]]]; [exact H|].
  apply in_map_iff in Hw. destruct Hw as [w' [<- Hw']].
  apply in_rev in Hc. now destruct (comma_not_white_space Hw').
Qed.

(** A field of white space alone holds no name. *)
Lemma names_blank s : trim s = "" -> names s = [].
Proof.
  intros E. unfold names. rewrite split_free.
  - simpl. now rewrite E.
  - intros H. apply trim_keeps_comma in H. now rewrite E in H.
Qed.

Lemma names_nonempty s : filter nonempty (names s) = names s.
Proof.
  unfold names. induction (map trim (split "," s)) as [|x l IH]; [reflexivity|].
  simpl. destruct (nonempty x) eqn:E; [|exact IH]. simpl. now rewrite E, IH.
Qed.

Lemma names_join l : names (Str.join ", " l) = flat_map names l.
Proof.
  induction l as [|x l IH]; [reflexivity|].
  destruct l as [|y l].
  - simpl. now rewrite app_nil_r.
  - change (Str.join ", " (x :: y :: l))
      with (x ++ String "," (String " " (Str.join ", " (y :: l))))%string.
    rewrite names_app, names_space, IH. reflexivity.
Qed.

Lemma names_clean x : clean x -> names x = [x].
Proof.
  intros (Hne & Ht & Hc). unfold names. rewrite split_free by exact Hc. simpl.
  rewrite Ht. unfold nonempty. destruct (String.eqb_spec x ""); [contradiction|].
  reflexivity.
Qed.


End Fields.

(* ------------------------------------------------------------------ *)
(** ** The requests of the page *)

Section Requests.

Import BooksPage.

Lemma append_values key values query :
  fold_left (fun query v =>
               if nonempty v then URLSearchParams.append key v query else query)
            values query
  = query ++ map (pair key) (filter nonempty values).
Proof.
  revert query. induction values as [|v values IH]; intros query; simpl.
  - now rewrite app_nil_r.
  - rewrite IH. destruct (nonempty v); [|reflexivity].
    unfold URLSearchParams.append. simpl. now rewrite <- app_assoc.
Qed.

Lemma query_of_from searchParams acc :
  fold_left
    (fun query kv =>
       match snd kv with
       | Multiple values =>
           fold_left (fun query v =>
                        if nonempty v then URLSearchParams.append (fst kv) v query
                        else query)
                     values query
       | Single value =>
           if nonempty value then URLSearchParams.append (fst kv) value query
           else query
       end)
    searchParams acc
  = acc ++ flat_map (fun kv =>
                match snd kv with
                | Multiple values => map (pair (fst kv)) (filter nonempty values)
                | Single value => if nonempty value then [(fst kv, value)] else []
                end) searchParams.
Proof.
  revert acc.
  induction searchParams as [|[key value] searchParams IH]; intros acc; simpl.
  - now rewrite app_nil_r.
  - rewrite IH. destruct value as [value|values]; simpl.
    + destruct (nonempty value); [|reflexivity].
      unfold URLSearchParams.append. now rewrite <- app_assoc.
    + rewrite append_values. now rewrite <- app_assoc.
Qed.

(** The query string of [fetchBooks], key by key. *)
Lemma query_of_flat_map searchParams :
  query_of searchParams
  = flat_map (fun kv =>
                match snd kv with
                | Multiple values => map (pair (fst kv)) (filter nonempty values)
                | Single value => if nonempty value then [(fst kv, value)] else []
                end) searchParams.
Proof. unfold query_of. now rewrite query_of_from. Qed.

Lemma get_skip key k values rest :
  String.eqb k key = false ->
  URLSearchParams.get key (map (pair k) values ++ rest)
  = URLSearchParams.get key rest.
Proof. intros H. induction values as [|v values IH]; simpl; [|rewrite H]; auto. Qed.

Lemma getAll_app key q1 q2 :
  URLSearchParams.getAll key (q1 ++ q2)
  = URLSearchParams.getAll key q1 ++ URLSearchParams.getAll key q2.
Proof. unfold URLSearchParams.getAll. now rewrite filter_app, map_app. Qed.

Lemma getAll_same key values :
  URLSearchParams.getAll key (map (pair key) values) = values.
Proof.
  unfold URLSearchParams.getAll. induction values as [|v values IH]; simpl; [reflexivity|].
  rewrite String.eqb_refl. simpl. now rewrite IH.
Qed.

Lemma getAll_other key k values :
  String.eqb k key = false ->
  URLSearchParams.getAll key (map (pair k) values) = [].
Proof.
  intros H. unfold URLSearchParams.getAll.
  induction values as [|v values IH]; simpl; [reflexivity|]. now rewrite H.
Qed.

Lemma names_if_not_blank field :
  (if nonempty (trim field) then names field else []) = names field.
Proof.
  unfold nonempty. destruct (String.eqb_spec (trim field) ""); simpl; [|reflexivity].
  symmetry. now apply names_blank.
Qed.

(** What GET reads off the request of [handleSearch]: no [id] and no
    [bookId], the trimmed title unless it is empty, and the names of the
    two other fields. *)
Lemma search_request s :
  search_params_of (query_of (search_record s))
  = SearchParams None
      (if nonempty (trim (search_title s)) then Some (trim (search_title s)) else None)
      None (names (search_author s)) (names (search_genre s)).
Proof.
  rewrite query_of_flat_map. unfold search_record.
  rewrite !flat_map_app.
  set (qt := flat_map _ (if nonempty (trim (search_title s)) then _ else _)).
  set (qa := flat_map _ (if nonempty (trim (search_author s)) then _ else _)).
  set (qg := flat_map _ (if nonempty (trim (search_genre s)) then _ else _)).
  assert (Ea : qa = map (pair "author") (names (search_author s))).
  { unfold qa. rewrite <- (names_if_not_blank (search_author s)).
    destruct (nonempty (trim (search_author s))); simpl; [|reflexivity].
    now rewrite names_nonempty, app_nil_r. }
  assert (Eg : qg = map (pair "genre") (names (search_genre s))).
  { unfold qg. rewrite <- (names_if_not_blank (search_genre s)).
    destruct (nonempty (trim (search_genre s))); simpl; [|reflexivity].
    now rewrite names_nonempty, app_nil_r. }
  rewrite Ea, Eg. clear Ea Eg qa qg. unfold search_params_of.
  rewrite !getAll_app, !getAll_same.
  rewrite (@getAll_other "genre" "author"), (@getAll_other "author" "genre")
    by reflexivity.
  rewrite app_nil_r.
  unfold qt. destruct (nonempty (trim (search_title s))) eqn:Et; simpl.
  - rewrite Et. simpl. rewrite !get_skip by reflexivity.
    rewrite <- (app_nil_r (map (pair "genre") _)). rewrite !get_skip by reflexivity.
    reflexivity.
  - rewrite !get_skip by reflexivity.
    rewrite <- (app_nil_r (map (pair "genre") _)). rewrite !get_skip by reflexivity.
    reflexivity.
Qed.

Lemma id_string_nonempty i : id_string i <> "".
Proof.
  unfold id_string. destruct (Z.to_int i) as [d|d]; simpl; [|discriminate].
  unfold NilZero.string_of_uint. destruct d; simpl; discriminate.
Qed.

Lemma id_string_present i : present (Some (id_string i)) = true.
Proof.
  simpl. destruct (String.eqb_spec (id_string i) ""); [|reflexivity].
  now destruct (id_string_nonempty i).
Qed.

End Requests.

(* ------------------------------------------------------------------ *)
(** ** The page against the store *)

Lemma with_title_same b : label_of b = Book -> with_title (title b) b = b.
Proof.
  unfold with_title, label_of, title. destruct b as [i p]. simpl.
  destruct p; simpl; congruence.
Qed.

(** After the POST statement the new book is joined to exactly the
    supplied names. *)
Lemma POST_query_view uuid t authors genres g g' records :
  wf g -> POST_query uuid t authors genres g = (g', records) -> authors <> [] ->
  forall c s, (exists a, linked g' c (next_node g) a /\ name a = s)
              <-> In s (names_of c authors genres).
Proof.
  intros W E Ha. apply POST_query_spec in E; [|exact W].
  destruct E as (W' & Hb & _ & _ & _ & Hrels & CovA & CovG & _).
  set (b := Node (next_node g) (BookP uuid t)) in *.
  intros c s. split.
  - intros (a & (Hain & La & r & Hr & Tr & Hbe & Hfe) & <-).
    destruct (Hrels r Hr) as [Hold|(_ & x & s' & Hx & Hs' & Hpx & Hl)].
    + exfalso.
      destruct (wf_typed W r Hold) as (b0 & x0 & Hb0 & _ & _ & _ & _ & Eb & _).
      rewrite Tr, Hbe in Eb. pose proof (wf_next_node W b0 Hb0). simpl in Eb. lia.
    + rewrite Tr in *. destruct Hl as (_ & _ & Hf).
      assert (a = x) by (apply (@wf_same_id g' a x W' Hain Hx); congruence).
      subst a. now rewrite (@name_of_named c s' x Hpx).
  - intros Hin.
    assert (Cov : exists x r, In x (nodes g') /\ props x = named c s
                    /\ In r (rels g') /\ links_book c r b x).
    { destruct c; simpl in Hin; [apply CovA|apply CovG]; auto. }
    destruct Cov as (x & r & Hx & Hpx & Hr & Tr & Hbe & Hfe).
    exists x. split; [|apply (@name_of_named c s x Hpx)].
    split; [exact Hx|]. split; [apply (@label_of_named c s x Hpx)|].
    exists r. repeat split; auto.
Qed.

(** POST refuses a body of the page without a title, without an author
    or without a genre, and writes nothing. *)
Lemma POST_rejects uuid t authors genres g :
  t = "" \/ authors = [] \/ genres = [] ->
  exists e, POST uuid (body_of t authors genres) g
            = Some (Response 200 false (Err_object e), g).
Proof.
  intros H. unfold POST, POST_validate, destructure, body_of. simpl.
  destruct (String.eqb_spec t "") as [->|Hne]; simpl; [eauto|].
  destruct authors as [|a authors]; simpl; [eauto|].
  destruct genres as [|x genres]; simpl; [eauto|].
  exfalso. destruct H as [H|[H|H]]; [contradiction|discriminate..].
Qed.

(** The rows of the store after the removal of the book [b]. *)
Lemma DELETE_frame g b :
  wf g -> In b (nodes g) -> label_of b = Book ->
  let g' := Graph (filter (fun n => negb (same_node n b)) (nodes g))
                  (filter (fun r => negb ((rstart r =? identity b)
                                          || (rend r =? identity b))) (rels g))
                  (next_node g) (next_rel g) in
  wf g'
  /\ (forall n, In n (nodes g') <-> In n (nodes g) /\ identity n <> identity b)
  /\ (forall i c a, i <> identity b -> (linked g' c i a <-> linked g c i a)).
Proof.
  intros W Hb Lb g'.
  assert (W' : wf g') by now apply wf_detach_delete.
  assert (Hn : forall n, In n (nodes g') <-> In n (nodes g) /\ identity n <> identity b).
  { intros n. unfold g'. simpl. rewrite filter_In. unfold same_node.
    now rewrite negb_true_iff, Z.eqb_neq. }
  assert (Hr : forall r, In r (rels g') <->
                 In r (rels g) /\ rstart r <> identity b /\ rend r <> identity b).
  { intros r. unfold g'. simpl.
    now rewrite filter_In, negb_true_iff, orb_false_iff, !Z.eqb_neq. }
  assert (K : forall n, In n (nodes g) -> label_of n <> Book -> In n (nodes g')).
  { intros n Hin Ln. apply Hn. split; [exact Hin|]. intros E. apply Ln.
    now rewrite (@wf_same_id g n b W Hin Hb E). }
  split; [exact W'|]. split; [exact Hn|]. intros i c a Hi.
  apply (@linked_frame g g' (identity b) W W' K); auto.
  - intros r Hin Hbe. apply Hr.
    destruct (wf_typed W r Hin) as (b1 & x & _ & Hx & _ & Lx & _ & Eb & Ex).
    assert (Hfar : far_end (rtype r) r <> identity b).
    { intros E. rewrite Ex in E.
      pose proof (@wf_same_id g x b W Hx Hb E) as ->.
      rewrite Lb in Lx. symmetry in Lx. now apply far_label_not_Book in Lx. }
    destruct (rtype r); simpl in *; auto.
  - intros r Hin. left. now apply Hr.
Qed.

Section Page.

Import BooksPage.

Variable neo4j_int : string -> Z.

Lemma GET_all g :
  wf g ->
  GET neo4j_int (SearchParams None None None [] []) g
  = Response 200 true
      (Data_list (map (book_view g) (filter (has_label Book) (nodes g)))).
Proof.
  intros W. rewrite (GET_data _ _ W). simpl. do 3 f_equal.
  apply filter_ext. intros b. apply andb_true_r.
Qed.

Lemma fetchBooks_all p g :
  wf g ->
  fetchBooks neo4j_int [] (p, g)
  = (setBooks (map (book_view g) (filter (has_label Book) (nodes g))) p, g).
Proof.
  intros W. unfold fetchBooks.
  change (search_params_of (query_of [])) with (SearchParams None None None [] []).
  now rewrite (GET_all W).
Qed.

Lemma In_listing g d :
  In d (map (book_view g) (filter (has_label Book) (nodes g)))
  <-> exists b, In b (nodes g) /\ label_of b = Book /\ d = book_view g b.
Proof.
  rewrite in_map_iff. split.
  - intros [b [<- Hb]]. apply filter_In in Hb. destruct Hb as [Hb Lb].
    apply has_label_iff in Lb. eauto.
  - intros (b & Hb & Lb & ->). exists b. split; [reflexivity|].
    apply filter_In. split; [exact Hb|]. now apply has_label_iff.
Qed.

Lemma names_join_clean l :
  (forall x, In x l -> clean x) -> names (Str.join ", " l) = l.
Proof.
  intros H. rewrite names_join. induction l as [|x l IH]; [reflexivity|].
  simpl. rewrite names_clean by (apply H; now left).
  simpl. f_equal. apply IH. intros y Hy. apply H. now right.
Qed.

Lemma same_names_linked g g' i i' :
  wf g -> wf g' ->
  (forall c a, linked g' c i' a <-> linked g c i a) ->
  forall b b', identity b = i -> identity b' = i' ->
    (forall s, In s (data_authors (book_view g' b'))
               <-> In s (data_authors (book_view g b)))
    /\ (forall s, In s (data_genres (book_view g' b'))
                  <-> In s (data_genres (book_view g b))).
Proof.
  intros W W' H b b' <- <-.
  destruct (book_view_names b W) as (_ & _ & IA & IG).
  destruct (book_view_names b' W') as (_ & _ & IA' & IG').
  split; intros s; [rewrite IA, IA'|rewrite IG, IG'];
    split; intros [a [Ha E]]; exists a; (split; [apply H, Ha|exact E]).
Qed.

(** The body of an edit form saved as it was filled, for names that
    the fields carry unchanged. *)
Lemma handleEdit_payload (d : book_data) (w : world) :
  (forall s, In s (data_authors d) \/ In s (data_genres d) -> clean s) ->
  payload (form (fst (handleEdit d w)))
  = body_of (trim (data_title d)) (data_authors d) (data_genres d).
Proof.
  intros H. destruct w as [p g]. unfold handleEdit, payload. simpl.
  rewrite !names_join_clean; auto.
Qed.

(** X9. Every name parsed from a comma separated field of the page is
    not empty, has no white space at either end and holds no comma. *)
Theorem parsed_names_are_clean field x :
  In x (names field) ->
  x <> "" /\ trim x = x /\ ~ In ","%char (list_ascii_of_string x).
Proof.
  unfold names. rewrite filter_In, in_map_iff. intros [[p [<- Hp]] Hne].
  split; [|split].
  - unfold nonempty in Hne. destruct (String.eqb_spec (trim p) ""); [discriminate|auto].
  - apply trim_trim.
  - intros H. apply trim_In in H. eapply split_pieces; eauto.
Qed.

(** X10. The body sent when an edit form is saved as [handleEdit] filled
    it: the trimmed title, and every author and genre of the row parsed
    again, so that a name with a comma comes back as several names and
    one of white space alone is dropped; names that are not empty,
    trimmed and free of commas come back as they were. *)
Theorem edit_form_payload (d : book_data) (w : world) :
  payload (form (fst (handleEdit d w)))
  = body_of (trim (data_title d)) (flat_map names (data_authors d))
            (flat_map names (data_genres d))
  /\ ((forall s, In s (data_authors d) \/ In s (data_genres d) -> clean s) ->
      payload (form (fst (handleEdit d w)))
      = body_of (trim (data_title d)) (data_authors d) (data_genres d)).
Proof.
  destruct w as [p g]. unfold handleEdit, payload. simpl. split.
  - now rewrite !names_join.
  - intros H. rewrite !names_join_clean; auto.
Qed.

(** X11. [handleSearch] asks GET for the trimmed title, unless it is
    empty, and for the names parsed from the author and genre fields,
    never for an [id] or a [bookId]; the answer replaces the list of the
    page, the rest of the page and the store stay as they are. *)
Theorem handleSearch_request (p : state) (g : graph) :
  let title' := trim (search_title (search p)) in
  exists data,
    GET neo4j_int
        (SearchParams None (if nonempty title' then Some title' else None) None
                      (names (search_author (search p)))
                      (names (search_genre (search p)))) g
    = Response 200 true (Data_list data)
    /\ handleSearch neo4j_int (p, g) = (setBooks data p, g).
Proof.
  intros title'. unfold handleSearch, fetchBooks. simpl fst.
  rewrite search_request. fold title'. unfold GET.
  destruct (GET_query _ g) as [g0 records]. simpl. eauto.
Qed.

(** X12. Submitting the form while no book is edited: the form is
    cleared and the list fetched again whatever the server answered; a
    blank title, or an author or genre field without a name, leaves the
    store as it was; otherwise the list shows a new book with the identity
    of the counter, the [bookId] of the server, the trimmed title and
    exactly the parsed names. *)
Theorem handleSubmit_creates uuid (p : state) (g : graph) :
  wf g -> editingBook p = None ->
  let t := trim (form_title (form p)) in
  let authors := names (form_authors (form p)) in
  let genres := names (form_genres (form p)) in
  exists p' g',
    handleSubmit neo4j_int uuid (p, g) = Some (p', g')
    /\ form p' = Form "" "" "" /\ editingBook p' = None /\ search p' = search p
    /\ (forall d, In d (books p') <->
          exists b, In b (nodes g') /\ label_of b = Book /\ d = book_view g' b)
    /\ (t = "" \/ authors = [] \/ genres = [] -> g' = g)
    /\ (t <> "" -> authors <> [] -> genres <> [] ->
        exists d, In d (books p')
          /\ data_id d = next_node g /\ data_bookId d = uuid /\ data_title d = t
          /\ (forall s, In s (data_authors d) <-> In s authors)
          /\ (forall s, In s (data_genres d) <-> In s genres)).
Proof.
  intros W He t authors genres. unfold handleSubmit. rewrite He.
  unfold payload. fold t authors genres.
  assert (D : (t = "" \/ authors = [] \/ genres = [])
              \/ (t <> "" /\ authors <> [] /\ genres <> [])).
  { destruct (string_dec t "") as [->|Ht]; [auto|].
    destruct authors; [auto|]. destruct genres; [auto|].
    right. repeat split; auto; discriminate. }
  destruct D as [Hbad|(Ht & Ha & Hg)].
  - destruct (POST_rejects uuid g Hbad) as [e ->].
    rewrite fetchBooks_all by exact W. eexists _, _. split; [reflexivity|].
    simpl. repeat split; auto; try apply In_listing.
    intros Ht Ha Hg. exfalso. destruct Hbad as [H|[H|H]]; contradiction.
  - rewrite (@POST_carries uuid _ t authors genres g (carries_body_of _ _ Ht) Ha Hg).
    destruct (POST_query uuid t authors genres g) as [g' records] eqn:E.
    pose proof (@POST_query_view _ _ _ _ _ _ _ W E Ha) as Hview.
    pose proof E as S. apply POST_query_spec in S; [|exact W].
    destruct S as (W' & Hb & _).
    set (b := Node (next_node g) (BookP uuid t)) in *.
    assert (R : match records with
                | [] => Some (Response 200 false (Err_object no_record), g')
                | (b, authors, genres) :: _ =>
                    Some (Response 200 true
                            (Data_created
                               (CreatedData (identity b) (bookId b) (title b)
                                  (map (fun _ => None) authors)
                                  (map (fun _ => None) genres))), g')
                end = Some (match records with
                            | [] => Response 200 false (Err_object no_record)
                            | (b, authors, genres) :: _ =>
                                Response 200 true
                                  (Data_created
                                     (CreatedData (identity b) (bookId b) (title b)
                                        (map (fun _ => None) authors)
                                        (map (fun _ => None) genres)))
                            end, g')).
    { destruct records as [|[[? ?] ?] ?]; reflexivity. }
    rewrite R. rewrite fetchBooks_all by exact W'.
    eexists _, _. split; [reflexivity|]. simpl.
    split; [reflexivity|]. split; [reflexivity|]. split; [reflexivity|].
    split; [apply In_listing|]. split.
    { intros [H|[H|H]]; contradiction. }
    intros _ _ _. exists (book_view g' b). split.
    { apply In_listing. exists b. auto. }
    destruct (book_view_names b W') as (_ & _ & IA & IG).
    split; [reflexivity|]. split; [reflexivity|]. split; [reflexivity|].
    split; intros s; [rewrite IA|rewrite IG]; apply Hview.
Qed.

(** X13. Opening a row for editing and saving it unchanged leaves the
    store as it was, provided the row has an author, its title is not
    empty and has no white space around it, and its names are not empty,
    trimmed and free of commas: the nodes are the same and every book is
    joined to the same authors and genres.  The form is cleared and the
    list fetched again. *)
Theorem edit_then_save_changes_nothing uuid (p : state) (g : graph) (b : node) :
  wf g -> In b (nodes g) -> label_of b = Book ->
  neo4j_int (id_string (identity b)) = identity b ->
  let d := book_view g b in
  data_title d <> "" -> trim (data_title d) = data_title d ->
  data_authors d <> [] ->
  (forall s, In s (data_authors d) \/ In s (data_genres d) -> clean s) ->
  exists p' g',
    handleSubmit neo4j_int uuid (handleEdit d (p, g)) = Some (p', g')
    /\ (forall n, In n (nodes g') <-> In n (nodes g))
    /\ (forall i c a, linked g' c i a <-> linked g c i a)
    /\ form p' = Form "" "" "" /\ editingBook p' = None /\ search p' = search p
    /\ (forall d', In d' (books p') <->
          exists b', In b' (nodes g') /\ label_of b' = Book /\ d' = book_view g' b').
Proof.
  intros W Hb Lb Hid d Ht Htrim Ha Hclean.
  pose proof (@handleEdit_payload d (p, g) Hclean) as Hpay.
  assert (Hw : handleEdit d (p, g) = (fst (handleEdit d (p, g)), g)) by reflexivity.
  assert (He : editingBook (fst (handleEdit d (p, g))) = Some d) by reflexivity.
  rewrite Hw. unfold handleSubmit. rewrite He, Hpay, Htrim. simpl data_id.
  set (t := data_title d) in *. set (authors := data_authors d) in *.
  set (genres := data_genres d) in *.
  rewrite (@PUT_carries neo4j_int _ _ t authors genres g
             (id_string_present _) (carries_body_of _ _ Ht)).
  simpl param. rewrite Hid.
  destruct (PUT_query (identity b) t authors genres g) as [g' records] eqn:E.
  pose proof (@PUT_query_view _ _ _ _ _ _ _ _ W Hb Lb eq_refl E Ha) as Hview.
  destruct (@PUT_query_found _ _ _ _ _ _ _ _ W Hb Lb eq_refl E)
    as (W' & Hb' & _ & Hkeep & Hnodes & Hold & Hrels & _).
  assert (Eb : with_title t b = b) by exact (@with_title_same b Lb).
  rewrite Eb in *.
  destruct (book_view_names b W) as (_ & _ & IA & IG).
  assert (Hsame : forall c s, In s (names_of c authors genres)
                    <-> exists a, linked g c (identity b) a /\ name a = s).
  { intros [|] s; simpl; [apply IA|apply IG]. }
  assert (K : forall n, In n (nodes g) -> label_of n <> Book -> In n (nodes g')).
  { intros n Hn Ln. apply Hkeep; [exact Hn|]. intros En. apply Ln.
    now rewrite (@wf_same_id g n b W Hn Hb En). }
  assert (N : forall n, In n (nodes g') <-> In n (nodes g)).
  { intros n. split.
    - intros Hn. destruct (Hnodes n Hn) as [->|[[H _]|(c & s & Hs & Hp)]]; auto.
      apply Hsame in Hs. destruct Hs as (a & (Hain & La & _) & Ea).
      assert (a = n); [|now subst].
      apply (wf_names W'); auto.
      + apply K; [exact Hain|]. rewrite La. apply far_label_not_Book.
      + rewrite La. apply far_label_not_Book.
      + rewrite Hp, <- Ea. now apply named_name.
    - intros Hn. destruct (Z.eq_dec (identity n) (identity b)) as [En|En].
      + now rewrite (@wf_same_id g n b W Hn Hb En).
      + now apply Hkeep. }
  assert (R : match records with
              | [] => Some (Response 404 false (Error_text "Book not found"), g')
              | (b, authors, genres) :: _ =>
                  Some (Response 200 true
                          (Data_book (BookData (identity b) (bookId b) (title b)
                                        authors genres)), g')
              end = Some (match records with
                          | [] => Response 404 false (Error_text "Book not found")
                          | (b, authors, genres) :: _ =>
                              Response 200 true
                                (Data_book (BookData (identity b) (bookId b) (title b)
                                              authors genres))
                          end, g')).
  { destruct records as [|[[? ?] ?] ?]; reflexivity. }
  rewrite R. rewrite fetchBooks_all by exact W'.
  eexists _, _. split; [reflexivity|]. simpl.
  split; [exact N|]. split; [|repeat split; auto; apply In_listing].
  intros i c a. destruct (Z.eq_dec i (identity b)) as [->|Hi].
  - split.
    + intros H. pose proof H as (Hain & La & _).
      destruct (proj1 (Hsame c (name a))) as (a0 & H0 & E0).
      { apply Hview. eauto. }
      assert (a0 = a); [|now subst].
      destruct H0 as (Hain0 & La0 & _).
      apply (wf_names W'); auto.
      * now apply N.
      * rewrite La0. apply far_label_not_Book.
      * rewrite (named_name c a0 La0), (named_name c a La). now rewrite E0.
    + intros H. pose proof H as (Hain & La & _).
      destruct (proj2 (Hview c (name a))) as (a1 & H1 & E1).
      { apply Hsame. eauto. }
      assert (a1 = a); [|now subst].
      destruct H1 as (Hain1 & La1 & _).
      apply (wf_names W'); auto.
      * now apply N.
      * rewrite La1. apply far_label_not_Book.
      * rewrite (named_name c a1 La1), (named_name c a La). now rewrite E1.
  - apply (@linked_frame g g' (identity b) W W' K); auto.
    intros r Hr. destruct (Hrels r Hr) as [[H _]|(_ & x & s & _ & _ & _ & Hl)]; auto.
    right. destruct Hl as (_ & Hbe & _). exact Hbe.
Qed.

(** X14. [handleDelete] does nothing when the user declines; when the
    user confirms, the book leaves the store and the list, and every
    other book stays in the list with its identity, [bookId], title and
    the same authors and genres.  The form and the book being edited are
    not touched. *)
Theorem handleDelete_removes_the_row (p : state) (g : graph) (b : node) :
  wf g -> In b (nodes g) -> label_of b = Book ->
  neo4j_int (id_string (identity b)) = identity b ->
  handleDelete neo4j_int false (id_string (identity b)) (p, g) = (p, g)
  /\ exists p' g',
      handleDelete neo4j_int true (id_string (identity b)) (p, g) = (p', g')
      /\ (forall n, In n (nodes g') <-> In n (nodes g) /\ n <> b)
      /\ (forall d, In d (books p') -> data_id d <> identity b)
      /\ (forall b0, In b0 (nodes g) -> label_of b0 = Book -> b0 <> b ->
            exists d0, In d0 (books p') /\ data_id d0 = identity b0
              /\ data_bookId d0 = bookId b0 /\ data_title d0 = title b0
              /\ (forall s, In s (data_authors d0)
                            <-> In s (data_authors (book_view g b0)))
              /\ (forall s, In s (data_genres d0)
                            <-> In s (data_genres (book_view g b0))))
      /\ editingBook p' = editingBook p /\ form p' = form p /\ search p' = search p.
Proof.
  intros W Hb Lb Hid. split; [reflexivity|].
  unfold handleDelete, DELETE. rewrite id_string_present. cbn [negb param].
  rewrite Hid, (@DELETE_query_found _ g b W Hb Lb eq_refl). cbv iota.
  destruct (@DELETE_frame g b W Hb Lb) as (W' & Hn & Hframe).
  set (g' := Graph _ _ _ _) in *.
  rewrite fetchBooks_all by exact W'.
  eexists _, _. split; [reflexivity|]. simpl books.
  assert (Hne : forall n, In n (nodes g) -> (identity n <> identity b <-> n <> b)).
  { intros n Hin. split; [congruence|]. intros H E. apply H.
    exact (@wf_same_id g n b W Hin Hb E). }
  split.
  { intros n. rewrite Hn. split; intros [H1 H2]; (split; [exact H1|]);
      now apply (Hne n H1). }
  split.
  { intros d0 Hd. apply In_listing in Hd. destruct Hd as (b0 & Hb0 & _ & ->).
    apply Hn in Hb0. apply Hb0. }
  split; [|auto].
  intros b0 Hb0 Lb0 Nb0. apply (Hne b0 Hb0) in Nb0.
  exists (book_view g' b0). split.
  { apply In_listing. exists b0. split; [now apply Hn|auto]. }
  split; [reflexivity|]. split; [reflexivity|]. split; [reflexivity|].
  apply (@same_names_linked g g' (identity b0) (identity b0) W W'); auto.
Qed.

End Page.

(* ------------------------------------------------------------------ *)
(** ** PUT and the book that is not there *)

Section NotFound.

Variable neo4j_int : string -> Z.

(** X15. A PUT whose id no book has answers 404 "Book not found" and
    writes nothing, not even the Author and Genre nodes of its lists; and
    when both lists have an entry, the answer 404 is given for such an id
    only. *)
Theorem PUT_not_found idParam body t authors genres g :
  wf g -> present idParam = true -> carries body t authors genres ->
  ((forall b, In b (nodes g) -> label_of b = Book ->
              identity b <> neo4j_int (param idParam)) ->
   PUT neo4j_int idParam body g
   = Some (Response 404 false (Error_text "Book not found"), g))
  /\ (authors <> [] -> genres <> [] ->
      forall resp g', PUT neo4j_int idParam body g = Some (resp, g') ->
        status resp = 404 ->
        forall b, In b (nodes g) -> label_of b = Book ->
                  identity b <> neo4j_int (param idParam)).
Proof.
  intros W Hp Hc. split.
  - intros Hno. now apply (@PUT_no_book neo4j_int idParam body t authors genres g).
  - intros Ha Hg resp g' H Hs b Hb Lb Ib.
    rewrite (@PUT_carries neo4j_int idParam body t authors genres g Hp Hc) in H.
    destruct (PUT_query (neo4j_int (param idParam)) t authors genres g)
      as [g1 records] eqn:E.
    destruct (@PUT_query_found _ _ _ _ _ _ _ _ W Hb Lb Ib E) as (_ & _ & Hrec & _).
    destruct records as [|[[b0 na] ng] records].
    + destruct (proj1 Hrec eq_refl); contradiction.
    + injection H as <- _. discriminate.
Qed.

End NotFound.

(* ------------------------------------------------------------------ *)
(** ** The further properties on the small store *)

Lemma PUT_validation_fails_before_write_witness :
  present (Some "0") = true
  /\ JObj [("authors", JArr [JStr "A"])] <> JNull
  /\ PUT decimal (Some "0") (JObj [("authors", JArr [JStr "A"])]) sample
     = Some (Response 500 false (Error_text "Error: Book title missing"), sample).
Proof.
  split; [reflexivity|]. split; [discriminate|].
  refine (proj1 (@PUT_validation_fails_before_write decimal (Some "0")
                   (JObj [("authors", JArr [JStr "A"])]) sample eq_refl _) eq_refl).
  discriminate.
Defined.

Lemma reachable_store_has_no_dangling_relationship_witness :
  reachable decimal sample
  /\ NoDup (map identity (nodes sample)) /\ NoDup (map rel_id (rels sample)).
Proof.
  split; [exact sample_reachable|].
  destruct (@reachable_store_has_no_dangling_relationship decimal sample
              sample_reachable) as (H1 & H2 & _).
  split; assumption.
Defined.

Lemma GET_by_id_witness :
  wf sample
  /\ present (Some "0") = true
  /\ exists data,
       GET decimal (SearchParams (Some "0") None None [] []) sample
       = Response 200 true (Data_list data)
       /\ (List.length data <= 1)%nat.
Proof.
  split; [exact sample_wf|]. split; [reflexivity|].
  destruct (@GET_by_id decimal (SearchParams (Some "0") None None [] []) sample
              sample_wf eq_refl) as (data & E & Hl & _).
  exists data. split; assumption.
Defined.

Lemma POST_creates_one_book_witness :
  wf empty_graph
  /\ carries (body_of "Dune" ["A"] ["X"]) "Dune" ["A"] ["X"]
  /\ POST "u1" (body_of "Dune" ["A"] ["X"]) empty_graph
     = Some (Response 200 true
               (Data_created (CreatedData 0 "u1" "Dune" [None] [None])), sample)
  /\ In (Node 0 (BookP "u1" "Dune")) (nodes sample).
Proof.
  assert (C : carries (body_of "Dune" ["A"] ["X"]) "Dune" ["A"] ["X"]).
  { apply carries_body_of. discriminate. }
  split; [exact wf_empty|]. split; [exact C|]. split; [exact sample_POST|].
  exact (proj1 (proj2 (proj2
           (@POST_creates_one_book "u1" _ _ _ _ _ _ _
              wf_empty C sample_POST eq_refl)))).
Defined.

Lemma POST_then_GET_witness :
  wf empty_graph
  /\ carries (body_of "Dune" ["A"] ["X"]) "Dune" ["A"] ["X"]
  /\ POST "u1" (body_of "Dune" ["A"] ["X"]) empty_graph
     = Some (Response 200 true
               (Data_created (CreatedData 0 "u1" "Dune" [None] [None])), sample)
  /\ decimal "0" = next_node empty_graph
  /\ exists d,
       GET decimal (SearchParams (Some "0") None None [] []) sample
       = Response 200 true (Data_list [d])
       /\ data_bookId d = "u1" /\ data_title d = "Dune".
Proof.
  assert (C : carries (body_of "Dune" ["A"] ["X"]) "Dune" ["A"] ["X"]).
  { apply carries_body_of. discriminate. }
  split; [exact wf_empty|]. split; [exact C|]. split; [exact sample_POST|].
  split; [reflexivity|].
  destruct (@POST_then_GET decimal "u1" _ _ _ _ _ _ _ (Some "0")
              wf_empty C sample_POST eq_refl eq_refl eq_refl)
    as (d & E & _ & Hb & Ht & _).
  exists d. repeat split; assumption.
Defined.

Lemma PUT_touches_one_book_witness :
  wf sample
  /\ PUT decimal (Some "0") (body_of "Dune II" ["C"] ["Y"]) sample
     = Some (Response 200 true (Data_book sample_updated_data), sample_updated)
  /\ exists b', In b' (nodes sample_updated) /\ label_of b' = Book
                /\ identity b' = identity dune /\ bookId b' = bookId dune.
Proof.
  split; [exact sample_wf|]. split; [exact sample_PUT|].
  exact (proj1 (proj2 (@PUT_touches_one_book decimal _ _ _ _ _
                         sample_wf sample_PUT))
           dune (or_introl eq_refl) eq_refl).
Defined.

Lemma PUT_answers_with_the_new_state_witness :
  wf sample
  /\ carries (body_of "Dune II" ["C"] ["Y"]) "Dune II" ["C"] ["Y"]
  /\ PUT decimal (Some "0") (body_of "Dune II" ["C"] ["Y"]) sample
     = Some (Response 200 true (Data_book sample_updated_data), sample_updated)
  /\ exists b names_a names_g,
       In b (nodes sample)
       /\ Response 200 true (Data_book sample_updated_data)
          = Response 200 true
              (Data_book (BookData (identity b) (bookId b) "Dune II"
                            names_a names_g))
       /\ (forall s, In s names_a <-> In s ["C"]).
Proof.
  split; [exact sample_wf|]. split; [exact (dune_II_carries ["C"] ["Y"])|].
  split; [exact sample_PUT|].
  destruct (@PUT_answers_with_the_new_state decimal (Some "0") _ _ _ _ _ _ _
              sample_wf (dune_II_carries ["C"] ["Y"]) sample_PUT eq_refl)
    as (b & na & ng & Hb & _ & _ & E & _ & Ha & _).
  exists b, na, ng. repeat split; try assumption; apply Ha.
Defined.

Lemma DELETE_then_witness :
  wf sample
  /\ present (Some "0") = true
  /\ In dune (nodes sample)
  /\ identity dune = decimal "0"
  /\ DELETE decimal (Some "0") (snd (DELETE decimal (Some "0") sample))
     = (Response 200 true (DeletedCount 0), snd (DELETE decimal (Some "0") sample)).
Proof.
  split; [exact sample_wf|]. split; [reflexivity|].
  split; [left; reflexivity|]. split; [reflexivity|].
  exact (proj1 (@DELETE_then decimal (Some "0") sample
                  (fst (DELETE decimal (Some "0") sample))
                  (snd (DELETE decimal (Some "0") sample)) dune
                  sample_wf eq_refl (or_introl eq_refl) eq_refl eq_refl
                  (surjective_pairing _))).
Defined.

Lemma parsed_names_are_clean_witness :
  In "Jane Austen" (BooksPage.names "Jane Austen , A")
  /\ BooksPage.trim "Jane Austen" = "Jane Austen".
Proof.
  assert (H : In "Jane Austen" (BooksPage.names "Jane Austen , A")).
  { left. reflexivity. }
  split; [exact H|].
  exact (proj1 (proj2 (@parsed_names_are_clean "Jane Austen , A" "Jane Austen" H))).
Defined.

Lemma handleSubmit_creates_witness :
  wf sample
  /\ BooksPage.editingBook sample_page = None
  /\ exists p' g',
       BooksPage.handleSubmit decimal "u2" (sample_page, sample) = Some (p', g')
       /\ BooksPage.form p' = BooksPage.Form "" "" ""
       /\ exists d, In d (BooksPage.books p')
            /\ data_id d = 3 /\ data_bookId d = "u2" /\ data_title d = "Emma"
            /\ (forall s, In s (data_authors d) <-> In s ["Jane Austen"; "A"])
            /\ (forall s, In s (data_genres d) <-> In s ["Novel"]).
Proof.
  split; [exact sample_wf|]. split; [reflexivity|].
  destruct (@handleSubmit_creates decimal "u2" sample_page sample sample_wf eq_refl)
    as (p' & g' & E & Hf & _ & _ & _ & _ & Hnew).
  exists p', g'. split; [exact E|]. split; [exact Hf|].
  apply Hnew; discriminate.
Defined.

Lemma edit_then_save_changes_nothing_witness :
  wf sample
  /\ In dune (nodes sample)
  /\ decimal (id_string (identity dune)) = identity dune
  /\ BooksPage.trim (data_title (book_view sample dune))
     = data_title (book_view sample dune)
  /\ exists p' g',
       BooksPage.handleSubmit decimal "u2"
         (BooksPage.handleEdit (book_view sample dune) (sample_page, sample))
       = Some (p', g')
       /\ (forall n, In n (nodes g') <-> In n (nodes sample))
       /\ (forall i c a, linked g' c i a <-> linked sample c i a).
Proof.
  split; [exact sample_wf|]. split; [left; reflexivity|].
  split; [reflexivity|]. split; [reflexivity|].
  assert (Hc : forall s, In s (data_authors (book_view sample dune))
                         \/ In s (data_genres (book_view sample dune)) -> clean s).
  { intros s [[<-|[]]|[<-|[]]]; (split; [discriminate|]);
      (split; [reflexivity|]); unfold comma_free; simpl; intuition discriminate. }
  destruct (@edit_then_save_changes_nothing decimal "u2" sample_page sample dune
              sample_wf (or_introl eq_refl) eq_refl eq_refl) as (p' & g' & E & N & L & _).
  - discriminate.
  - reflexivity.
  - discriminate.
  - exact Hc.
  - exists p', g'. split; [exact E|]. split; [exact N|exact L].
Defined.

Lemma handleDelete_removes_the_row_witness :
  wf sample
  /\ In dune (nodes sample)
  /\ decimal (id_string (identity dune)) = identity dune
  /\ exists p' g',
       BooksPage.handleDelete decimal true (id_string (identity dune))
         (sample_page, sample) = (p', g')
       /\ (forall d, In d (BooksPage.books p') -> data_id d <> identity dune).
Proof.
  split; [exact sample_wf|]. split; [left; reflexivity|]. split; [reflexivity|].
  destruct (@handleDelete_removes_the_row decimal sample_page sample dune
              sample_wf (or_introl eq_refl) eq_refl eq_refl)
    as (_ & p' & g' & E & _ & H & _).
  exists p', g'. split; assumption.
Defined.

Lemma PUT_not_found_witness :
  wf sample
  /\ present (Some "7") = true
  /\ carries (body_of "Dune II" ["C"] ["Y"]) "Dune II" ["C"] ["Y"]
  /\ PUT decimal (Some "7") (body_of "Dune II" ["C"] ["Y"]) sample
     = Some (Response 404 false (Error_text "Book not found"), sample).
Proof.
  split; [exact sample_wf|]. split; [reflexivity|].
  split; [exact (dune_II_carries ["C"] ["Y"])|].
  refine (proj1 (@PUT_not_found decimal (Some "7") _ _ _ _ sample
                   sample_wf eq_refl (dune_II_carries ["C"] ["Y"])) _).
  intros b [<-|[<-|[<-|[]]]]; discriminate.
Defined.
